(** * Verification model of the ExploreBlueV2 recommendation backend

    Shallow embedding of the services under [backend/app/services]:
    the in-memory cache ([memory_cache_service.py]), the quota and rate-limit
    service ([quota_service.py]), the vector service
    ([vector_service.py]), the usage service ([usage_service.py]) and the
    blocking recommendation pipeline ([recommendation_service.py]).

    Conventions.
    - Wall-clock instants ([datetime.utcnow()]) and [timedelta]s are integers
      counting microseconds, the resolution of Python's [datetime].
    - Python values stored in caches and data frames are the inductive
      [pyval]; numpy [float64] values are Rocq's primitive binary64 floats.
    - A raised Python exception is the [Raise] branch of the [outcome]
      monad; [try/except Exception] is [catch]. *)

From Stdlib Require Import ZArith Lia Floats Sorting.Sorted.
From stdpp Require Import base gmap strings list pretty.

Open Scope Z_scope.
#[local] Set Warnings "-register-all".

(* ------------------------------------------------------------------ *)
(** ** Python values and exceptions *)

Inductive pyval :=
  | PyNone
  | PyBool (b : bool)
  | PyInt (z : Z)
  | PyStr (s : string)
  | PyVec (v : list float)               (* a list of Python floats *)
  | PyList (l : list pyval)
  | PyDict (d : list (string * pyval)).

(** Python truthiness, used by [x or y] and [if x:]. *)
Definition py_truthy (v : pyval) : bool :=
  match v with
  | PyNone => false
  | PyBool b => b
  | PyInt z => negb (z =? 0)
  | PyStr s => negb (bool_decide (s = ""))
  | PyVec l => negb (bool_decide (l = []))
  | PyList l => negb (bool_decide (l = []))
  | PyDict d => negb (bool_decide (d = []))
  end.

(** [x or d] *)
Definition py_or (x : option pyval) (d : pyval) : pyval :=
  match x with
  | Some v => if py_truthy v then v else d
  | None => d
  end.

Inductive exn :=
  | NameError (name : string)
  | KeyError (key : string)
  | TypeError
  | ValueError (msg : string)
  | RuntimeError (msg : string)
  | ValidationError
  | OverflowError (msg : string)
  | UpstreamError (msg : string).   (* an error raised by an external provider *)

Inductive outcome (A : Type) :=
  | Ok (a : A)
  | Raise (e : exn).
Arguments Ok {A} a.
Arguments Raise {A} e.

Global Instance outcome_ret : MRet outcome := fun _ a => Ok a.
Global Instance outcome_bind : MBind outcome := fun _ _ k m =>
  match m with Ok a => k a | Raise e => Raise e end.

(** [try: m except Exception: h] *)
Definition catch {A} (m : outcome A) (h : exn -> A) : A :=
  match m with Ok a => a | Raise e => h e end.

(** [a + b] on Python values, as used by [increment]. *)
Definition py_add_int (v : pyval) (amount : Z) : outcome pyval :=
  match v with
  | PyInt z => Ok (PyInt (z + amount))
  | PyBool b => Ok (PyInt ((if b then 1 else 0) + amount))
  | _ => Raise TypeError
  end.

(** [v >= n] for an integer [n]. *)
Definition py_ge_int (v : pyval) (n : Z) : outcome bool :=
  match v with
  | PyInt z => Ok (bool_decide (n <= z))
  | PyBool b => Ok (bool_decide (n <= if b then 1 else 0))
  | _ => Raise TypeError
  end.

(** Durations, in microseconds. *)
Definition seconds (n : Z) : Z := n * 1000000.
Definition minutes (n : Z) : Z := seconds (60 * n).
Definition hours (n : Z) : Z := minutes (60 * n).
Definition days (n : Z) : Z := hours (24 * n).

(* ------------------------------------------------------------------ *)
(** ** [MemoryCacheService] *)

Module MemCache.

(** [self.cache], [self.expiry] and [self.default_expire]. *)
Record state := mk {
  cache : gmap string pyval;
  expiry : gmap string Z;
  default_expire : Z
}.

Definition init (cache_ttl_seconds : Z) : state :=
  mk ∅ ∅ (seconds cache_ttl_seconds).

Definition is_expired (now : Z) (s : state) (key : string) : bool :=
  match expiry s !! key with
  | Some t => t <? now
  | None => false
  end.

(** [_cleanup_expired]: pop every key whose expiry is strictly before now. *)
Definition cleanup_expired (now : Z) (s : state) : state :=
  mk (filter (fun kv : string * pyval => is_expired now s kv.1 = false) (cache s))
     (filter (fun kt : string * Z => (kt.2 <? now) = false) (expiry s))
     (default_expire s).

Definition get (now : Z) (key : string) (s : state) : state * option pyval :=
  let s' := cleanup_expired now s in (s', cache s' !! key).

(** [set]: [expire_time = expire or self.default_expire]; a zero
    [timedelta] is falsy, so it falls back to the default, and a zero
    default records no expiry. *)
Definition set (now : Z) (key : string) (value : pyval) (expire : option Z)
    (s : state) : state * bool :=
  let expire_time :=
    match expire with
    | Some d => if d =? 0 then default_expire s else d
    | None => default_expire s
    end in
  let expiry' := if expire_time =? 0 then expiry s
                 else <[key := now + expire_time]> (expiry s) in
  (mk (<[key := value]> (cache s)) expiry' (default_expire s), true).

Definition delete (key : string) (s : state) : state * bool :=
  (mk (base.delete key (cache s)) (base.delete key (expiry s)) (default_expire s),
   bool_decide (is_Some (cache s !! key))).

Definition exists_ (now : Z) (key : string) (s : state) : state * bool :=
  let s' := cleanup_expired now s in (s', bool_decide (is_Some (cache s' !! key))).

Definition increment (now : Z) (key : string) (amount : Z) (s : state)
    : state * outcome pyval :=
  let s' := cleanup_expired now s in
  let current := default (PyInt 0) (cache s' !! key) in
  match py_add_int current amount with
  | Ok new_value =>
      (mk (<[key := new_value]> (cache s')) (expiry s') (default_expire s'), Ok new_value)
  | Raise e => (s', Raise e)
  end.

Definition get_many (now : Z) (keys : list string) (s : state)
    : state * list (string * pyval) :=
  let s' := cleanup_expired now s in
  (s', omap (fun k => (fun v => (k, v)) <$> cache s' !! k) keys).

(** An entry that a read at [now] may observe: present, and its expiry
    instant (if any) not yet passed. *)
Definition observable (now : Z) (s : state) (key : string) (v : pyval) : Prop :=
  cache s !! key = Some v /\ forall t, expiry s !! key = Some t -> now <= t.

(** [set_many]: one expiry instant for all the items when [expire_time]
    is truthy ([items] is a dict: its keys are distinct). *)
Definition set_many (now : Z) (items : list (string * pyval)) (expire : option Z)
    (s : state) : state * bool :=
  let expire_time :=
    match expire with
    | Some d => if d =? 0 then default_expire s else d
    | None => default_expire s
    end in
  let expiry_timestamp := if expire_time =? 0 then None else Some (now + expire_time) in
  (fold_left (fun st kv =>
                mk (<[kv.1 := kv.2]> (cache st))
                   (match expiry_timestamp with
                    | Some t => <[kv.1 := t]> (expiry st)
                    | None => expiry st
                    end)
                   (default_expire st))
             items s, true).

(** [pattern.replace("*", "")] *)
Fixpoint remove_stars (p : string) : string :=
  match p with
  | EmptyString => EmptyString
  | String a p' => if Ascii.eqb a (Ascii.ascii_of_nat 42) (* asterisk *) then remove_stars p' else String a (remove_stars p')
  end.

(** [clear_pattern]: no cleanup first, so expired keys are counted too. *)
Definition clear_pattern (pattern : string) (s : state) : state * Z :=
  let p := remove_stars pattern in
  let matching_keys := filter (fun k => String.prefix p k = true) (map fst (map_to_list (cache s))) in
  (mk (filter (fun kv : string * pyval => String.prefix p kv.1 = false) (cache s))
      (filter (fun kt : string * Z => kt.1 ∉ matching_keys) (expiry s))
      (default_expire s),
   Z.of_nat (length matching_keys)).

End MemCache.

(* ------------------------------------------------------------------ *)
(** ** Users and settings ([models/user.py], [core/config.py]) *)

Inductive UserRole := STUDENT | GRADUATE_STUDENT | FACULTY | STAFF | ADMIN | GUEST.

(** [UserRole.value] *)
Definition role_value (r : UserRole) : string :=
  match r with
  | STUDENT => "student"
  | GRADUATE_STUDENT => "graduate_student"
  | FACULTY => "faculty"
  | STAFF => "staff"
  | ADMIN => "admin"
  | GUEST => "guest"
  end.

Record User := mkUser {
  user_id : string;
  user_role : UserRole;
  user_department : option string
}.

(** The quota fields of a settings object; [None] when the settings class
    has no such attribute, so that [getattr] falls back to its default. *)
Record Settings := mkSettings {
  role_quotas : option (gmap string Z);
  department_quotas : option (gmap string Z)
}.

(* ------------------------------------------------------------------ *)
(** ** [QuotaService] *)

Module Quota.

Definition rate_limit_key (uid : string) (now : Z) : string :=
  "rate_limit:" +:+ uid +:+ ":" +:+ pretty (now `div` minutes 1).

Definition today (now : Z) : Z := now `div` days 1.

Definition daily_usage_key (uid : string) (day : Z) : string :=
  "daily_usage:" +:+ uid +:+ ":" +:+ pretty day.

Definition quota_override_key (uid : string) : string :=
  "quota_override:" +:+ uid.

Record decision := mkDecision {
  allowed : bool;
  current_count : pyval;
  limit : Z;
  reset_time : Z;
  retry_after : option Z
}.

(** [_get_rate_limit_for_user]: [base_limits.get(user.role, 10)]. *)
Definition base_limits : list (UserRole * Z) :=
  [(GUEST, 5); (STUDENT, 20); (GRADUATE_STUDENT, 30); (FACULTY, 50); (STAFF, 40); (ADMIN, 100)].

Definition role_eqb (a b : UserRole) : bool :=
  bool_decide (role_value a = role_value b).

Definition get_rate_limit_for_user (user : User) : Z :=
  match find (fun p => role_eqb p.1 (user_role user)) base_limits with
  | Some p => p.2
  | None => 10
  end.

(** The default of [getattr(self.settings, 'role_quotas', {...})]. *)
Definition default_role_quotas : gmap string Z :=
  list_to_map [("guest", 10); ("student", 50); ("graduate_student", 75);
               ("faculty", 200); ("staff", 100); ("admin", 1000)].

(** [_get_quota_for_user]. The override key is computed but never read
    ("For now, assume no override"). *)
Definition get_quota_for_user (settings : Settings) (user : User) : Z :=
  let _quota_override_key := quota_override_key (user_id user) in
  let rq := default default_role_quotas (role_quotas settings) in
  let base_quota := default 50 (rq !! role_value (user_role user)) in
  let dq := default ∅ (department_quotas settings) in
  match user_department user with
  | Some d =>
      if negb (bool_decide (d = "")) then
        match dq !! d with Some q => q | None => base_quota end
      else base_quota
  | None => base_quota
  end.

(** [check_rate_limit]; every cache call of one check sees the same [now]. *)
Definition check_rate_limit (now : Z) (user : User) (c : MemCache.state)
    : MemCache.state * outcome decision :=
  let key := rate_limit_key (user_id user) now in
  let '(c1, got) := MemCache.get now key c in
  let current := py_or got (PyInt 0) in
  let rate_limit := get_rate_limit_for_user user in
  match py_ge_int current rate_limit with
  | Raise e => (c1, Raise e)
  | Ok true =>
      (c1, Ok (mkDecision false current rate_limit (now + minutes 1) (Some 60)))
  | Ok false =>
      let '(c2, inc) := MemCache.increment now key 1 c1 in
      match inc with
      | Raise e => (c2, Raise e)
      | Ok _ =>
          match py_add_int current 1 with
          | Raise e => (c2, Raise e)
          | Ok next =>
              let '(c3, _) := MemCache.set now key next (Some (minutes 1)) c2 in
              (c3, Ok (mkDecision true next rate_limit (now + minutes 1) None))
          end
      end
  end.

(** [check_quota] *)
Definition check_quota (settings : Settings) (now : Z) (user : User) (c : MemCache.state)
    : MemCache.state * outcome decision :=
  let day := today now in
  let '(c1, got) := MemCache.get now (daily_usage_key (user_id user) day) c in
  let current_usage := py_or got (PyInt 0) in
  let quota_limit := get_quota_for_user settings user in
  match py_ge_int current_usage quota_limit with
  | Raise e => (c1, Raise e)
  | Ok exceeded =>
      (c1, Ok (mkDecision (negb exceeded) current_usage quota_limit (days (day + 1)) None))
  end.

(** [record_request] (the quota counter, not the usage ledger). *)
Definition record_request (now : Z) (user : User) (c : MemCache.state)
    : MemCache.state * bool :=
  let day := today now in
  let key := daily_usage_key (user_id user) day in
  let '(c1, inc) := MemCache.increment now key 1 c in
  match inc with
  | Raise _ => (c1, false)
  | Ok _ =>
      let expire_delta := days (day + 2) - now in
      let '(c2, got) := MemCache.get now key c1 in
      let current := py_or got (PyInt 1) in
      let '(c3, _) := MemCache.set now key current (Some expire_delta) c2 in
      (c3, true)
  end.

(** [update_user_quota] *)
Definition update_user_quota (now : Z) (uid : string) (new_quota : Z) (c : MemCache.state)
    : MemCache.state * bool :=
  let '(c1, _) := MemCache.set now (quota_override_key uid) (PyInt new_quota) (Some (days 30)) c in
  (c1, true).

(** Successive rate-limit checks of one user at the instants [times];
    each check reports whether it was allowed. *)
Fixpoint rate_limit_run (user : User) (times : list Z) (c : MemCache.state)
    : MemCache.state * list bool :=
  match times with
  | [] => (c, [])
  | t :: ts =>
      let '(c1, r) := check_rate_limit t user c in
      let '(c2, flags) := rate_limit_run user ts c1 in
      (c2, match r with Ok d => allowed d | Raise _ => false end :: flags)
  end.

(** The cache left by an accepted [check_rate_limit]: [increment] (after a
    second cleanup) followed by [set] with a one-minute expiry. *)
Definition accepted_state (now : Z) (key : string) (next : pyval) (c : MemCache.state)
    : MemCache.state :=
  (MemCache.set now key next (Some (minutes 1))
     (MemCache.mk (<[key := next]> (MemCache.cache (MemCache.cleanup_expired now (MemCache.cleanup_expired now c))))
         (MemCache.expiry (MemCache.cleanup_expired now (MemCache.cleanup_expired now c)))
         (MemCache.default_expire c))).1.

(** [reset_user_quota]: [delete] of today's usage key (it never raises). *)
Definition reset_user_quota (now : Z) (uid : string) (c : MemCache.state) : MemCache.state * bool :=
  MemCache.delete (daily_usage_key uid (today now)) c.

Record quota_info := mkQuotaInfo {
  qi_user_id : string;
  qi_current_usage : pyval;
  qi_quota_limit : Z;
  qi_remaining : Z;
  qi_reset_time : Z;
  qi_quota_type : string
}.

(** [n - v] for an integer [n]. *)
Definition py_int_sub (n : Z) (v : pyval) : outcome Z :=
  match v with
  | PyInt z => Ok (n - z)
  | PyBool b => Ok (n - if b then 1 else 0)
  | _ => Raise TypeError
  end.

(** [get_quota_info] *)
Definition get_quota_info (settings : Settings) (now : Z) (user : User) (c : MemCache.state)
    : MemCache.state * outcome quota_info :=
  let day := today now in
  let '(c1, got) := MemCache.get now (daily_usage_key (user_id user) day) c in
  let current_usage := py_or got (PyInt 0) in
  let quota_limit := get_quota_for_user settings user in
  match py_int_sub quota_limit current_usage with
  | Raise e => (c1, Raise e)
  | Ok d => (c1, Ok (mkQuotaInfo (user_id user) current_usage quota_limit (Z.max 0 d)
                       (days (day + 1)) "daily"))
  end.

End Quota.

(* ------------------------------------------------------------------ *)
(** ** numpy arithmetic on [float64] *)

Module Np.

Local Open Scope float_scope.

(** [np.dot] of two vectors of equal length, summed left to right. *)
Definition dot (a b : list float) : float :=
  fold_left (fun acc xy => acc + fst xy * snd xy) (combine a b) 0.

(** [np.linalg.norm] of a vector: [sqrt] of the sum of squares. *)
Definition norm (v : list float) : float := sqrt (dot v v).

(** [np.divide(x, y, out=np.zeros_like(x), where=y != 0)] on one entry. *)
Definition divide_where_nonzero (x y : float) : float :=
  if negb (y =? 0) then x / y else 0.

(** numpy's sort order on floats: NaN sorts after every other value. *)
Definition lt (x y : float) : bool :=
  (x <? y) || (is_nan y && negb (is_nan x)).

End Np.

(* ------------------------------------------------------------------ *)
(** ** numpy's default [np.argsort] on [float64]

    [np.argsort(a)] sorts with [kind="quicksort"]. numpy's generic
    implementation of that kind is the introsort [aquicksort_] of
    [npysort/quicksort.cpp], with the heapsort [aheapsort_] of
    [npysort/heapsort.cpp] as its fallback; on CPUs where numpy dispatches
    a vectorised argsort (x86 with AVX-512 or AVX2) that one runs instead.
    Neither is stable. The C code below works on [tosort], the array of
    indices, through pointers into it; the pointers are integer positions
    here. Every loop of the C code runs at most [length v + 1] times, so
    [fuel] never runs out. *)

Module NpSort.

Section AQuickSort.
Variable v : list float.

Definition fuel : nat := S (S (length v)).

(** [SMALL_QUICKSORT] *)
Definition SMALL_QUICKSORT : Z := 16.

(** [v[i]] and [Tag::less] *)
Definition val (i : nat) : float := default 0%float (v !! i).
Definition less (x y : float) : bool := Np.lt x y.

(** [*p] and [*p = x] on [tosort] *)
Definition rd (a : list nat) (p : Z) : nat := default 0%nat (a !! Z.to_nat p).
Definition wr (a : list nat) (p : Z) (x : nat) : list nat := <[Z.to_nat p := x]> a.

(** [INTP_SWAP( *p, *q)] *)
Definition swap (a : list nat) (p q : Z) : list nat := wr (wr a p (rd a q)) q (rd a p).

(** [do { ++pi; } while (Tag::less(v[*pi], vp));] *)
Fixpoint scan_up (n : nat) (a : list nat) (vp : float) (pi : Z) : Z :=
  let pi := pi + 1 in
  match n with
  | O => pi
  | S n => if less (val (rd a pi)) vp then scan_up n a vp pi else pi
  end.

(** [do { --pj; } while (Tag::less(vp, v[*pj]));] *)
Fixpoint scan_down (n : nat) (a : list nat) (vp : float) (pj : Z) : Z :=
  let pj := pj - 1 in
  match n with
  | O => pj
  | S n => if less vp (val (rd a pj)) then scan_down n a vp pj else pj
  end.

(** The inner [for (;;)] of the partition: it stops when [pi >= pj]. *)
Fixpoint partition_loop (n : nat) (a : list nat) (vp : float) (pi pj : Z) : list nat * Z :=
  match n with
  | O => (a, pi)
  | S n =>
      let pi := scan_up fuel a vp pi in
      let pj := scan_down fuel a vp pj in
      if pj <=? pi then (a, pi)
      else partition_loop n (swap a pi pj) vp pi pj
  end.

(** One quicksort partition of [[pl, pr]] around the median of three;
    the pivot ends at the returned position [pi]. *)
Definition partition (a : list nat) (pl pr : Z) : list nat * Z :=
  let pm := pl + Z.shiftr (pr - pl) 1 in
  let a := if less (val (rd a pm)) (val (rd a pl)) then swap a pm pl else a in
  let a := if less (val (rd a pr)) (val (rd a pm)) then swap a pr pm else a in
  let a := if less (val (rd a pm)) (val (rd a pl)) then swap a pm pl else a in
  let vp := val (rd a pm) in
  let a := swap a pm (pr - 1) in
  let '(a, pi) := partition_loop fuel a vp pl (pr - 1) in
  (swap a pi (pr - 1), pi).

(** [while ((pr - pl) > SMALL_QUICKSORT) { ... }]: the larger part is
    pushed on the stack with [--cdepth], the loop goes on with the
    smaller one. The stack holds [(pl, pr, depth)] triples. *)
Fixpoint quick_loop (n : nat) (a : list nat) (pl pr cdepth : Z) (stack : list (Z * Z * Z))
    : list nat * Z * Z * list (Z * Z * Z) :=
  match n with
  | O => (a, pl, pr, stack)
  | S n =>
      if SMALL_QUICKSORT <? pr - pl then
        let '(a, pi) := partition a pl pr in
        let cdepth := cdepth - 1 in
        if pi - pl <? pr - pi
        then quick_loop n a pl (pi - 1) cdepth ((pi + 1, pr, cdepth) :: stack)
        else quick_loop n a (pi + 1) pr cdepth ((pl, pi - 1, cdepth) :: stack)
      else (a, pl, pr, stack)
  end.

(** [while (pj > pl && Tag::less(vp, v[*pk])) { *pj-- = *pk--; }] *)
Fixpoint shift (n : nat) (a : list nat) (vp : float) (pl pj : Z) : list nat * Z :=
  match n with
  | O => (a, pj)
  | S n =>
      if (pl <? pj) && less vp (val (rd a (pj - 1)))
      then shift n (wr a pj (rd a (pj - 1))) vp pl (pj - 1)
      else (a, pj)
  end.

(** The insertion sort of [[pl, pr]], from [pi = pl + 1]. *)
Fixpoint insertion (n : nat) (a : list nat) (pl pi pr : Z) : list nat :=
  match n with
  | O => a
  | S n =>
      if pr <? pi then a
      else
        let vi := rd a pi in
        let '(a, pj) := shift fuel a (val vi) pl pi in
        insertion n (wr a pj vi) pl (pi + 1) pr
  end.

(** [aheapsort_] on the [num] entries from [base]: its array [a] is
    [tosort - 1], indexed from 1. *)
Definition hget (a : list nat) (base k : Z) : nat := rd a (base + k - 1).
Definition hset (a : list nat) (base k : Z) (x : nat) : list nat := wr a (base + k - 1) x.

(** [for (; j <= num;) { ... }]: sift [tmp] down from [i]; the final [i]
    is where [tmp] goes. *)
Fixpoint sift (n : nat) (a : list nat) (base num : Z) (tmp : nat) (i j : Z) : list nat * Z :=
  match n with
  | O => (a, i)
  | S n =>
      if num <? j then (a, i)
      else
        let j := if (j <? num) && less (val (hget a base j)) (val (hget a base (j + 1)))
                 then j + 1 else j in
        if less (val tmp) (val (hget a base j))
        then sift n (hset a base i (hget a base j)) base num tmp j (j + j)
        else (a, i)
  end.

(** [for (l = n >> 1; l > 0; --l) { ... }] *)
Fixpoint heapify (n : nat) (a : list nat) (base num l : Z) : list nat :=
  match n with
  | O => a
  | S n =>
      if l <=? 0 then a
      else
        let tmp := hget a base l in
        let '(a, i) := sift fuel a base num tmp l (l + l) in
        heapify n (hset a base i tmp) base num (l - 1)
  end.

(** [for (; n > 1;) { ... }] *)
Fixpoint extract (n : nat) (a : list nat) (base num : Z) : list nat :=
  match n with
  | O => a
  | S n =>
      if num <=? 1 then a
      else
        let tmp := hget a base num in
        let a := hset a base num (hget a base 1) in
        let num := num - 1 in
        let '(a, i) := sift fuel a base num tmp 1 2 in
        extract n (hset a base i tmp) base num
  end.

Definition aheapsort (a : list nat) (base num : Z) : list nat :=
  extract fuel (heapify fuel a base num (Z.shiftr num 1)) base num.

(** The outer [for (;;)] of [aquicksort_]: a segment whose depth budget
    is spent is heap-sorted, any other is partitioned down to at most
    [SMALL_QUICKSORT + 1] entries and insertion-sorted; then the next
    segment is popped. *)
Fixpoint outer (n : nat) (a : list nat) (pl pr cdepth : Z) (stack : list (Z * Z * Z)) : list nat :=
  match n with
  | O => a
  | S n =>
      let '(a, stack) :=
        if cdepth <? 0 then (aheapsort a pl (pr - pl + 1), stack)
        else
          let '(a, pl', pr', stack) := quick_loop fuel a pl pr cdepth stack in
          (insertion fuel a pl' (pl' + 1) pr', stack) in
      match stack with
      | [] => a
      | (pl, pr, cdepth) :: stack => outer n a pl pr cdepth stack
      end
  end.

(** [np.argsort(v)]: [tosort] starts as [0, 1, ..., n - 1] and
    [cdepth = npy_get_msb(n) * 2]. *)
Definition argsort : list nat :=
  let n := Z.of_nat (length v) in
  outer fuel (seq 0 (length v)) 0 (n - 1) (2 * Z.log2 n) [].

End AQuickSort.

End NpSort.

(* ------------------------------------------------------------------ *)
(** ** Courses and data frames ([models/course.py]) *)

Record Course := mkCourse {
  course_id : string;
  course_code : string;
  course_title : string;
  course_description : string;
  course_level : Z;
  course_department : string
}.

Record SimilarCourse := mkSimilar {
  sc_course : Course;
  sc_score : float;
  sc_explanation : option string
}.

Record CourseFilter := mkFilter {
  f_levels : option (list Z);
  f_departments : option (list string);
  f_include_inactive : bool
}.

(** A pandas [DataFrame]: its column names and its rows, each row mapping
    column names to cells (a missing cell reads as [None]). *)
Record DataFrame := mkFrame {
  df_columns : list string;
  df_rows : list (list (string * pyval))
}.

Definition empty_frame : DataFrame := mkFrame [] [].

Definition assoc_get (k : string) (row : list (string * pyval)) : option pyval :=
  snd <$> find (fun p => bool_decide (p.1 = k)) row.

Definition cell (row : list (string * pyval)) (c : string) : pyval :=
  default PyNone (assoc_get c row).

Definition has_column (df : DataFrame) (c : string) : bool :=
  bool_decide (c ∈ df_columns df).

(** [df[df[c].<pred>]]; [df[c]] raises [KeyError] on a missing column. *)
Definition filter_rows (df : DataFrame) (c : string) (p : pyval -> bool) : outcome DataFrame :=
  if has_column df c then Ok (mkFrame (df_columns df) (filter (fun r => p (cell r c) = true) (df_rows df)))
  else Raise (KeyError c).

(** [Series.isin] on integer and string cells, and [== True]. *)
Definition isin_ints (zs : list Z) (v : pyval) : bool :=
  match v with
  | PyInt z => bool_decide (z ∈ zs)
  | PyBool b => bool_decide ((if b then 1 else 0) ∈ zs)
  | _ => false
  end.

Definition isin_strs (ss : list string) (v : pyval) : bool :=
  match v with PyStr s => bool_decide (s ∈ ss) | _ => false end.

Definition eq_true (v : pyval) : bool :=
  match v with PyBool b => b | PyInt z => z =? 1 | _ => false end.

Module Vector.

(** [_apply_filters] *)
Definition apply_filters (df : DataFrame) (filters : option CourseFilter) : outcome DataFrame :=
  match filters with
  | None => Ok df
  | Some f =>
      df1 ← (match f_levels f with
             | Some ((_ :: _) as ls) => filter_rows df "level" (isin_ints ls)
             | _ => Ok df
             end);
      df2 ← (match f_departments f with
             | Some ((_ :: _) as ds) => filter_rows df1 "department" (isin_strs ds)
             | _ => Ok df1
             end);
      if negb (f_include_inactive f) && has_column df2 "is_active"
      then filter_rows df2 "is_active" eq_true
      else Ok df2
  end.

(** [np.array(courses_df["embedding"].tolist())]: every cell must be a
    list of floats, all of one length (a ragged list raises). *)
Definition embeddings_matrix (cells : list pyval) : outcome (list (list float)) :=
  rows ← mapM (fun v => match v with PyVec e => Ok e | _ => Raise (ValueError "setting an array element with a sequence") end) cells;
  match rows with
  | [] => Ok []
  | r :: _ =>
      if forallb (fun e => Nat.eqb (length e) (length r)) rows then Ok rows
      else Raise (ValueError "inhomogeneous shape")
  end.

(** The vectorised core of [_calculate_similarities], once the matrix and
    the query have shapes that [np.dot] accepts. *)
Definition cosine_similarities (m : list (list float)) (q : list float) : list float :=
  map (fun e => Np.divide_where_nonzero (Np.dot e q) (Np.norm e * Np.norm q)%float) m.

(** [_calculate_similarities] *)
Definition calculate_similarities (query : list float) (df : DataFrame) : outcome (list float) :=
  if Nat.eqb (length (df_rows df)) 0 then Ok []
  else
    cells ← (if has_column df "embedding" then Ok (map (fun r => cell r "embedding") (df_rows df))
             else Raise (KeyError "embedding"));
    m ← embeddings_matrix cells;
    if forallb (fun e => Nat.eqb (length e) (length query)) m
    then Ok (cosine_similarities m query)
    else Raise (ValueError "shapes not aligned").

(** What the search relies on from [np.argsort(s)]: a permutation of the
    positions of [s] along which the values never decrease in numpy's
    order (NaN last). It is what any correct argsort gives; it leaves
    the order of equal values open, which numpy's default kind does not
    fix either. *)
Definition argsort_contract (argsort : list float -> list nat) : Prop :=
  forall s, argsort s ≡ₚ seq 0 (length s) /\
    StronglySorted (fun i j => Np.lt (default 0%float (s !! j)) (default 0%float (s !! i)) = false)
      (argsort s).

(** [np.argsort(s, kind="stable")]: equal values keep their order. *)
Fixpoint insert_index (s : list float) (i : nat) (l : list nat) : list nat :=
  match l with
  | [] => [i]
  | j :: l' =>
      if Np.lt (default 0%float (s !! j)) (default 0%float (s !! i))
      then j :: insert_index s i l'
      else i :: l
  end.

Definition stable_argsort (s : list float) : list nat :=
  foldr (insert_index s) [] (seq 0 (length s)).

(** Python's [a[start:]] for an integer [start] (negative counts from the end). *)
Definition py_slice_from {A} (start : Z) (l : list A) : list A :=
  let n := Z.of_nat (length l) in
  let st := if start <? 0 then Z.max 0 (start + n) else Z.min start n in
  drop (Z.to_nat st) l.

(** Python's [a[:stop]]. *)
Definition py_slice_to {A} (stop : Z) (l : list A) : list A :=
  let n := Z.of_nat (length l) in
  let st := if stop <? 0 then Z.max 0 (stop + n) else Z.min stop n in
  take (Z.to_nat st) l.

(** [Course(...)] from a row: pydantic checks each field's type. *)
Definition get_field (df : DataFrame) (row : list (string * pyval)) (c : string) : outcome pyval :=
  if has_column df c then Ok (cell row c) else Raise (KeyError c).

Definition as_str (v : pyval) : outcome string :=
  match v with PyStr s => Ok s | _ => Raise ValidationError end.

Definition as_int (v : pyval) : outcome Z :=
  match v with PyInt z => Ok z | _ => Raise ValidationError end.

Definition build_course (df : DataFrame) (row : list (string * pyval)) : outcome Course :=
  id ← get_field df row "id" ≫= as_str;
  code ← get_field df row "course" ≫= as_str;
  title ← get_field df row "title" ≫= as_str;
  descr ← get_field df row "description" ≫= as_str;
  level ← get_field df row "level" ≫= as_int;
  dept ← as_str (if has_column df "department" then cell row "department" else PyStr "Unknown");
  Ok (mkCourse id code title descr level dept).

(** The loop over [top_indices], keeping similarities above [0.5]. *)
Definition collect (df : DataFrame) (sims : list float) (idxs : list nat)
    : outcome (list SimilarCourse) :=
  mapM (fun idx =>
          let s := default 0%float (sims !! idx) in
          c ← build_course df (default [] (df_rows df !! idx));
          Ok (mkSimilar c s None))
       (filter (fun idx => (0.5 <? default 0%float (sims !! idx))%float = true) idxs).

(** [_load_course_data]: [snapshot] is what reading [embeddings.pkl]
    gives (an empty frame when the file is missing); any error leaves an
    empty frame. *)
Definition load_course_data (snapshot : outcome DataFrame) : DataFrame :=
  catch snapshot (fun _ => empty_frame).

(** The search itself, for the [np.argsort] in use, [argsort]. *)
Section Search.
Variable argsort : list float -> list nat.

(** The indices visited by the result loop:
    [np.argsort(similarities)[-limit:][::-1]]. *)
Definition top_indices (sims : list float) (limit : Z) : list nat :=
  reverse (py_slice_from (- limit) (argsort sims)).

(** The body of the [try] block of [search_similar_courses], once the
    corpus is loaded. *)
Definition search_body (corpus : DataFrame) (query : list float)
    (filters : option CourseFilter) (limit : Z) : outcome (list SimilarCourse) :=
  if Nat.eqb (length (df_rows corpus)) 0 then Ok []
  else
    filtered ← apply_filters corpus filters;
    if Nat.eqb (length (df_rows filtered)) 0 then Ok []
    else
      sims ← calculate_similarities query filtered;
      collect filtered sims (top_indices sims limit).

(** [search_similar_courses]: [courses_data] is [self._courses_data]. *)
Definition search_similar_courses (snapshot : outcome DataFrame)
    (courses_data : option DataFrame) (query : list float)
    (filters : option CourseFilter) (limit : Z)
    : option DataFrame * list SimilarCourse :=
  let corpus := match courses_data with
                | Some df => df
                | None => load_course_data snapshot
                end in
  (Some corpus, catch (search_body corpus query filters limit) (fun _ => [])).

End Search.

End Vector.

(* ------------------------------------------------------------------ *)
(** ** [VectorService.generate_embedding] *)

Module Embedding.

(** The names bound at the top level of [vector_service.py]: its imports,
    [logger] and the class itself. [timedelta] is not among them. *)
Definition module_globals : list string :=
  ["np"; "pd"; "List"; "Dict"; "Any"; "Optional"; "logging"; "asyncio";
   "lru_cache"; "hashlib"; "VectorServiceInterface"; "CacheServiceInterface";
   "Course"; "CourseEmbedding"; "CourseFilter"; "SimilarCourse"; "BaseSettings";
   "logger"; "VectorService"].

(** Evaluating a global name: [NameError] when it is unbound. *)
Definition load_global (name : string) : outcome unit :=
  if bool_decide (name ∈ module_globals) then Ok () else Raise (NameError name).

(** [timedelta(hours=n)] evaluated inside [vector_service.py]. *)
Definition timedelta_hours (n : Z) : outcome Z :=
  load_global "timedelta";; Ok (hours n).

Section GenerateEmbedding.

(** [hashlib.md5(text.encode()).hexdigest()] *)
Variable md5_hexdigest : string -> string.

(** [generate_embedding]. [client] says whether [self.openai_client] is
    set; [provider] is [openai_client.embeddings.create] followed by
    [response.data[0].embedding]. *)
Definition generate_embedding (client : bool) (provider : string -> outcome (list float))
    (now : Z) (text : string) (c : MemCache.state) : MemCache.state * outcome pyval :=
  if negb client then (c, Raise (RuntimeError "OpenAI client not initialized"))
  else
    let cache_key := "embedding:" +:+ md5_hexdigest text in
    let '(c1, cached) := MemCache.get now cache_key c in
    (* the [try] block, run on a cache miss *)
    let compute :=
      match provider text with
      | Raise e => (c1, Raise e)
      | Ok embedding =>
          match timedelta_hours 24 with
          | Raise e => (c1, Raise e)
          | Ok ttl =>
              let '(c2, _) := MemCache.set now cache_key (PyVec embedding) (Some ttl) c1 in
              (c2, Ok (PyVec embedding))
          end
      end in
    match cached with
    | Some v => if py_truthy v then (c1, Ok v) else compute
    | None => compute
    end.

End GenerateEmbedding.

End Embedding.

(* ------------------------------------------------------------------ *)
(** ** The course-embedding store and statistics of [VectorService] *)

Module VectorStore.

(** [timedelta(days=n)] evaluated inside [vector_service.py]. *)
Definition timedelta_days (n : Z) : outcome Z :=
  Embedding.load_global "timedelta";; Ok (days n).

Definition course_embedding_key (cid : string) : string :=
  "course_embedding:" +:+ cid.

(** [d[k] = v] on a dict: the value of an existing key is replaced in
    place, a new key is appended. *)
Fixpoint dict_set (d : list (string * pyval)) (k : string) (v : pyval) : list (string * pyval) :=
  match d with
  | [] => [(k, v)]
  | (k', v') :: d' => if bool_decide (k = k') then (k, v) :: d' else (k', v') :: dict_set d' k v
  end.

(** [obj[k] = v] with a string key: only a dict supports it (a list wants
    an integer index, the other values have no item assignment). *)
Definition py_setitem_str (obj : pyval) (k : string) (v : pyval) : outcome pyval :=
  match obj with
  | PyDict d => Ok (PyDict (dict_set d k v))
  | _ => Raise TypeError
  end.

Section Store.

(** [CourseEmbedding(course=..., embedding=..., embedding_model=...).dict()]
    (pydantic accepts the typed arguments, so it does not raise). *)
Variable embedding_dict : Course -> list float -> pyval.

(** [datetime.utcnow().isoformat()] at an instant. *)
Variable isoformat : Z -> string.

(** [store_course_embedding]: the arguments of [cache_service.set] are
    evaluated before the call, [timedelta(days=7)] among them. *)
Definition store_course_embedding (now : Z) (course : Course) (embedding : list float)
    (c : MemCache.state) : MemCache.state * bool :=
  let cache_key := course_embedding_key (course_id course) in
  let value := embedding_dict course embedding in
  catch (ttl ← timedelta_days 7;
         Ok ((MemCache.set now cache_key value (Some ttl) c).1, true))
        (fun _ => (c, false)).

(** [update_course_embedding] over [MemoryCacheService], whose [get]
    returns the stored object itself: an item assignment on it is seen
    through the cache. *)
Definition update_course_embedding (now : Z) (cid : string) (embedding : list float)
    (c : MemCache.state) : MemCache.state * bool :=
  let cache_key := course_embedding_key cid in
  let '(c1, existing_data) := MemCache.get now cache_key c in
  match existing_data with
  | Some d =>
      if py_truthy d then
        match py_setitem_str d "embedding" (PyVec embedding) with
        | Raise _ => (c1, false)
        | Ok d1 =>
            let c2 := MemCache.mk (<[cache_key := d1]> (MemCache.cache c1))
                                  (MemCache.expiry c1) (MemCache.default_expire c1) in
            match Embedding.load_global "datetime" with
            | Raise _ => (c2, false)
            | Ok _ =>
                match py_setitem_str d1 "embedding_created_at" (PyStr (isoformat now)) with
                | Raise _ => (c2, false)
                | Ok d2 =>
                    let c3 := MemCache.mk (<[cache_key := d2]> (MemCache.cache c2))
                                          (MemCache.expiry c2) (MemCache.default_expire c2) in
                    match timedelta_days 7 with
                    | Raise _ => (c3, false)
                    | Ok ttl => ((MemCache.set now cache_key d2 (Some ttl) c3).1, true)
                    end
                end
            end
        end
      else (c1, false)
  | None => (c1, false)
  end.

End Store.

(** [delete_course_embedding] ([delete] never raises). *)
Definition delete_course_embedding (cid : string) (c : MemCache.state) : MemCache.state * bool :=
  MemCache.delete (course_embedding_key cid) c.

(** [len(v)] *)
Definition py_len (v : pyval) : outcome Z :=
  match v with
  | PyStr s => Ok (Z.of_nat (String.length s))
  | PyVec l => Ok (Z.of_nat (length l))
  | PyList l => Ok (Z.of_nat (length l))
  | PyDict d => Ok (Z.of_nat (length d))
  | _ => Raise TypeError
  end.

Record collection_stats := mkStats {
  total_courses : Z;
  embedding_dimension : Z;
  departments : Z;
  levels_seen : list pyval;
  last_updated : string
}.

(** The dict [get_collection_stats] returns: the statistics, or
    [{"error": str(e)}] for the exception [e] it caught. *)
Inductive stats_result :=
  | Stats (st : collection_stats)
  | StatsError (e : exn).

Section Stats.

(** pandas' [Series.nunique()] and [sorted(Series.unique().tolist())] on
    a column's cells. *)
Variable nunique : list pyval -> outcome Z.
Variable sorted_unique : list pyval -> outcome (list pyval).
Variable isoformat : Z -> string.

Definition column (df : DataFrame) (c : string) : list pyval :=
  map (fun r => cell r c) (df_rows df).

(** [get_collection_stats]: the dict literal's values are evaluated in
    order; [datetime] is not imported by [vector_service.py]. *)
Definition get_collection_stats (now : Z) (snapshot : outcome DataFrame)
    (courses_data : option DataFrame) : option DataFrame * stats_result :=
  let corpus := match courses_data with
                | Some df => df
                | None => Vector.load_course_data snapshot
                end in
  let body :=
    let total := Z.of_nat (length (df_rows corpus)) in
    dim ← (match df_rows corpus with
           | r :: _ => Vector.get_field corpus r "embedding" ≫= py_len
           | [] => Ok 0
           end);
    deps ← (if has_column corpus "department" then nunique (column corpus "department") else Ok 0);
    lvls ← (if has_column corpus "level" then sorted_unique (column corpus "level") else Ok []);
    Embedding.load_global "datetime";;
    Ok (mkStats total dim deps lvls (isoformat now)) in
  (Some corpus, match body with Ok st => Stats st | Raise e => StatsError e end).

End Stats.

End VectorStore.

(* ------------------------------------------------------------------ *)
(** ** [UsageService.record_request] and [RecommendationService] *)

Module Pipeline.

Record UsageRecord := mkUsage {
  u_user_id : string;
  u_success : bool;
  u_error_message : option string;
  u_results_returned : option Z
}.

Record Request := mkRequest {
  query : string;
  levels : option (list Z);
  max_results : Z;
  include_explanations : bool
}.

Record Response := mkResponse {
  recommendations : list SimilarCourse;
  total_courses_searched : Z;
  search_explanation : string;
  generated_course_description : option string
}.

(** The collaborators of [RecommendationService]: the external calls of
    [LLMService], the [VectorServiceInterface] methods it uses, and the
    cache write of [UsageService]. *)
Record Services := mkServices {
  llm_client : bool;                       (* [LLMService.openai_client] is set *)
  chat_description : string -> outcome string;
  chat_recommendations : string -> list (list (string * pyval)) -> outcome string;
  chat_explanation : Course -> string -> outcome (option string);
  vector_generate_embedding : string -> outcome (list float);
  vector_search : list float -> option CourseFilter -> Z -> outcome (list SimilarCourse);
  usage_cache_store : UsageRecord -> outcome unit
}.

Definition no_client {A} : outcome A := Raise (RuntimeError "OpenAI client not initialized").

(** [LLMService.generate_course_description] (its cache lookup is part of
    [chat_description]). *)
Definition generate_course_description (svc : Services) (q : string) : outcome string :=
  if llm_client svc then chat_description svc q else no_client.

Definition generate_recommendations_text (svc : Services) (q : string)
    (courses : list (list (string * pyval))) : outcome string :=
  if llm_client svc then chat_recommendations svc q courses else no_client.

Definition explanation_fallback : string := "Unable to generate explanation at this time.".

(** [LLMService.explain_recommendation]: a failing provider call yields
    the fallback text. *)
Definition explain_recommendation (svc : Services) (c : Course) (q : string)
    : outcome (option string) :=
  if llm_client svc
  then Ok (catch (chat_explanation svc c q) (fun _ => Some explanation_fallback))
  else no_client.

(** [UsageService.record_request]: the record is appended to
    [self.usage_records] before the cache write, whose failure is
    caught. *)
Definition record_request (svc : Services) (ledger : list UsageRecord) (r : UsageRecord)
    : list UsageRecord * bool :=
  (ledger ++ [r], catch (usage_cache_store svc r;; Ok true) (fun _ => false)).

Definition course_dict (sc : SimilarCourse) : list (string * pyval) :=
  [("course_code", PyStr (course_code (sc_course sc)));
   ("title", PyStr (course_title (sc_course sc)));
   ("description", PyStr (course_description (sc_course sc)));
   ("level", PyInt (course_level (sc_course sc)));
   ("department", PyStr (course_department (sc_course sc)))].

(** Step 6: each of [similar_courses[:max_results]] without an
    explanation gets one; the objects are shared with [similar_courses]. *)
Definition add_explanations (svc : Services) (q : string) (scs : list SimilarCourse)
    : outcome (list SimilarCourse) :=
  mapM (fun sc =>
          if py_truthy (default PyNone (PyStr <$> sc_explanation sc)) then Ok sc
          else e ← explain_recommendation svc (sc_course sc) q;
               Ok (mkSimilar (sc_course sc) (sc_score sc) e))
       scs.

Definition no_match_message : string :=
  "No courses found matching your query and level preferences.".

(** The [try] block of [get_recommendations]; it returns the ledger as
    left by step 7. *)
Definition recommend_body (svc : Services) (req : Request) (user : option User)
    (ledger : list UsageRecord) : list UsageRecord * outcome Response :=
  let run :=
    ideal_description ← generate_course_description svc (query req);
    query_embedding ← vector_generate_embedding svc ideal_description;
    let course_filter := mkFilter (levels req) None false in
    similar_courses ← vector_search svc query_embedding (Some course_filter)
                        (Z.min 50 (max_results req * 3));
    Ok (ideal_description, similar_courses) in
  match run with
  | Raise e => (ledger, Raise e)
  | Ok (ideal_description, similar_courses) =>
      if bool_decide (similar_courses = []) then
        (ledger, Ok (mkResponse [] 0 no_match_message None))
      else
        let course_data := map course_dict (Vector.py_slice_to (max_results req * 2) similar_courses) in
        match generate_recommendations_text svc (query req) course_data with
        | Raise e => (ledger, Raise e)
        | Ok _ =>
            let head := Vector.py_slice_to (max_results req) similar_courses in
            let explained :=
              if include_explanations req then add_explanations svc (query req) head
              else Ok head in
            match explained with
            | Raise e => (ledger, Raise e)
            | Ok head' =>
                let similar_courses' :=
                  head' ++ drop (length head) similar_courses in
                let ledger' :=
                  match user with
                  | Some u => fst (record_request svc ledger
                                     (mkUsage (user_id u) true None
                                        (Some (Z.of_nat (length (Vector.py_slice_to (max_results req) similar_courses'))))))
                  | None => ledger
                  end in
                (ledger', Ok (mkResponse (Vector.py_slice_to (max_results req) similar_courses')
                                (Z.of_nat (length similar_courses'))
                                ("Found " +:+ pretty (Z.of_nat (length similar_courses'))
                                   +:+ " relevant courses based on your interests.")
                                (Some ideal_description)))
            end
        end
  end.

(** [get_recommendations]: on an exception the failure is recorded with
    [error_message=str(e)] and the exception re-raised. [exn_str] is
    [str(e)]. *)
Definition get_recommendations (svc : Services) (exn_str : exn -> string) (req : Request)
    (user : option User) (ledger : list UsageRecord) : list UsageRecord * outcome Response :=
  match recommend_body svc req user ledger with
  | (ledger1, Ok resp) => (ledger1, Ok resp)
  | (ledger1, Raise e) =>
      match user with
      | Some u => (fst (record_request svc ledger1 (mkUsage (user_id u) false (Some (exn_str e)) None)), Raise e)
      | None => (ledger1, Raise e)
      end
  end.

End Pipeline.

(* ------------------------------------------------------------------ *)
(** ** [RecommendationService.get_similar_courses] *)

Module SimilarCourses.
Import Pipeline.

(** [course_repository.get_course_embedding(course_id)], reduced to the
    [embedding] of the stored [CourseEmbedding] (a model instance is
    always truthy). *)
Definition get_similar_courses (svc : Services)
    (get_course_embedding : string -> outcome (option (list float)))
    (cid : string) (limit : Z) : list SimilarCourse :=
  catch (course_embedding ← get_course_embedding cid;
         match course_embedding with
         | None => Ok []
         | Some emb =>
             similar_courses ← vector_search svc emb None (limit + 1);
             let filtered_courses :=
               filter (fun sc => course_id (sc_course sc) <> cid) similar_courses in
             Ok (Vector.py_slice_to limit filtered_courses)
         end)
        (fun _ => []).

End SimilarCourses.

(* ------------------------------------------------------------------ *)
(** ** [RecommendationService.stream_recommendations] *)

Module Streaming.
Import Pipeline.

Definition nl : string := String (Ascii.ascii_of_nat 10) EmptyString.

(** The fixed progress messages (their leading emoji left out). *)
Definition msg_analyzing : string := " Analyzing your interests..." +:+ nl +:+ nl.
Definition msg_understanding : string := " Understanding your preferences..." +:+ nl +:+ nl.
Definition msg_searching : string := " Searching through course catalog..." +:+ nl +:+ nl.
Definition msg_no_courses : string :=
  " No courses found matching your criteria. Try adjusting your query or level preferences." +:+ nl.
Definition msg_found (n : Z) : string :=
  " Found " +:+ pretty n +:+ " relevant courses! Generating personalized recommendations..."
    +:+ nl +:+ nl.

(** The chunk yielded for a caught exception, [str(e)] given as [err]. *)
Definition msg_error (err : string) : string :=
  nl +:+ nl +:+ " Error generating recommendations: " +:+ err.

(** [llm_service.stream_recommendations_text]: the chunks it yields, and
    how it ends; without a client it raises on the first iteration. *)
Definition stream_text (svc : Services)
    (chat_stream : string -> list (list (string * pyval)) -> list string * outcome unit)
    (q : string) (courses : list (list (string * pyval))) : list string * outcome unit :=
  if llm_client svc then chat_stream q courses else ([], no_client).

(** [stream_recommendations], consumed to its end: the chunks it yields
    and the usage ledger it leaves. [exn_str] is [str(e)]. *)
Definition stream_recommendations (svc : Services)
    (chat_stream : string -> list (list (string * pyval)) -> list string * outcome unit)
    (exn_str : exn -> string) (req : Request) (user : option User)
    (ledger : list UsageRecord) : list string * list UsageRecord :=
  let fail (chunks : list string) (e : exn) :=
    (chunks ++ [msg_error (exn_str e)],
     match user with
     | Some u => fst (record_request svc ledger (mkUsage (user_id u) false (Some (exn_str e)) None))
     | None => ledger
     end) in
  match generate_course_description svc (query req) with
  | Raise e => fail [msg_analyzing] e
  | Ok ideal_description =>
      match vector_generate_embedding svc ideal_description with
      | Raise e => fail [msg_analyzing; msg_understanding] e
      | Ok query_embedding =>
          let course_filter := mkFilter (levels req) None false in
          let pre := [msg_analyzing; msg_understanding; msg_searching] in
          match vector_search svc query_embedding (Some course_filter)
                  (Z.min 50 (max_results req * 3)) with
          | Raise e => fail pre e
          | Ok [] => (pre ++ [msg_no_courses], ledger)
          | Ok similar_courses =>
              let pre' := pre ++ [msg_found (Z.of_nat (length similar_courses))] in
              let course_data :=
                map course_dict (Vector.py_slice_to (max_results req * 2) similar_courses) in
              let '(chunks, fin) := stream_text svc chat_stream (query req) course_data in
              match fin with
              | Raise e => fail (pre' ++ chunks) e
              | Ok _ =>
                  (pre' ++ chunks,
                   match user with
                   | Some u => fst (record_request svc ledger
                                      (mkUsage (user_id u) true None
                                         (Some (Z.of_nat (length similar_courses)))))
                   | None => ledger
                   end)
              end
          end
      end
  end.

End Streaming.

(* ------------------------------------------------------------------ *)
(** ** [UsageService] (the copy in [recommendation_service.py]) *)

Module UsageLog.

Record UsageEntry := mkEntry {
  e_user_id : string;
  e_endpoint : string;
  e_request_type : string;
  e_timestamp : Z;
  e_response_time_ms : option Z;
  e_success : bool;
  e_error_message : option string
}.

(** [record_request]: the record is appended to [self.usage_records]
    before the cache write ([cache_store]), whose failure is caught. *)
Definition record_request (cache_store : UsageEntry -> outcome unit) (now : Z)
    (records : list UsageEntry) (uid endpoint request_type : string)
    (response_time_ms : option Z) (success : bool) (error_message : option string)
    : list UsageEntry * bool :=
  let r := mkEntry uid endpoint request_type now response_time_ms success error_message in
  (records ++ [r], catch (cache_store r;; Ok true) (fun _ => false)).

(** An entry's instant lies in the closed range between the given
    instants, an absent bound being no constraint. *)
Definition in_range (start_date end_date : option Z) (r : UsageEntry) : bool :=
  match start_date with Some s => bool_decide (s <= e_timestamp r) | None => true end &&
  match end_date with Some e => bool_decide (e_timestamp r <= e) | None => true end.

End UsageLog.

(* ------------------------------------------------------------------ *)
(** ** numpy's order on floats as an order on integer keys *)

(** [SFcompare] as a lexicographic order on integer triples: sign class,
    then exponent, then mantissa (negated for negative numbers). *)
Module FloatOrder.
Definition key (f : spec_float) : Z * Z * Z :=
  match f with
  | S754_nan => (3, 0, 0)
  | S754_infinity false => (2, 0, 0)
  | S754_infinity true => (-2, 0, 0)
  | S754_zero _ => (0, 0, 0)
  | S754_finite false m e => (1, e, Zpos m)
  | S754_finite true m e => (-1, - e, - Zpos m)
  end.
Definition key_compare (a b : Z * Z * Z) : comparison :=
  match Z.compare a.1.1 b.1.1 with
  | Eq => match Z.compare a.1.2 b.1.2 with Eq => Z.compare a.2 b.2 | c => c end
  | c => c
  end.
Definition fkey (x : float) : Z * Z * Z := key (Prim2SF x).

(** The key of the value at position [i] of [s]. *)
Definition kf (s : list float) (i : nat) : Z * Z * Z := fkey (default 0%float (s !! i)).

#[global] Instance spec_float_eq_dec : EqDecision spec_float.
Proof. solve_decision. Defined.
End FloatOrder.

(* ------------------------------------------------------------------ *)
(** ** [UsageService] of [usage_service.py] and the admin usage endpoint *)

(** The service wired by [get_usage_service] stamps records with
    [datetime.now(UTC)]: aware datetimes. Python refuses to order an aware
    and a naive datetime. *)
Module UsageTz.
Import UsageLog.

Record datetime := mkDt {
  dt_aware : bool;
  dt_time : Z
}.

(** [a <= b] on datetimes. *)
Definition dt_le (a b : datetime) : outcome bool :=
  if Bool.eqb (dt_aware a) (dt_aware b) then Ok (bool_decide (dt_time a <= dt_time b))
  else Raise TypeError.

(** [[x for x in l if p(x)]], where evaluating [p(x)] may raise. *)
Fixpoint filter_py {A} (p : A -> outcome bool) (l : list A) : outcome (list A) :=
  match l with
  | [] => Ok []
  | x :: l' =>
      b ← p x;
      rest ← filter_py p l';
      Ok (if (b : bool) then x :: rest else rest)
  end.

(** [record.timestamp]: an aware datetime at the entry's instant. *)
Definition stamp (r : UsageEntry) : datetime := mkDt true (e_timestamp r).

(** [get_user_usage] *)
Definition get_user_usage (records : list UsageEntry) (uid : string)
    (start_date end_date : option datetime) : list UsageEntry :=
  catch (let filtered_records := filter (fun r => e_user_id r = uid) records in
         filtered_records ← (match start_date with
                             | Some s => filter_py (fun r => dt_le s (stamp r)) filtered_records
                             | None => Ok filtered_records
                             end);
         match end_date with
         | Some e => filter_py (fun r => dt_le (stamp r) e) filtered_records
         | None => Ok filtered_records
         end)
        (fun _ => []).

(** The response of the admin endpoint [GET /usage/user/{user_id}]. *)
Record user_usage_response := mkUserUsage {
  uu_user_id : string;
  uu_start_date : datetime;
  uu_end_date : datetime;
  uu_total_requests : Z;
  uu_usage_records : list UsageEntry
}.

(** [admin.get_user_usage]: a missing [end_date] is [datetime.utcnow()]
    (naive), a missing [start_date] is [end_date - timedelta(days=30)]. *)
Definition admin_get_user_usage (now : Z) (records : list UsageEntry) (user_id : string)
    (start_date end_date : option datetime) : user_usage_response :=
  let end_date := match end_date with Some e => e | None => mkDt false now end in
  let start_date := match start_date with
                    | Some s => s
                    | None => mkDt (dt_aware end_date) (dt_time end_date - days 30)
                    end in
  let usage_records := get_user_usage records user_id (Some start_date) (Some end_date) in
  mkUserUsage user_id start_date end_date (Z.of_nat (length usage_records)) usage_records.

End UsageTz.

(* ------------------------------------------------------------------ *)
(** ** The reads of [UsageService] (the copy in [recommendation_service.py])

    This copy stamps records with [datetime.utcnow()]: naive datetimes.
    Instants count microseconds from 1970-01-01; a [datetime] lies between
    [datetime.min] (0001-01-01) and [datetime.max]
    (9999-12-31 23:59:59.999999). *)
Module UsageNaive.
Import UsageLog UsageTz.

(** [record.timestamp]: a naive datetime at the entry's instant. *)
Definition stamp (r : UsageEntry) : datetime := mkDt false (e_timestamp r).

(** [get_user_usage] *)
Definition get_user_usage (records : list UsageEntry) (uid : string)
    (start_date end_date : option datetime) : list UsageEntry :=
  catch (let filtered_records := filter (fun r => e_user_id r = uid) records in
         filtered_records ← (match start_date with
                             | Some s => filter_py (fun r => dt_le s (stamp r)) filtered_records
                             | None => Ok filtered_records
                             end);
         match end_date with
         | Some e => filter_py (fun r => dt_le (stamp r) e) filtered_records
         | None => Ok filtered_records
         end)
        (fun _ => []).

Record department_usage := mkDeptUsage {
  du_department : string;
  du_total_requests : Z;
  du_unique_users : Z;
  du_success_rate : float;
  du_average_response_time_ms : Z;
  du_period : option datetime * option datetime
}.

(** The dict [get_department_usage] returns: the usage, or
    [{"error": str(e)}]. *)
Inductive department_response :=
  | DeptUsage (du : department_usage)
  | DeptError (error : string).

(** The two [if] clauses of the comprehension of [get_department_usage]:
    [start_date is None or record.timestamp >= start_date], then, for a
    record that passes it, [end_date is None or record.timestamp <= end_date]. *)
Definition in_period (start_date end_date : option datetime) (r : UsageEntry) : outcome bool :=
  b ← (match start_date with None => Ok true | Some s => dt_le s (stamp r) end);
  if (b : bool) then (match end_date with None => Ok true | Some e => dt_le (stamp r) e end)
  else Ok false.

(** [get_department_usage]; [exn_str] is [str(e)]. *)
Definition get_department_usage (exn_str : exn -> string) (records : list UsageEntry)
    (department : string) (start_date end_date : option datetime) : department_response :=
  catch (matching ← filter_py (in_period start_date end_date) records;
         let total_requests := Z.of_nat (length matching) in
         Ok (DeptUsage (mkDeptUsage department total_requests (Z.min total_requests 10)
                          0x1.e666666666666p-1%float (* 0.95 *) 2500 (start_date, end_date))))
        (fun e => DeptError (exn_str e)).

Definition datetime_min : Z := -62135596800 * 1000000.
Definition datetime_max : Z := 253402300800 * 1000000 - 1.

(** [timedelta(days=n)] *)
Definition timedelta_days (n : Z) : outcome Z :=
  if Z.abs n <=? 999999999 then Ok (days n)
  else Raise (OverflowError ("days=" +:+ pretty n +:+ "; must have magnitude <= 999999999")).

(** [d - td] for a datetime [d] and a timedelta [td]. *)
Definition dt_sub (d td : Z) : outcome Z :=
  if (datetime_min <=? d - td) && (d - td <=? datetime_max) then Ok (d - td)
  else Raise (OverflowError "date value out of range").

(** [cleanup_old_records] at instant [now]: the new record list and the
    count returned. The cutoff and the timestamps are both naive, so
    comparing them never raises. *)
Definition cleanup_old_records (now days_to_keep : Z) (records : list UsageEntry)
    : list UsageEntry * Z :=
  catch (td ← timedelta_days days_to_keep;
         cutoff_date ← dt_sub now td;
         let old_records_count :=
           Z.of_nat (length (filter (fun r => e_timestamp r < cutoff_date) records)) in
         Ok (filter (fun r => cutoff_date <= e_timestamp r) records, old_records_count))
        (fun _ => (records, 0)).

End UsageNaive.

(* ================================================================== *)
(** * Properties *)

(* ------------------------------------------------------------------ *)
(** ** The in-memory cache *)

Module MemCacheFacts.
Import MemCache.

Lemma cleanup_lookup now s k :
  cache (cleanup_expired now s) !! k = if is_expired now s k then None else cache s !! k.
Proof.
  unfold cleanup_expired; simpl. rewrite map_lookup_filter.
  destruct (cache s !! k) as [v|]; simpl; [|by destruct (is_expired now s k)].
  by destruct (is_expired now s k).
Qed.

Lemma not_expired_iff now s k :
  is_expired now s k = false <-> forall t, expiry s !! k = Some t -> now <= t.
Proof.
  unfold is_expired. destruct (expiry s !! k) as [t|]; split.
  - intros H t' [= <-]. apply Z.ltb_ge in H. lia.
  - intros H. apply Z.ltb_ge. specialize (H t eq_refl). lia.
  - intros _ t' H. discriminate.
  - done.
Qed.

Lemma get_result now k s : (get now k s).2 = cache (cleanup_expired now s) !! k.
Proof. reflexivity. Qed.

Lemma get_observable now s k v :
  (get now k s).2 = Some v <-> observable now s k v.
Proof.
  rewrite get_result. unfold observable. rewrite cleanup_lookup, <- not_expired_iff.
  destruct (is_expired now s k); split; intros H; try done.
  - by destruct H.
  - by destruct H.
Qed.

Lemma set_fields now k v ttl s :
  ttl <> 0 ->
  cache (set now k v (Some ttl) s).1 = <[k := v]> (cache s) /\
  expiry (set now k v (Some ttl) s).1 = <[k := now + ttl]> (expiry s).
Proof.
  intros Httl. unfold set; simpl.
  destruct (Z.eqb_spec ttl 0); [lia|]. simpl.
  destruct (Z.eqb_spec ttl 0); [lia|]. done.
Qed.

Lemma increment_result now key amount s :
  (increment now key amount s).2 = py_add_int (default (PyInt 0) (get now key s).2) amount.
Proof.
  unfold increment. rewrite get_result.
  by destruct (py_add_int _ amount).
Qed.

Lemma set_get_window t k v d s t' :
  0 < d ->
  (t <= t' <= t + d -> (get t' k (set t k v (Some d) s).1).2 = Some v) /\
  (t + d < t' -> (get t' k (set t k v (Some d) s).1).2 = None).
Proof.
  intros Hpos. destruct (set_fields t k v d s) as [Hc He]; [lia|].
  rewrite get_result, cleanup_lookup, Hc.
  unfold is_expired. rewrite He, lookup_insert_eq, lookup_insert_eq.
  split; intros H.
  - destruct (Z.ltb_spec (t + d) t'); [lia|]. done.
  - destruct (Z.ltb_spec (t + d) t'); [done|lia].
Qed.

Lemma set_zero_default t k v s :
  set t k v (Some 0) s = set t k v None s /\
  (default_expire s <> 0 -> set t k v None s = set t k v (Some (default_expire s)) s).
Proof.
  split; [reflexivity|]. intros Hd. unfold set. cbv zeta.
  rewrite !(proj2 (Z.eqb_neq _ _) Hd). reflexivity.
Qed.

End MemCacheFacts.

(** [C9] For a positive [ttl], [set(k, v, ttl)] at [t] followed by
    [get(k)] at any [t'] in [[t, t + ttl]] returns [v] unchanged, and at
    any [t'] after [t + ttl] returns absent. A zero [ttl] is falsy: [set]
    then does what it does without a [ttl], and with a positive default
    TTL the same window holds for the default. No read ([get], [exists],
    [get_many], [increment]) observes an entry whose expiry instant is
    before the instant of the read. *)
Theorem memcache_ttl_roundtrip (s : MemCache.state) (k : string) (v : pyval) (ttl t t' : Z) :
  (0 < ttl ->
   (t <= t' <= t + ttl -> (MemCache.get t' k (MemCache.set t k v (Some ttl) s).1).2 = Some v) /\
   (t + ttl < t' -> (MemCache.get t' k (MemCache.set t k v (Some ttl) s).1).2 = None)) /\
  (MemCache.set t k v (Some 0) s = MemCache.set t k v None s /\
   (0 < MemCache.default_expire s ->
    (t <= t' <= t + MemCache.default_expire s ->
       (MemCache.get t' k (MemCache.set t k v (Some 0) s).1).2 = Some v) /\
    (t + MemCache.default_expire s < t' ->
       (MemCache.get t' k (MemCache.set t k v (Some 0) s).1).2 = None))) /\
  (forall now s0 key x, (MemCache.get now key s0).2 = Some x -> MemCache.observable now s0 key x) /\
  (forall now s0 key, (MemCache.exists_ now key s0).2 = true ->
     exists x, MemCache.observable now s0 key x) /\
  (forall now s0 keys key x, (key, x) ∈ (MemCache.get_many now keys s0).2 ->
     MemCache.observable now s0 key x) /\
  (forall now s0 key amount, (MemCache.increment now key amount s0).2 =
     py_add_int (default (PyInt 0) (MemCache.get now key s0).2) amount).
Proof.
  split; [|split; [|split; [|split; [|split]]]].
  - apply MemCacheFacts.set_get_window.
  - destruct (MemCacheFacts.set_zero_default t k v s) as [H0 Hd]. split; [exact H0|].
    intros Hpos. rewrite H0, Hd by lia. by apply MemCacheFacts.set_get_window.
  - intros. by apply MemCacheFacts.get_observable.
  - intros now s0 key H. unfold MemCache.exists_ in H; simpl in H.
    apply bool_decide_eq_true in H. destruct H as [x Hx].
    exists x. apply MemCacheFacts.get_observable. by rewrite MemCacheFacts.get_result.
  - intros now s0 keys key x Hin.
    assert (Hgm : (MemCache.get_many now keys s0).2 =
                  omap (fun k0 => (fun y => (k0, y)) <$> (MemCache.get now k0 s0).2) keys)
      by reflexivity.
    rewrite Hgm in Hin.
    apply list_elem_of_omap in Hin as (key' & _ & Hk).
    destruct (MemCache.get now key' s0).2 as [y|] eqn:Hy; simplify_eq/=.
    by apply MemCacheFacts.get_observable.
  - intros. apply MemCacheFacts.increment_result.
Qed.

Lemma memcache_ttl_roundtrip_witness :
  0 < 5 /\
  (MemCache.get 3 "k" (MemCache.set 0 "k" (PyInt 7) (Some 5) (MemCache.init 1)).1).2 = Some (PyInt 7) /\
  0 < MemCache.default_expire (MemCache.init 3600) /\
  (MemCache.get 1 "k" (MemCache.set 0 "k" (PyInt 7) (Some 0) (MemCache.init 3600)).1).2 = Some (PyInt 7).
Proof.
  split; [lia|split; [|split; [vm_compute; reflexivity|]]].
  - apply (proj1 (proj1 (memcache_ttl_roundtrip (MemCache.init 1) "k" (PyInt 7) 5 0 3) ltac:(lia))).
    lia.
  - apply (proj1 (proj2 (proj1 (proj2 (memcache_ttl_roundtrip (MemCache.init 3600) "k" (PyInt 7) 5 0 1)))
                   ltac:(vm_compute; reflexivity))).
    vm_compute. split; discriminate.
Defined.

(** [C9], refuted at [ttl = 0]: a zero [timedelta] is falsy, so [set]
    uses the default TTL (here one hour) and the entry is still returned
    one microsecond later, after [ttl] has elapsed. *)
Lemma memcache_zero_ttl_outlives :
  0 + 0 < 1 /\
  (MemCache.get 1 "k" (MemCache.set 0 "k" (PyInt 7) (Some 0) (MemCache.init 3600)).1).2 = Some (PyInt 7).
Proof. split; [lia | reflexivity]. Qed.

(* ------------------------------------------------------------------ *)
(** ** Daily quota limit *)

Module QuotaFacts.

Lemma get_set_other now t k k' v e c :
  k <> k' ->
  (MemCache.get now k (MemCache.set t k' v e c).1).2 = (MemCache.get now k c).2.
Proof.
  intros Hne. rewrite !MemCacheFacts.get_result, !MemCacheFacts.cleanup_lookup.
  unfold MemCache.set, MemCache.is_expired; simpl.
  rewrite lookup_insert_ne by congruence.
  match goal with |- context [if ?b =? 0 then MemCache.expiry c else _] =>
    destruct (b =? 0) end; [done|].
  rewrite lookup_insert_ne by congruence. done.
Qed.

Lemma override_key_ne_usage_key uid uid' day :
  Quota.quota_override_key uid <> Quota.daily_usage_key uid' day.
Proof.
  unfold Quota.quota_override_key, Quota.daily_usage_key. intros H.
  apply (f_equal (String.get 0)) in H. vm_compute in H. discriminate.
Qed.

Lemma check_quota_result settings now user c :
  (Quota.check_quota settings now user c).2 =
    (current ← Ok (py_or (MemCache.get now (Quota.daily_usage_key (user_id user) (Quota.today now)) c).2 (PyInt 0));
     exceeded ← py_ge_int current (Quota.get_quota_for_user settings user);
     Ok (Quota.mkDecision (negb exceeded) current (Quota.get_quota_for_user settings user)
           (days (Quota.today now + 1)) None)).
Proof.
  unfold Quota.check_quota.
  destruct (MemCache.get _ _ c) as [c1 got]; simpl.
  by destruct (py_ge_int _ _).
Qed.

End QuotaFacts.

(** [C1] The daily limit used by [check_quota] is the department limit
    when the user's department is non-empty and configured in
    [department_quotas]; otherwise the role quota from [role_quotas]
    (by default guest 10, student 50, graduate 75, staff 100, faculty 200,
    admin 1000), or 50 for a role missing from it. An override installed
    by [update_user_quota] is never consulted: [check_quota] decides the
    same with or without it. *)
Theorem check_quota_limit_resolution (settings : Settings) (user : User) (now t : Z)
    (c : MemCache.state) (uid : string) (q : Z) :
  (Quota.check_quota settings now user (Quota.update_user_quota t uid q c).1).2 =
    (Quota.check_quota settings now user c).2 /\
  (forall d, (Quota.check_quota settings now user c).2 = Ok d ->
     Quota.limit d = Quota.get_quota_for_user settings user) /\
  Quota.get_quota_for_user settings user =
    match user_department user ≫= (fun d => if bool_decide (d = "") then None
                                            else default ∅ (department_quotas settings) !! d) with
    | Some limit => limit
    | None =>
        match role_quotas settings with
        | Some rq => default 50 (rq !! role_value (user_role user))
        | None =>
            match user_role user with
            | GUEST => 10 | STUDENT => 50 | GRADUATE_STUDENT => 75
            | STAFF => 100 | FACULTY => 200 | ADMIN => 1000
            end
        end
    end.
Proof.
  split; [|split].
  - assert (Hu : (Quota.update_user_quota t uid q c).1 =
              (MemCache.set t (Quota.quota_override_key uid) (PyInt q) (Some (days 30)) c).1)
      by (unfold Quota.update_user_quota; by destruct (MemCache.set _ _ _ _ c)).
    rewrite !QuotaFacts.check_quota_result, Hu.
    rewrite QuotaFacts.get_set_other; [done|].
    intros H. symmetry in H. by apply QuotaFacts.override_key_ne_usage_key in H.
  - intros d. rewrite QuotaFacts.check_quota_result. simpl.
    destruct (py_ge_int _ _); simpl; intros; simplify_eq; done.
  - unfold Quota.get_quota_for_user.
    destruct (user_department user) as [d|]; simpl.
    + destruct (bool_decide (d = "")) eqn:Hd; simpl.
      * destruct (role_quotas settings); [done|]. by destruct (user_role user).
      * destruct (default ∅ (department_quotas settings) !! d); [done|].
        destruct (role_quotas settings); [done|]. by destruct (user_role user).
    + destruct (role_quotas settings); [done|]. by destruct (user_role user).
Qed.

(** [C1], refuted: a student with an override of 5 who has recorded 5
    requests today is still allowed by the 6th [check_quota]; the limit
    used is the role default 50. *)
Lemma quota_override_not_enforced :
  let user := mkUser "u1" STUDENT None in
  let t0 := days 20000 + hours 9 in
  let c1 := (Quota.update_user_quota t0 "u1" 5 (MemCache.init 3600)).1 in
  let c6 := fold_left (fun c i => (Quota.record_request (t0 + seconds i) user c).1)
              [1; 2; 3; 4; 5] c1 in
  (Quota.check_quota (mkSettings None None) (t0 + seconds 6) user c6).2 =
    Ok (Quota.mkDecision true (PyInt 5) 50 (days 20001) None).
Proof. vm_compute. reflexivity. Qed.

(* ------------------------------------------------------------------ *)
(** ** Rate limit *)

Module RateFacts.
Import MemCache.

Lemma cleanup_cleanup_lookup t now c k :
  t <= now ->
  cache (cleanup_expired now (cleanup_expired t c)) !! k = cache (cleanup_expired now c) !! k.
Proof.
  intros Ht. rewrite !MemCacheFacts.cleanup_lookup.
  unfold is_expired at 1. unfold cleanup_expired at 1; simpl.
  rewrite map_lookup_filter. unfold is_expired.
  destruct (expiry c !! k) as [t0|] eqn:E; simpl; [|done].
  destruct (Z.ltb_spec t0 t); simpl.
  - destruct (Z.ltb_spec t0 now); [done|lia].
  - done.
Qed.

Lemma minute_bounds t : minutes 1 * (t `div` minutes 1) <= t < minutes 1 * (t `div` minutes 1) + minutes 1.
Proof.
  pose proof (Z.div_mod t (minutes 1)) as H.
  pose proof (Z.mod_pos_bound t (minutes 1)) as Hb.
  unfold minutes, seconds in *. lia.
Qed.

Lemma rate_limit_key_minute uid t t' :
  t `div` minutes 1 = t' `div` minutes 1 -> Quota.rate_limit_key uid t = Quota.rate_limit_key uid t'.
Proof. unfold Quota.rate_limit_key. by intros ->. Qed.

Lemma rate_limit_key_inj uid t t' :
  Quota.rate_limit_key uid t = Quota.rate_limit_key uid t' -> t `div` minutes 1 = t' `div` minutes 1.
Proof.
  unfold Quota.rate_limit_key. intros H.
  apply (inj (String.app "rate_limit:")) in H.
  apply (inj (String.app uid)) in H.
  apply (inj (String.app ":")) in H.
  by apply (inj pretty) in H.
Qed.

Lemma rate_limit_positive user : 5 <= Quota.get_rate_limit_for_user user.
Proof. unfold Quota.get_rate_limit_for_user. destruct (user_role user); simpl; lia. Qed.

Lemma check_rate_limit_cases now user c n :
  let key := Quota.rate_limit_key (user_id user) now in
  let L := Quota.get_rate_limit_for_user user in
  ((get now key c).2 = Some (PyInt n) \/ ((get now key c).2 = None /\ n = 0)) ->
  (L <= n -> Quota.check_rate_limit now user c =
      (cleanup_expired now c, Ok (Quota.mkDecision false (PyInt n) L (now + minutes 1) (Some 60)))) /\
  (n < L -> Quota.check_rate_limit now user c =
      (Quota.accepted_state now key (PyInt (n + 1)) c,
       Ok (Quota.mkDecision true (PyInt (n + 1)) L (now + minutes 1) None))).
Proof.
  intros key L Hcnt.
  assert (Hraw : cache (cleanup_expired now c) !! key = Some (PyInt n) \/
                 (cache (cleanup_expired now c) !! key = None /\ n = 0))
    by (by rewrite <- MemCacheFacts.get_result).
  assert (Hor : py_or (cache (cleanup_expired now c) !! key) (PyInt 0) = PyInt n).
  { destruct Hraw as [-> | [-> ->]]; simpl; [|done].
    destruct (Z.eqb_spec n 0); simpl; [by subst|done]. }
  assert (Hcc : cache (cleanup_expired now (cleanup_expired now c)) !! key =
                cache (cleanup_expired now c) !! key)
    by (apply cleanup_cleanup_lookup; lia).
  unfold Quota.check_rate_limit. fold key. fold L.
  change (get now key c) with (cleanup_expired now c, cache (cleanup_expired now c) !! key).
  cbv beta iota. rewrite Hor. cbn [py_ge_int]. split; intros HL.
  - rewrite bool_decide_eq_true_2 by lia. done.
  - rewrite bool_decide_eq_false_2 by lia.
    change (increment now key 1 (cleanup_expired now c)) with
      (let s' := cleanup_expired now (cleanup_expired now c) in
       let current := default (PyInt 0) (cache s' !! key) in
       match py_add_int current 1 with
       | Ok new_value => (mk (<[key := new_value]> (cache s')) (expiry s') (default_expire s'), Ok new_value)
       | Raise e => (s', Raise e)
       end).
    cbv zeta. rewrite Hcc.
    destruct Hraw as [Hr | [Hr ->]]; rewrite Hr; cbn [default py_add_int]; reflexivity.
Qed.

Lemma accepted_state_get now t' key next c :
  now <= t' <= now + minutes 1 ->
  (get t' key (Quota.accepted_state now key next c)).2 = Some next.
Proof.
  intros Ht. unfold Quota.accepted_state.
  rewrite MemCacheFacts.get_result, MemCacheFacts.cleanup_lookup.
  destruct (MemCacheFacts.set_fields now key next (minutes 1)
    (mk (<[key := next]> (cache (cleanup_expired now (cleanup_expired now c))))
        (expiry (cleanup_expired now (cleanup_expired now c))) (default_expire c)))
    as [Hc He]; [unfold minutes, seconds; lia|].
  unfold is_expired. rewrite He, Hc, !lookup_insert_eq.
  destruct (Z.ltb_spec (now + minutes 1) t'); [lia|done].
Qed.

Lemma accepted_state_other now key next c k :
  k <> key -> cache (Quota.accepted_state now key next c) !! k = cache (cleanup_expired now (cleanup_expired now c)) !! k.
Proof.
  intros Hne. unfold Quota.accepted_state.
  rewrite (proj1 (MemCacheFacts.set_fields now key next (minutes 1) _ ltac:(unfold minutes, seconds; lia))).
  simpl. rewrite !lookup_insert_ne by congruence. done.
Qed.

Lemma same_minute_close t t' :
  t `div` minutes 1 = t' `div` minutes 1 -> t <= t' -> t' <= t + minutes 1.
Proof.
  intros Hm Ht. pose proof (minute_bounds t). pose proof (minute_bounds t').
  rewrite Hm in *. lia.
Qed.

Lemma run_app user xs ys c :
  Quota.rate_limit_run user (xs ++ ys) c =
    ((Quota.rate_limit_run user ys (Quota.rate_limit_run user xs c).1).1,
     (Quota.rate_limit_run user xs c).2 ++ (Quota.rate_limit_run user ys (Quota.rate_limit_run user xs c).1).2).
Proof.
  revert c. induction xs as [|t xs IH]; intros c; cbn [app Quota.rate_limit_run].
  - simpl. by destruct (Quota.rate_limit_run user ys c).
  - destruct (Quota.check_rate_limit t user c) as [c1 r].
    rewrite IH. destruct (Quota.rate_limit_run user xs c1) as [c2 f1]; simpl.
    by destruct (Quota.rate_limit_run user ys c2).
Qed.

(** Within one minute bucket, a run of checks from a cache that holds only the
    bucket's key accepts while the count is below the limit, then rejects. *)
Lemma run_minute user t0 :
  let K := Quota.rate_limit_key (user_id user) t0 in
  let L := Quota.get_rate_limit_for_user user in
  forall ts c tp (d : nat),
  (forall k, k <> K -> cache c !! k = None) ->
  (forall t', tp <= t' -> t' `div` minutes 1 = t0 `div` minutes 1 ->
     (get t' K c).2 = Some (PyInt (L - Z.of_nat d)) \/
     ((get t' K c).2 = None /\ L - Z.of_nat d = 0)) ->
  Forall (fun t => tp <= t /\ t `div` minutes 1 = t0 `div` minutes 1) ts ->
  StronglySorted Z.le ts ->
  (Quota.rate_limit_run user ts c).2 = repeat true (Nat.min (length ts) d) ++ repeat false (length ts - d) /\
  (forall k, k <> K -> cache (Quota.rate_limit_run user ts c).1 !! k = None).
Proof.
  intros K L ts. induction ts as [|t ts IH]; intros c tp d Honly Hinv Hall Hsort.
  { simpl. split; [done|exact Honly]. }
  apply Forall_cons in Hall as [[Htp Htm] Hall].
  apply StronglySorted_inv in Hsort as [Hsort Hle].
  assert (HK : Quota.rate_limit_key (user_id user) t = K)
    by (apply rate_limit_key_minute; exact Htm).
  pose proof (check_rate_limit_cases t user c (L - Z.of_nat d)) as Hcases.
  cbv zeta in Hcases. rewrite HK in Hcases. fold L in Hcases.
  specialize (Hcases (Hinv t Htp Htm)) as [Hden Hacc].
  assert (Hts : Forall (fun t1 => t <= t1 /\ t1 `div` minutes 1 = t0 `div` minutes 1) ts).
  { apply Forall_forall. intros x Hx.
    split; [by apply (proj1 (Forall_forall _ _) Hle)|by apply (proj1 (Forall_forall _ _) Hall)]. }
  destruct d as [|d].
  - cbn [Quota.rate_limit_run]. rewrite Hden by lia.
    destruct (IH (cleanup_expired t c) t 0%nat) as [Hf Ho]; [| |exact Hts|exact Hsort|].
    + intros k Hk. rewrite MemCacheFacts.cleanup_lookup, (Honly k Hk).
      by destruct (is_expired t c k).
    + intros t' Ht' Hm'. rewrite !MemCacheFacts.get_result, cleanup_cleanup_lookup by lia.
      rewrite <- MemCacheFacts.get_result. apply Hinv; [lia|exact Hm'].
    + destruct (Quota.rate_limit_run user ts (cleanup_expired t c)) as [c2 fl]. simpl in *.
      split; [rewrite Hf; rewrite Nat.min_0_r, Nat.sub_0_r; done|exact Ho].
  - cbn [Quota.rate_limit_run]. rewrite Hacc by lia.
    destruct (IH (Quota.accepted_state t K (PyInt (L - Z.of_nat (S d) + 1)) c) t d)
      as [Hf Ho]; [| |exact Hts|exact Hsort|].
    + intros k Hk. rewrite accepted_state_other by exact Hk.
      rewrite !MemCacheFacts.cleanup_lookup, (Honly k Hk).
      by destruct (is_expired t (cleanup_expired t c) k), (is_expired t c k).
    + intros t' Ht' Hm'. left.
      replace (L - Z.of_nat d) with (L - Z.of_nat (S d) + 1) by lia.
      apply accepted_state_get. split; [exact Ht'|].
      apply same_minute_close; [congruence|exact Ht'].
    + destruct (Quota.rate_limit_run user ts _) as [c2 fl]. simpl in *.
      split; [rewrite Hf; done|exact Ho].
Qed.

End RateFacts.

(** C4 (amended): with [L] the role's rate limit ([get_rate_limit_for_user])
    and [n] the count read from the current minute's bucket key (absent
    meaning 0), [check_rate_limit] rejects when [L <= n]: it returns
    [allowed = false], [retry_after = Some 60] (a constant, not the seconds
    left in the bucket) and [reset_time = now + 60 s], and leaves the cache as
    the read's cleanup made it (no increment). When [n < L] it accepts and
    the bucket key reads [n + 1] for the rest of the minute. From a fresh
    cache, [L + 1] checks at non-decreasing instants of one minute give [L]
    acceptances followed by one rejection, and a following check in any
    other minute is accepted. *)
Theorem rate_limit_bucket user c now n ttl ts t' :
  let key := Quota.rate_limit_key (user_id user) now in
  let L := Quota.get_rate_limit_for_user user in
  ((MemCache.get now key c).2 = Some (PyInt n) \/ ((MemCache.get now key c).2 = None /\ n = 0)) ->
  Sorted Z.le ts -> length ts = S (Z.to_nat L) ->
  Forall (fun t => t `div` minutes 1 = now `div` minutes 1) ts ->
  t' `div` minutes 1 <> now `div` minutes 1 ->
  (L <= n -> Quota.check_rate_limit now user c =
      (MemCache.cleanup_expired now c,
       Ok (Quota.mkDecision false (PyInt n) L (now + minutes 1) (Some 60)))) /\
  (n < L -> exists c', Quota.check_rate_limit now user c =
      (c', Ok (Quota.mkDecision true (PyInt (n + 1)) L (now + minutes 1) None)) /\
      forall t1, now <= t1 -> t1 `div` minutes 1 = now `div` minutes 1 ->
        (MemCache.get t1 key c').2 = Some (PyInt (n + 1))) /\
  (Quota.rate_limit_run user (ts ++ [t']) (MemCache.init ttl)).2 =
    repeat true (Z.to_nat L) ++ [false; true].
Proof.
  intros key L Hn Hs Hlen Hm Ht'.
  pose proof (RateFacts.check_rate_limit_cases now user c n) as Hc.
  cbv zeta in Hc. destruct (Hc Hn) as [Hden Hacc].
  pose proof (RateFacts.rate_limit_positive user) as HL. fold L in HL.
  split; [exact Hden|split].
  { intros Hlt. eexists. split; [exact (Hacc Hlt)|].
    intros t1 Ht1 Hm1. apply RateFacts.accepted_state_get. split; [exact Ht1|].
    apply RateFacts.same_minute_close; [congruence|exact Ht1]. }
  rewrite RateFacts.run_app.
  pose proof (RateFacts.run_minute user now ts (MemCache.init ttl)
                (minutes 1 * (now `div` minutes 1)) (Z.to_nat L)) as HR.
  cbv zeta in HR. destruct HR as [Hf Ho].
  - intros k _. apply lookup_empty.
  - intros t1 _ _. right. split; [|fold L; lia].
    rewrite MemCacheFacts.get_result, MemCacheFacts.cleanup_lookup.
    by destruct (MemCache.is_expired t1 (MemCache.init ttl) _).
  - apply Forall_forall. intros x Hx.
    pose proof (proj1 (Forall_forall _ _) Hm x Hx) as Hx'. split; [|exact Hx'].
    pose proof (RateFacts.minute_bounds x). rewrite Hx' in *. lia.
  - apply Sorted_StronglySorted; [intros ???; lia|exact Hs].
  - fold L in Hf. rewrite Hlen in Hf.
    replace (Nat.min (S (Z.to_nat L)) (Z.to_nat L)) with (Z.to_nat L) in Hf by lia.
    replace (S (Z.to_nat L) - Z.to_nat L)%nat with 1%nat in Hf by lia.
    destruct (Quota.rate_limit_run user ts (MemCache.init ttl)) as [c2 fl]. simpl in Hf, Ho |- *.
    assert (HK : Quota.rate_limit_key (user_id user) t' <> key).
    { intros E. apply RateFacts.rate_limit_key_inj in E. contradiction. }
    pose proof (RateFacts.check_rate_limit_cases t' user c2 0) as Hc'.
    cbv zeta in Hc'. destruct Hc' as [_ Hacc'].
    { right. split; [|done].
      rewrite MemCacheFacts.get_result, MemCacheFacts.cleanup_lookup, (Ho _ HK).
      by destruct (MemCache.is_expired _ _ _). }
    cbn [Quota.rate_limit_run]. rewrite Hacc' by lia. simpl.
    rewrite Hf, <- app_assoc. reflexivity.
Qed.

Lemma rate_limit_bucket_witness :
  (Quota.rate_limit_run (mkUser "u1" STUDENT None)
     (repeat (minutes 1000) 21 ++ [minutes 1001]) (MemCache.init 0)).2 =
    repeat true 20 ++ [false; true].
Proof.
  refine (proj2 (proj2 (rate_limit_bucket (mkUser "u1" STUDENT None) (MemCache.init 0)
            (minutes 1000) 0 0 (repeat (minutes 1000) 21) (minutes 1001) _ _ _ _ _))).
  - right. split; reflexivity.
  - repeat constructor; unfold minutes, seconds; lia.
  - reflexivity.
  - repeat constructor.
  - vm_compute. discriminate.
Defined.

(** Counterexample to C4: a student (limit 20) has made 20 checks at 10 s into
    a minute; the 21st check is rejected with [retry_after = 60], while the
    bucket rolls over 50 s later. *)
Lemma rate_limit_retry_after_constant :
  let u := mkUser "u1" STUDENT None in
  let now := minutes 1000 + seconds 10 in
  let c := (Quota.rate_limit_run u (repeat now 20) (MemCache.init 0)).1 in
  (Quota.check_rate_limit now u c).2 =
    Ok (Quota.mkDecision false (PyInt 20) 20 (now + minutes 1) (Some 60)) /\
  (minutes 1 - now mod minutes 1) / seconds 1 = 50.
Proof. vm_compute. split; reflexivity. Qed.

(* ------------------------------------------------------------------ *)
(** ** Vector search, similarity and the recommendation pipeline *)

Module FloatOrderFacts.
Import FloatOrder.

Lemma key_compare_eq a b : key_compare a b = Eq <-> a = b.
Proof.
  destruct a as [[a1 a2] a3], b as [[b1 b2] b3]. unfold key_compare; simpl.
  destruct (Z.compare_spec a1 b1); [|split; [done|intros; simplify_eq; lia]..].
  destruct (Z.compare_spec a2 b2); [|split; [done|intros; simplify_eq; lia]..].
  destruct (Z.compare_spec a3 b3); split; intros; simplify_eq; try done; lia.
Qed.

Lemma key_compare_opp a b : key_compare b a = CompOpp (key_compare a b).
Proof.
  destruct a as [[a1 a2] a3], b as [[b1 b2] b3]. unfold key_compare; simpl.
  rewrite (Z.compare_antisym a1 b1).
  destruct (Z.compare a1 b1); simpl; try done.
  rewrite (Z.compare_antisym a2 b2).
  destruct (Z.compare a2 b2); simpl; try done.
  apply Z.compare_antisym.
Qed.

Lemma key_compare_trans a b c :
  key_compare a b = Lt -> key_compare b c = Lt -> key_compare a c = Lt.
Proof.
  destruct a as [[a1 a2] a3], b as [[b1 b2] b3], c as [[c1 c2] c3]. unfold key_compare; simpl.
  destruct (Z.compare_spec a1 b1), (Z.compare_spec b1 c1), (Z.compare_spec a1 c1);
    try done; try lia; subst;
  destruct (Z.compare_spec a2 b2), (Z.compare_spec b2 c2), (Z.compare_spec a2 c2);
    try done; try lia; subst;
  destruct (Z.compare_spec a3 b3), (Z.compare_spec b3 c3), (Z.compare_spec a3 c3);
    try done; lia.
Qed.

Lemma sfcompare_key a b :
  a <> S754_nan -> b <> S754_nan -> SFcompare a b = Some (key_compare (key a) (key b)).
Proof.
  intros Ha Hb.
  destruct a as [sa|sa| |sa ma ea]; [| |done|]; destruct b as [sb|sb| |sb mb eb]; try done;
    try destruct sa; try destruct sb; try reflexivity.
  - unfold key_compare; simpl.
    destruct (Z.compare_spec ea eb); destruct (Z.compare_spec (- ea) (- eb)); try lia; try done.
Qed.

Lemma key_compare_refl a : key_compare a a = Eq.
Proof. by apply key_compare_eq. Qed.

Lemma sfcompare_refl a : a <> S754_nan -> SFcompare a a = Some Eq.
Proof. intros H. rewrite sfcompare_key by done. by rewrite key_compare_refl. Qed.

Lemma is_nan_spec x : is_nan x = true <-> Prim2SF x = S754_nan.
Proof.
  unfold is_nan. rewrite FloatAxioms.eqb_spec. unfold SFeqb.
  destruct (decide (Prim2SF x = S754_nan)) as [E|E].
  - rewrite E. done.
  - rewrite sfcompare_refl by done. done.
Qed.

Lemma key_nan a : a <> S754_nan -> key_compare (key a) (key S754_nan) = Lt.
Proof.
  intros Ha. destruct a as [[]|[]| |[] m e]; try done; reflexivity.
Qed.

Lemma np_lt_key x y :
  Np.lt x y = match key_compare (fkey x) (fkey y) with Lt => true | _ => false end.
Proof.
  unfold Np.lt, fkey. rewrite FloatAxioms.ltb_spec. unfold SFltb.
  destruct (decide (Prim2SF x = S754_nan)) as [Ex|Ex], (decide (Prim2SF y = S754_nan)) as [Ey|Ey].
  - assert (is_nan x = true) as Hx by (by apply is_nan_spec).
    assert (is_nan y = true) as Hy by (by apply is_nan_spec).
    rewrite Ex, Ey, Hx, Hy. reflexivity.
  - assert (is_nan y = false) as Hy.
    { destruct (is_nan y) eqn:E; [|done]. apply is_nan_spec in E. done. }
    rewrite Ex, Hy. simpl. rewrite key_compare_opp, key_nan by done. destruct (Prim2SF y); done.
  - assert (is_nan y = true) as Hy by (by apply is_nan_spec).
    assert (is_nan x = false) as Hx.
    { destruct (is_nan x) eqn:E; [|done]. apply is_nan_spec in E. done. }
    rewrite Ey, Hx, Hy, key_nan by done. destruct (Prim2SF x); done.
  - assert (is_nan y = false) as Hy.
    { destruct (is_nan y) eqn:E; [|done]. apply is_nan_spec in E. done. }
    rewrite Hy, sfcompare_key by done. rewrite orb_false_r. done.
Qed.

Lemma leb_key x y :
  is_nan x = false -> is_nan y = false ->
  (x <=? y)%float = match key_compare (fkey x) (fkey y) with Gt => false | _ => true end.
Proof.
  intros Hx Hy. rewrite FloatAxioms.leb_spec. unfold SFleb, fkey.
  rewrite sfcompare_key; [by destruct (key_compare _ _)|..].
  - intros E. apply is_nan_spec in E. congruence.
  - intros E. apply is_nan_spec in E. congruence.
Qed.

Lemma gt_half_not_nan x : (0.5 <? x)%float = true -> is_nan x = false.
Proof.
  rewrite FloatAxioms.ltb_spec. intros H. destruct (is_nan x) eqn:E; [|done].
  apply is_nan_spec in E. rewrite E in H. destruct (Prim2SF 0.5); done.
Qed.
End FloatOrderFacts.

Module VectorFacts.
Import FloatOrder FloatOrderFacts.


Section SortedLists.
Context {A B : Type}.

Lemma SS_drop (R : A -> A -> Prop) n l : StronglySorted R l -> StronglySorted R (drop n l).
Proof.
  revert l. induction n as [|n IH]; intros l Hl; [done|].
  destruct l as [|x l]; [done|]. apply StronglySorted_inv in Hl as [Hl _]. by apply IH.
Qed.

Lemma SS_app (R : A -> A -> Prop) l1 l2 :
  StronglySorted R l1 -> StronglySorted R l2 ->
  (forall x y, x ∈ l1 -> y ∈ l2 -> R x y) -> StronglySorted R (l1 ++ l2).
Proof.
  induction l1 as [|x l1 IH]; intros H1 H2 H12; [done|].
  apply StronglySorted_inv in H1 as [H1 Hx]. simpl. constructor.
  - apply IH; [done|done|]. intros a b Ha Hb. apply H12; [by right|done].
  - apply Forall_app. split; [done|].
    apply Forall_forall. intros y Hy. apply H12; [by left|done].
Qed.

Lemma SS_rev (R : A -> A -> Prop) l :
  StronglySorted R l -> StronglySorted (fun x y => R y x) (reverse l).
Proof.
  induction l as [|x l IH]; intros Hl; [constructor|].
  apply StronglySorted_inv in Hl as [Hl Hx]. rewrite reverse_cons.
  apply SS_app; [by apply IH|repeat constructor|].
  intros a b Ha Hb. apply list_elem_of_singleton in Hb as ->.
  rewrite elem_of_reverse in Ha. by apply (proj1 (Forall_forall _ _) Hx).
Qed.

Lemma SS_filter (R : A -> A -> Prop) (p : A -> bool) l :
  StronglySorted R l -> StronglySorted R (filter (fun x => p x = true) l).
Proof.
  induction l as [|x l IH]; intros Hl; [constructor|].
  apply StronglySorted_inv in Hl as [Hl Hx]. rewrite filter_cons.
  case_decide; [|by apply IH]. constructor; [by apply IH|].
  apply Forall_forall. intros y Hy. apply list_elem_of_filter in Hy as [_ Hy].
  by apply (proj1 (Forall_forall _ _) Hx).
Qed.

Lemma SS_impl (R R' : A -> A -> Prop) (P : A -> Prop) l :
  Forall P l -> (forall x y, P x -> P y -> R x y -> R' x y) ->
  StronglySorted R l -> StronglySorted R' l.
Proof.
  intros HP HR. induction l as [|x l IH]; intros Hl; [constructor|].
  apply Forall_cons in HP as [Px HP].
  apply StronglySorted_inv in Hl as [Hl Hx]. constructor; [by apply IH|].
  apply Forall_forall. intros y Hy. apply HR; [done|by apply (proj1 (Forall_forall _ _) HP)|].
  by apply (proj1 (Forall_forall _ _) Hx).
Qed.

Lemma SS_Forall2 (P : A -> B -> Prop) (R : A -> A -> Prop) (R' : B -> B -> Prop) l1 l2 :
  Forall2 P l1 l2 -> (forall a b x y, P a x -> P b y -> R a b -> R' x y) ->
  StronglySorted R l1 -> StronglySorted R' l2.
Proof.
  intros H2 HR. induction H2 as [|a x l1 l2 Pax H2 IH]; intros Hl; [constructor|].
  apply StronglySorted_inv in Hl as [Hl Ha]. constructor; [by apply IH|].
  clear IH Hl. induction H2 as [|b y l1 l2 Pby H2 IH]; [constructor|].
  apply Forall_cons in Ha as [Hab Ha]. constructor; [by eapply HR|by apply IH].
Qed.

End SortedLists.

Lemma mapM_ok {A B} (f : A -> outcome B) l R :
  mapM f l = Ok R -> Forall2 (fun x y => f x = Ok y) l R.
Proof.
  revert R. induction l as [|x l IH]; intros R H; simpl in H.
  - injection H as <-. constructor.
  - unfold mbind, outcome_bind in H. destruct (f x) as [y|e] eqn:Ef; [|done].
    destruct (mapM f l) as [k|e] eqn:Em; [|done]. injection H as <-.
    constructor; [done|by apply IH].
Qed.

Lemma collect_ok df sims idxs R :
  Vector.collect df sims idxs = Ok R ->
  Forall2 (fun idx sc => sc_score sc = default 0%float (sims !! idx) /\
                         Vector.build_course df (default [] (df_rows df !! idx)) = Ok (sc_course sc))
    (filter (fun idx => (0.5 <? default 0%float (sims !! idx))%float = true) idxs) R.
Proof.
  unfold Vector.collect. intros H. apply mapM_ok in H.
  eapply Forall2_impl; [exact H|]. intros idx sc Hsc.
  unfold mbind, outcome_bind in Hsc.
  destruct (Vector.build_course _ _) as [c|e]; [|done]. by injection Hsc as <-.
Qed.

Lemma search_body_ok argsort corpus q f limit R :
  Vector.search_body argsort corpus q f limit = Ok R ->
  R = [] \/ exists df sims,
    Vector.apply_filters corpus f = Ok df /\
    Vector.calculate_similarities q df = Ok sims /\
    Vector.collect df sims (Vector.top_indices argsort sims limit) = Ok R.
Proof.
  unfold Vector.search_body. intros H.
  destruct (Nat.eqb _ 0); [injection H as <-; by left|].
  unfold mbind, outcome_bind in H.
  destruct (Vector.apply_filters corpus f) as [df|e]; [|done].
  destruct (Nat.eqb _ 0); [injection H as <-; by left|].
  destruct (Vector.calculate_similarities q df) as [sims|e] eqn:Ec; [|done].
  right. exists df, sims. cbv beta in H. by repeat split.
Qed.

Lemma filter_rows_sublist df c p df' :
  filter_rows df c p = Ok df' -> df_rows df' `sublist_of` df_rows df.
Proof.
  unfold filter_rows. destruct (has_column df c); [|done].
  intros H. injection H as <-. apply sublist_filter.
Qed.

Lemma apply_filters_sublist corpus f df :
  Vector.apply_filters corpus f = Ok df -> df_rows df `sublist_of` df_rows corpus.
Proof.
  unfold Vector.apply_filters. destruct f as [f|]; [|by intros [= <-]].
  unfold mbind, outcome_bind.
  destruct (match f_levels f with Some ((_ :: _) as ls) => _ | _ => _ end) as [df1|e] eqn:E1; [|done].
  assert (H1 : df_rows df1 `sublist_of` df_rows corpus).
  { destruct (f_levels f) as [[|l ls]|]; try (injection E1 as <-; done).
    by eapply filter_rows_sublist. }
  destruct (match f_departments f with Some ((_ :: _) as ds) => _ | _ => _ end) as [df2|e] eqn:E2; [|done].
  assert (H2 : df_rows df2 `sublist_of` df_rows df1).
  { destruct (f_departments f) as [[|d ds]|]; try (injection E2 as <-; done).
    by eapply filter_rows_sublist. }
  intros H. etrans; [|exact H1]. etrans; [|exact H2].
  destruct (_ && _); [by eapply filter_rows_sublist|by injection H as <-].
Qed.


Lemma mapM_length {A B} (f : A -> outcome B) l R : mapM f l = Ok R -> length R = length l.
Proof. intros H. symmetry. eapply Forall2_length, mapM_ok, H. Qed.

Lemma calculate_similarities_length q df sims :
  Vector.calculate_similarities q df = Ok sims -> length sims = length (df_rows df).
Proof.
  unfold Vector.calculate_similarities.
  destruct (Nat.eqb_spec (length (df_rows df)) 0) as [E|_]; [intros [= <-]; simpl; lia|].
  destruct (has_column df "embedding"); [|done].
  unfold Vector.embeddings_matrix. cbn [mbind outcome_bind].
  destruct (mapM _ _) as [rows|e] eqn:Em; [|done].
  apply mapM_length in Em. rewrite length_map in Em.
  destruct rows as [|r rows']; cbn [mbind outcome_bind].
  - destruct (forallb _ []); [|done]. intros [= <-]. simpl in *. lia.
  - destruct (forallb _ (r :: rows')); [|done]. cbn [mbind outcome_bind].
    destruct (forallb _ (r :: rows')); [|done]. intros [= <-].
    rewrite <- Em. simpl. unfold Vector.cosine_similarities. by rewrite length_map.
Qed.

Lemma kle_trans a b c : key_compare a b <> Gt -> key_compare b c <> Gt -> key_compare a c <> Gt.
Proof.
  intros H1 H2.
  destruct (key_compare a b) eqn:E1; [apply key_compare_eq in E1 as ->; done| |done].
  destruct (key_compare b c) eqn:E2; [apply key_compare_eq in E2 as ->; by rewrite E1| |done].
  by rewrite (key_compare_trans _ _ _ E1 E2).
Qed.

Section Sorting.
Variable s : list float.
Local Abbreviation R := (fun i j : nat => Np.lt (default 0%float (s !! j)) (default 0%float (s !! i)) = false).

Lemma nlt_key i j : R i j <-> key_compare (kf s i) (kf s j) <> Gt.
Proof.
  simpl. rewrite np_lt_key. fold (kf s j) (kf s i).
  rewrite (key_compare_opp (kf s j) (kf s i)).
  destruct (key_compare (kf s j) (kf s i)); simpl; split; congruence.
Qed.

Lemma R_trans i j k : R i j -> R j k -> R i k.
Proof. rewrite !nlt_key. apply kle_trans. Qed.

Lemma R_asym i j : Np.lt (default 0%float (s !! j)) (default 0%float (s !! i)) = true -> R j i.
Proof.
  rewrite nlt_key, np_lt_key. fold (kf s j) (kf s i).
  destruct (key_compare (kf s j) (kf s i)); congruence.
Qed.

Lemma insert_index_perm i l : Vector.insert_index s i l ≡ₚ i :: l.
Proof.
  induction l as [|j l IH]; simpl; [done|].
  destruct (Np.lt _ _); [|done].
  rewrite IH. apply perm_swap.
Qed.

Lemma insert_index_sorted i l :
  StronglySorted R l -> StronglySorted R (Vector.insert_index s i l).
Proof.
  induction l as [|j l IH]; intros Hs; simpl.
  { repeat constructor. }
  apply StronglySorted_inv in Hs as [Hs Hj].
  destruct (Np.lt (default 0%float (s !! j)) (default 0%float (s !! i))) eqn:E.
  - constructor; [by apply IH|]. apply Forall_forall. intros x Hx.
    rewrite (elem_of_Permutation_proper _ _ _ (insert_index_perm i l)) in Hx.
    apply elem_of_cons in Hx as [->|Hx]; [by apply R_asym|].
    by apply (proj1 (Forall_forall _ _) Hj).
  - constructor; [by constructor|]. constructor; [exact E|].
    eapply Forall_impl; [exact Hj|]. intros x Hx. by eapply R_trans.
Qed.

Lemma stable_argsort_seq a k :
  StronglySorted R (foldr (Vector.insert_index s) [] (seq a k)) /\
  foldr (Vector.insert_index s) [] (seq a k) ≡ₚ seq a k.
Proof.
  revert a. induction k as [|k IH]; intros a; simpl; [split; [constructor|done]|].
  destruct (IH (S a)) as [Hs Hp]. split.
  - by apply insert_index_sorted.
  - by rewrite insert_index_perm, Hp.
Qed.

End Sorting.

(** [np.argsort(s, kind="stable")] meets the contract of the search. *)
Lemma stable_argsort_contract : Vector.argsort_contract Vector.stable_argsort.
Proof.
  intros s. destruct (stable_argsort_seq s 0 (length s)) as [Hs Hp]. split; [exact Hp|exact Hs].
Qed.

End VectorFacts.

Module SearchFacts.
Import FloatOrder FloatOrderFacts VectorFacts.

Lemma Forall2_and_l {A B} (P : A -> Prop) (Q : A -> B -> Prop) l1 l2 :
  Forall P l1 -> Forall2 Q l1 l2 -> Forall2 (fun x y => P x /\ Q x y) l1 l2.
Proof. intros HP HQ. induction HQ; inversion HP; subst; constructor; auto. Qed.

Lemma Forall2_Forall_r_impl {A B} (P : A -> B -> Prop) (Q : B -> Prop) l1 l2 :
  Forall2 P l1 l2 -> (forall x y, P x y -> Q y) -> Forall Q l2.
Proof. intros H HQ. induction H; constructor; eauto. Qed.

Section Contract.
Variable argsort : list float -> list nat.
Hypothesis Hargsort : Vector.argsort_contract argsort.

Lemma top_indices_props sims limit :
  StronglySorted (fun x y => Np.lt (default 0%float (sims !! x)) (default 0%float (sims !! y)) = false)
    (Vector.top_indices argsort sims limit) /\
  (forall x, x ∈ Vector.top_indices argsort sims limit -> (x < length sims)%nat) /\
  (1 <= limit -> (length (Vector.top_indices argsort sims limit) <= Z.to_nat limit)%nat) /\
  (limit = 0 -> Vector.top_indices argsort sims limit ≡ₚ seq 0 (length sims)).
Proof.
  destruct (Hargsort sims) as [Hp Hs].
  unfold Vector.top_indices, Vector.py_slice_from. split; [|split; [|split]].
  - apply (SS_rev (fun i j => Np.lt (default 0%float (sims !! j)) (default 0%float (sims !! i)) = false)).
    apply SS_drop, Hs.
  - intros x Hx. rewrite elem_of_reverse in Hx.
    eapply elem_of_sublist in Hx; [|apply sublist_drop].
    rewrite Hp, elem_of_seq in Hx. lia.
  - intros Hl. rewrite length_reverse, length_drop, (Permutation_length Hp), length_seq.
    destruct (Z.ltb_spec (- limit) 0); lia.
  - intros ->. rewrite reverse_Permutation.
    replace (Z.to_nat _) with 0%nat; [exact Hp|].
    destruct (Z.ltb_spec (- 0) 0); lia.
Qed.

Lemma collect_top_props df sims limit R :
  Vector.collect df sims (Vector.top_indices argsort sims limit) = Ok R ->
  let idxs := filter (fun idx => (0.5 <? default 0%float (sims !! idx))%float = true)
                (Vector.top_indices argsort sims limit) in
  Forall2 (fun idx sc => sims !! idx = Some (sc_score sc) /\
                         Vector.build_course df (default [] (df_rows df !! idx)) = Ok (sc_course sc)) idxs R /\
  Forall (fun sc => (0.5 <? sc_score sc)%float = true) R /\
  StronglySorted (fun a b => (sc_score b <=? sc_score a)%float = true) R /\
  (1 <= limit -> (length R <= Z.to_nat limit)%nat) /\
  (limit = 0 -> idxs ≡ₚ filter (fun idx => (0.5 <? default 0%float (sims !! idx))%float = true)
                          (seq 0 (length sims))).
Proof.
  intros HC idxs. apply collect_ok in HC. fold idxs in HC.
  destruct (top_indices_props sims limit) as (Hs & Hin & Hlen & H0).
  set (Q := fun idx => (0.5 <? default 0%float (sims !! idx))%float = true /\ (idx < length sims)%nat).
  assert (HQ : Forall Q idxs).
  { apply Forall_forall. intros x Hx. apply list_elem_of_filter in Hx as [Hp Hx].
    split; [exact Hp|by apply Hin]. }
  assert (Hsi : StronglySorted (fun x y => Np.lt (default 0%float (sims !! x)) (default 0%float (sims !! y)) = false) idxs)
    by (by apply SS_filter).
  pose proof (Forall2_and_l _ _ _ _ HQ HC) as H2.
  assert (Hnan : forall i, Q i -> is_nan (default 0%float (sims !! i)) = false)
    by (intros i [Hi _]; by apply gt_half_not_nan).
  split; [|split; [|split; [|split]]].
  - eapply Forall2_impl; [exact H2|]. intros idx sc [[_ Hi] [Hsc Hb]]. split; [|exact Hb].
    destruct (lookup_lt_is_Some_2 sims idx Hi) as [v Hv]. rewrite Hv in Hsc |- *. by rewrite Hsc.
  - eapply Forall2_Forall_r_impl; [exact H2|]. intros idx sc [[Hp _] [Hsc _]]. by rewrite Hsc.
  - eapply SS_Forall2; [exact H2| |exact Hsi].
    intros a b x y [Qa [Hx _]] [Qb [Hy _]] Hab. rewrite Hx, Hy.
    rewrite leb_key by (by apply Hnan). rewrite np_lt_key in Hab.
    rewrite key_compare_opp. destruct (key_compare _ _); done.
  - intros Hl. rewrite <- (Forall2_length _ _ _ HC).
    etrans; [apply length_filter|]. by apply Hlen.
  - intros Hl. unfold idxs. by rewrite (H0 Hl).
Qed.

Lemma search_length snap cd q f limit :
  1 <= limit -> (length (Vector.search_similar_courses argsort snap cd q f limit).2 <= Z.to_nat limit)%nat.
Proof.
  intros Hl. unfold Vector.search_similar_courses. simpl.
  destruct (Vector.search_body argsort _ q f limit) as [R|e] eqn:E; simpl; [|lia].
  destruct (search_body_ok _ _ _ _ _ _ E) as [->|(df & sims & _ & _ & Hc)]; [simpl; lia|].
  destruct (collect_top_props _ _ _ _ Hc) as (_ & _ & _ & Hlen & _). by apply Hlen.
Qed.

Lemma search_sorted snap cd q f limit :
  Forall (fun sc => (0.5 <? sc_score sc)%float = true) (Vector.search_similar_courses argsort snap cd q f limit).2 /\
  StronglySorted (fun a b => (sc_score b <=? sc_score a)%float = true)
    (Vector.search_similar_courses argsort snap cd q f limit).2.
Proof.
  unfold Vector.search_similar_courses. simpl.
  destruct (Vector.search_body argsort _ q f limit) as [R|e] eqn:E; simpl; [|split; constructor].
  destruct (search_body_ok _ _ _ _ _ _ E) as [->|(df & sims & _ & _ & Hc)]; [split; constructor|].
  destruct (collect_top_props _ _ _ _ Hc) as (_ & Hgt & Hdesc & _ & _). by split.
Qed.

End Contract.
End SearchFacts.

(** C3: for any [np.argsort] meeting its contract, [search_similar_courses]
    returns matches whose scores are all above 0.5 and non-increasing; for
    a limit of at least 1 it returns at most [limit] of them; a second call
    on the corpus the first one returned gives the same output. Unless the
    search fails, each returned match is a row of the filtered corpus with
    its similarity, the rows come in the reverse of the order [argsort]
    leaves them in, and for a limit of 0 they are all the rows whose
    similarity is above 0.5. *)
Theorem search_similar_courses_ranking argsort snap cd q f limit :
  Vector.argsort_contract argsort ->
  let corpus := match cd with Some df => df | None => Vector.load_course_data snap end in
  let R := (Vector.search_similar_courses argsort snap cd q f limit).2 in
  (Vector.search_similar_courses argsort snap cd q f limit).1 = Some corpus /\
  Vector.search_similar_courses argsort snap (Some corpus) q f limit = (Some corpus, R) /\
  Forall (fun sc => (0.5 <? sc_score sc)%float = true) R /\
  StronglySorted (fun a b => (sc_score b <=? sc_score a)%float = true) R /\
  (1 <= limit -> (length R <= Z.to_nat limit)%nat) /\
  (R = [] \/
   exists df sims,
     let idxs := filter (fun idx => (0.5 <? default 0%float (sims !! idx))%float = true)
                   (Vector.top_indices argsort sims limit) in
     Vector.apply_filters corpus f = Ok df /\
     df_rows df `sublist_of` df_rows corpus /\
     Vector.calculate_similarities q df = Ok sims /\
     length sims = length (df_rows df) /\
     Forall2 (fun idx sc => sims !! idx = Some (sc_score sc) /\
                            Vector.build_course df (default [] (df_rows df !! idx)) = Ok (sc_course sc))
       idxs R /\
     (limit = 0 -> idxs ≡ₚ filter (fun idx => (0.5 <? default 0%float (sims !! idx))%float = true)
                             (seq 0 (length sims)))).
Proof.
  intros Hc corpus R.
  assert (HR : R = catch (Vector.search_body argsort corpus q f limit) (fun _ => [])) by (by destruct cd).
  split; [by destruct cd|split; [by rewrite HR|]].
  clearbody R. rewrite HR.
  destruct (Vector.search_body argsort corpus q f limit) as [R'|e] eqn:E; simpl;
    [|split; [constructor|split; [constructor|split; [simpl; lia|by left]]]].
  destruct (VectorFacts.search_body_ok _ _ _ _ _ _ E) as [->|(df & sims & Hf & Hs & Hcol)].
  { split; [constructor|split; [constructor|split; [simpl; lia|by left]]]. }
  destruct (SearchFacts.collect_top_props argsort Hc _ _ _ _ Hcol) as (H2 & Hgt & Hdesc & Hlen & H0).
  split; [exact Hgt|split; [exact Hdesc|split; [exact Hlen|]]].
  right. exists df, sims.
  split; [exact Hf|split; [by eapply VectorFacts.apply_filters_sublist|]].
  split; [exact Hs|split; [by eapply VectorFacts.calculate_similarities_length|]].
  split; [exact H2|exact H0].
Qed.

Lemma search_similar_courses_ranking_witness :
  Vector.argsort_contract Vector.stable_argsort /\
  (Vector.search_similar_courses Vector.stable_argsort (Ok empty_frame) None [1]%float None 3).1 =
    Some empty_frame.
Proof.
  split; [exact VectorFacts.stable_argsort_contract|].
  exact (proj1 (search_similar_courses_ranking Vector.stable_argsort (Ok empty_frame) None [1]%float None 3
                  VectorFacts.stable_argsort_contract)).
Defined.

(** C3: with numpy's introsort, 18 equally scored rows come out as rows
    17, 16, 1, 2 for a limit of 4: neither in corpus order nor in reverse
    corpus order. Two equally scored rows come out later row first, and
    a limit of 0 returns all 18 matches. *)
Lemma search_ties_not_corpus_order :
  let row (i : nat) :=
    [("id", PyStr (pretty i)); ("course", PyStr (pretty i)); ("title", PyStr (pretty i));
     ("description", PyStr (pretty i)); ("level", PyInt 100); ("department", PyStr "EECS");
     ("embedding", PyVec [1; 0]%float)] in
  let columns := ["id"; "course"; "title"; "description"; "level"; "department"; "embedding"] in
  let search n limit :=
    map (fun sc => (course_id (sc_course sc), sc_score sc))
      (Vector.search_similar_courses NpSort.argsort (Ok (mkFrame columns (map row (seq 0 n)))) None
         [1; 0]%float None limit).2 in
  search 18%nat 4 = [("17", 1%float); ("16", 1%float); ("1", 1%float); ("2", 1%float)] /\
  search 2%nat 5 = [("1", 1%float); ("0", 1%float)] /\
  length (search 18%nat 0) = 18%nat.
Proof. vm_compute. split; [reflexivity|split; reflexivity]. Qed.

Module Cosine.
Import FloatOrder FloatOrderFacts.

Lemma mul_zero_finite x y :
  (x =? 0)%float = true -> is_finite y = true -> (x * y =? 0)%float = true /\ (y * x =? 0)%float = true.
Proof.
  unfold is_finite, is_nan, is_infinity. rewrite !FloatAxioms.eqb_spec, !mul_spec, abs_spec.
  change (Prim2SF 0) with (S754_zero false). change (Prim2SF infinity) with (S754_infinity false).
  intros Hx Hy.
  destruct (Prim2SF x) as [sx|sx| |sx mx ex], (Prim2SF y) as [sy|sy| |sy my ey];
    try destruct sx; try destruct sy; cbn in Hx, Hy |- *; try discriminate; split; reflexivity.
Qed.

Lemma mul_zero_infinity x :
  (x =? 0)%float = true -> is_nan (x * infinity) = true /\ is_nan (infinity * x) = true.
Proof.
  rewrite FloatAxioms.eqb_spec, !is_nan_spec, !mul_spec.
  change (Prim2SF 0) with (S754_zero false). change (Prim2SF infinity) with (S754_infinity false).
  intros Hx. destruct (Prim2SF x) as [[]|[]| |[] mx ex]; cbn in Hx |- *; try discriminate; split; reflexivity.
Qed.

Lemma nan_eqb_zero y : is_nan y = true -> (y =? 0)%float = false.
Proof. rewrite is_nan_spec, FloatAxioms.eqb_spec. intros ->. reflexivity. Qed.

Lemma div_nan x y : is_nan y = true -> is_nan (x / y) = true.
Proof.
  rewrite !is_nan_spec, div_spec. intros ->.
  destruct (Prim2SF x) as [[]|[]| |[] mx ex]; reflexivity.
Qed.

Lemma embeddings_mismatch q df :
  df_rows df <> [] -> has_column df "embedding" = true ->
  Forall (fun r => exists e, cell r "embedding" = PyVec e) (df_rows df) ->
  Exists (fun r => exists e, cell r "embedding" = PyVec e /\ length e <> length q) (df_rows df) ->
  exists msg, Vector.calculate_similarities q df = Raise (ValueError msg).
Proof.
  intros Hne Hcol Hall Hex. unfold Vector.calculate_similarities.
  destruct (Nat.eqb_spec (length (df_rows df)) 0) as [E|_].
  { destruct (df_rows df); [done|discriminate]. }
  rewrite Hcol. unfold Vector.embeddings_matrix. cbn [mbind outcome_bind].
  set (emb := fun r : list (string * pyval) => match cell r "embedding" with PyVec e => e | _ => [] end).
  assert (Hm : forall rs, Forall (fun r => exists e, cell r "embedding" = PyVec e) rs ->
    mapM (fun v => match v with
                   | PyVec e => Ok e
                   | _ => Raise (ValueError "setting an array element with a sequence")
                   end) (map (fun r => cell r "embedding") rs) = Ok (map emb rs)).
  { induction 1 as [|r rs [e He] _ IH]; [done|].
    cbn [map]. simpl. rewrite He. simpl. rewrite IH. unfold emb at 2. by rewrite He. }
  rewrite (Hm _ Hall). cbn [mbind outcome_bind].
  assert (Hq : forallb (fun e => Nat.eqb (length e) (length q)) (map emb (df_rows df)) = false).
  { apply not_true_iff_false. rewrite forallb_forall. intros Hf.
    apply Exists_exists in Hex as (r & Hr & e & He & Hl).
    apply Hl. apply Nat.eqb_eq. replace e with (emb r) by (unfold emb; by rewrite He).
    apply Hf. apply in_map_iff. exists r. split; [done|]. by apply list_elem_of_In. }
  destruct (map emb (df_rows df)) as [|r0 rs] eqn:Er.
  { destruct (df_rows df); [done|discriminate]. }
  destruct (forallb (fun e => Nat.eqb (length e) (length r0)) (r0 :: rs)); cbn [mbind outcome_bind].
  - rewrite Hq. by eexists.
  - by eexists.
Qed.

Lemma search_mismatch argsort snap corpus q f limit df :
  Vector.apply_filters corpus f = Ok df ->
  df_rows df <> [] -> has_column df "embedding" = true ->
  Forall (fun r => exists e, cell r "embedding" = PyVec e) (df_rows df) ->
  Exists (fun r => exists e, cell r "embedding" = PyVec e /\ length e <> length q) (df_rows df) ->
  (Vector.search_similar_courses argsort snap (Some corpus) q f limit).2 = [].
Proof.
  intros Hf Hne Hcol Hall Hex.
  destruct (embeddings_mismatch q df Hne Hcol Hall Hex) as [msg Hm].
  unfold Vector.search_similar_courses, Vector.search_body. cbn [snd].
  destruct (Nat.eqb_spec (length (df_rows corpus)) 0) as [E|_].
  { apply nil_length_inv in E. apply VectorFacts.apply_filters_sublist in Hf.
    rewrite E in Hf. apply sublist_nil_r in Hf. done. }
  rewrite Hf. cbn [mbind outcome_bind].
  destruct (Nat.eqb_spec (length (df_rows df)) 0) as [E|_].
  { apply nil_length_inv in E. done. }
  by rewrite Hm.
Qed.

(** C8: when one of the two norms is zero and the other is finite, the
    cosine similarity of that row is exactly 0; when the other norm is
    infinite the product of the norms is NaN and so is the similarity; a
    corpus row whose embedding has another length than the query makes
    [_calculate_similarities] raise a [ValueError], and the search then
    returns no match. *)
Theorem cosine_zero_norm :
  (forall m q i e, m !! i = Some e ->
     ((Np.norm e =? 0)%float = true /\ is_finite (Np.norm q) = true) \/
     ((Np.norm q =? 0)%float = true /\ is_finite (Np.norm e) = true) ->
     Vector.cosine_similarities m q !! i = Some 0%float) /\
  (forall m q i e, m !! i = Some e ->
     ((Np.norm e =? 0)%float = true /\ Np.norm q = infinity) \/
     ((Np.norm q =? 0)%float = true /\ Np.norm e = infinity) ->
     exists v, Vector.cosine_similarities m q !! i = Some v /\ is_nan v = true) /\
  (forall q df, df_rows df <> [] -> has_column df "embedding" = true ->
     Forall (fun r => exists e, cell r "embedding" = PyVec e) (df_rows df) ->
     Exists (fun r => exists e, cell r "embedding" = PyVec e /\ length e <> length q) (df_rows df) ->
     exists msg, Vector.calculate_similarities q df = Raise (ValueError msg)) /\
  (forall argsort snap corpus q f limit df,
     Vector.apply_filters corpus f = Ok df ->
     df_rows df <> [] -> has_column df "embedding" = true ->
     Forall (fun r => exists e, cell r "embedding" = PyVec e) (df_rows df) ->
     Exists (fun r => exists e, cell r "embedding" = PyVec e /\ length e <> length q) (df_rows df) ->
     (Vector.search_similar_courses argsort snap (Some corpus) q f limit).2 = []).
Proof.
  split; [|split; [|split]].
  - intros m q i e Hi Hz. unfold Vector.cosine_similarities. rewrite list_lookup_fmap, Hi. simpl.
    unfold Np.divide_where_nonzero.
    replace (Np.norm e * Np.norm q =? 0)%float with true; [done|].
    destruct Hz as [[H1 H2]|[H1 H2]]; symmetry;
      [exact (proj1 (mul_zero_finite _ _ H1 H2))|exact (proj2 (mul_zero_finite _ _ H1 H2))].
  - intros m q i e Hi Hz. unfold Vector.cosine_similarities. rewrite list_lookup_fmap, Hi. simpl.
    eexists. split; [reflexivity|]. unfold Np.divide_where_nonzero.
    assert (Hn : is_nan (Np.norm e * Np.norm q) = true).
    { destruct Hz as [[H1 ->]|[H1 ->]];
        [exact (proj1 (mul_zero_infinity _ H1))|exact (proj2 (mul_zero_infinity _ H1))]. }
    rewrite (nan_eqb_zero _ Hn). by apply div_nan.
  - exact embeddings_mismatch.
  - exact search_mismatch.
Qed.

Lemma cosine_zero_norm_witness :
  Vector.cosine_similarities [[0]%float] [1]%float !! 0%nat = Some 0%float /\
  (exists v, Vector.cosine_similarities [[0]%float] [0x1p600]%float !! 0%nat = Some v /\ is_nan v = true) /\
  (Vector.search_similar_courses Vector.stable_argsort (Ok empty_frame)
     (Some (mkFrame ["embedding"] [[("embedding", PyVec [1; 0]%float)]])) [1]%float None 5).2 = [].
Proof.
  split; [|split].
  - apply ((proj1 cosine_zero_norm) _ _ _ [0]%float); [reflexivity|left; split; vm_compute; reflexivity].
  - apply ((proj1 (proj2 cosine_zero_norm)) _ _ _ [0]%float); [reflexivity|left; split; vm_compute; reflexivity].
  - apply ((proj2 (proj2 (proj2 cosine_zero_norm))) _ _ _ _ _ _ (mkFrame ["embedding"] [[("embedding", PyVec [1; 0]%float)]])).
    + reflexivity.
    + discriminate.
    + reflexivity.
    + repeat constructor. eexists. reflexivity.
    + apply Exists_cons_hd. eexists. split; [reflexivity|simpl; lia].
Defined.

(** C8: a zero norm against an overflowing one yields NaN, not 0. *)
Lemma cosine_zero_norm_overflow :
  (Np.norm [0]%float =? 0)%float = true /\
  is_finite (Np.norm [0x1p600]%float) = false /\
  map is_nan (Vector.cosine_similarities [[0]%float] [0x1p600]%float) = [true].
Proof. vm_compute. repeat split; reflexivity. Qed.
End Cosine.

Module PipelineFacts.
Import Pipeline.

Lemma mapM_cons {A B} (f : A -> outcome B) x l :
  mapM f (x :: l) =
    match f x with
    | Ok y => match mapM f l with Ok k => Ok (y :: k) | Raise e => Raise e end
    | Raise e => Raise e
    end.
Proof. reflexivity. Qed.

Lemma add_explanations_ok svc q head :
  llm_client svc = true ->
  exists head', add_explanations svc q head = Ok head' /\
    Forall2 (fun sc sc' => sc_course sc' = sc_course sc /\ sc_score sc' = sc_score sc /\
               (sc_explanation sc' = sc_explanation sc \/
                sc_explanation sc' = catch (chat_explanation svc (sc_course sc) q)
                                           (fun _ => Some explanation_fallback)))
      head head'.
Proof.
  intros Hc. induction head as [|sc head IH].
  { exists []. split; [done|constructor]. }
  destruct IH as [head' [Hh Hf]].
  unfold add_explanations in *. rewrite mapM_cons, Hh. cbv beta.
  destruct (py_truthy _).
  - exists (sc :: head'). split; [done|]. constructor; [|exact Hf]. auto.
  - unfold explain_recommendation. rewrite Hc.
    eexists. split; [reflexivity|]. constructor; [|exact Hf]. simpl. auto.
Qed.

Lemma py_slice_to_take {A} (k : Z) (l : list A) :
  Vector.py_slice_to k l =
    take (Z.to_nat (if k <? 0 then Z.max 0 (k + Z.of_nat (length l)) else Z.min k (Z.of_nat (length l)))) l.
Proof. reflexivity. Qed.

(** The response and ledger of a request whose stages up to the
    recommendation text succeed with at least one match. *)
Lemma success_shape svc exn_str req user ledger d v scs txt :
  generate_course_description svc (query req) = Ok d ->
  vector_generate_embedding svc d = Ok v ->
  vector_search svc v (Some (mkFilter (levels req) None false)) (Z.min 50 (max_results req * 3)) = Ok scs ->
  scs <> [] ->
  generate_recommendations_text svc (query req)
    (map course_dict (Vector.py_slice_to (max_results req * 2) scs)) = Ok txt ->
  exists resp,
    (get_recommendations svc exn_str req user ledger).2 = Ok resp /\
    Forall2 (fun sc sc' => sc_course sc' = sc_course sc /\ sc_score sc' = sc_score sc /\
               (sc_explanation sc' = sc_explanation sc \/
                (include_explanations req = true /\
                 sc_explanation sc' = catch (chat_explanation svc (sc_course sc) (query req))
                                            (fun _ => Some explanation_fallback))))
      (Vector.py_slice_to (max_results req) scs) (recommendations resp) /\
    total_courses_searched resp = Z.of_nat (length scs) /\
    (get_recommendations svc exn_str req user ledger).1 =
      match user with
      | Some u => ledger ++ [mkUsage (user_id u) true None (Some (Z.of_nat (length (recommendations resp))))]
      | None => ledger
      end.
Proof.
  intros Hd Hv Hs Hne Ht.
  assert (Hc : llm_client svc = true).
  { unfold generate_course_description in Hd. by destruct (llm_client svc). }
  set (head := Vector.py_slice_to (max_results req) scs).
  assert (Hexp : exists head', (if include_explanations req then add_explanations svc (query req) head else Ok head) = Ok head' /\
    Forall2 (fun sc sc' => sc_course sc' = sc_course sc /\ sc_score sc' = sc_score sc /\
               (sc_explanation sc' = sc_explanation sc \/
                (include_explanations req = true /\
                 sc_explanation sc' = catch (chat_explanation svc (sc_course sc) (query req))
                                            (fun _ => Some explanation_fallback)))) head head').
  { destruct (include_explanations req).
    - destruct (add_explanations_ok svc (query req) head Hc) as [h' [Hh Hf]].
      exists h'. split; [done|]. eapply Forall2_impl; [exact Hf|]. naive_solver.
    - exists head. split; [done|]. apply Forall_Forall2_diag, Forall_forall. auto. }
  destruct Hexp as [head' [Hh Hf]].
  assert (Hlen : length head' = length head) by (symmetry; by eapply Forall2_length).
  assert (Hlen_head : (length head <= length scs)%nat).
  { unfold head. rewrite py_slice_to_take, length_take. lia. }
  set (sc' := head' ++ drop (length head) scs).
  assert (Hsc' : length sc' = length scs).
  { unfold sc'. rewrite length_app, length_drop. lia. }
  assert (Hslice : Vector.py_slice_to (max_results req) sc' = head').
  { rewrite py_slice_to_take, Hsc'. unfold sc'.
    assert (Hn : Z.to_nat (if max_results req <? 0 then Z.max 0 (max_results req + Z.of_nat (length scs))
                          else Z.min (max_results req) (Z.of_nat (length scs))) = length head).
    { unfold head. rewrite py_slice_to_take, length_take.
      destruct (Z.ltb_spec (max_results req) 0); lia. }
    rewrite Hn, <- Hlen. apply take_app_length. }
  exists (mkResponse head' (Z.of_nat (length scs))
            ("Found " +:+ pretty (Z.of_nat (length scs)) +:+ " relevant courses based on your interests.")
            (Some d)).
  unfold get_recommendations, recommend_body.
  unfold mbind, outcome_bind. rewrite Hd. cbv beta iota zeta. rewrite Hv. cbv beta iota zeta. rewrite Hs. cbv beta iota zeta.
  rewrite bool_decide_eq_false_2 by done. rewrite Ht. fold head. rewrite Hh.
  fold sc'. rewrite Hslice, Hsc'.
  destruct user as [u|]; simpl; (split; [done|split; [exact Hf|split; [done|]]]); done.
Qed.

Lemma no_match_shape svc exn_str req user ledger d v :
  generate_course_description svc (query req) = Ok d ->
  vector_generate_embedding svc d = Ok v ->
  vector_search svc v (Some (mkFilter (levels req) None false)) (Z.min 50 (max_results req * 3)) = Ok [] ->
  get_recommendations svc exn_str req user ledger = (ledger, Ok (mkResponse [] 0 no_match_message None)).
Proof.
  intros Hd Hv Hs. unfold get_recommendations, recommend_body.
  unfold mbind, outcome_bind. rewrite Hd. cbv beta iota zeta. rewrite Hv. cbv beta iota zeta.
  rewrite Hs. cbv beta iota zeta. rewrite bool_decide_eq_true_2 by done. reflexivity.
Qed.

Lemma SS_take {A} (R : A -> A -> Prop) n l : StronglySorted R l -> StronglySorted R (take n l).
Proof.
  revert l. induction n as [|n IH]; intros l Hl; [constructor|].
  destruct l as [|x l]; [constructor|]. apply StronglySorted_inv in Hl as [Hl Hx].
  simpl. constructor; [by apply IH|].
  apply Forall_forall. intros y Hy. apply (proj1 (Forall_forall _ _) Hx).
  by eapply elem_of_sublist; [exact Hy|apply sublist_take].
Qed.

Lemma Forall2_map_eq {A B C} (P : A -> B -> Prop) (f : A -> C) (g : B -> C) l1 l2 :
  Forall2 P l1 l2 -> (forall x y, P x y -> g y = f x) -> map g l2 = map f l1.
Proof. intros H Hfg. induction H; simpl; [done|]. f_equal; auto. Qed.
End PipelineFacts.

Module Recommend.
Import Pipeline.

(** C2: once matches are retrieved and the recommendation text succeeds,
    [get_recommendations] succeeds whatever the explanation provider
    does: each of the first [max_results] matches appears in order with
    its course and score, its explanation unchanged or the provider's
    result (the fallback string when the provider fails), and the total
    counts every retrieved match. *)
Theorem get_recommendations_explanations_absorbed svc exn_str req user ledger d v scs txt :
  generate_course_description svc (query req) = Ok d ->
  vector_generate_embedding svc d = Ok v ->
  vector_search svc v (Some (mkFilter (levels req) None false)) (Z.min 50 (max_results req * 3)) = Ok scs ->
  scs <> [] ->
  generate_recommendations_text svc (query req)
    (map course_dict (Vector.py_slice_to (max_results req * 2) scs)) = Ok txt ->
  exists resp,
    (get_recommendations svc exn_str req user ledger).2 = Ok resp /\
    Forall2 (fun sc sc' => sc_course sc' = sc_course sc /\ sc_score sc' = sc_score sc /\
               (sc_explanation sc' = sc_explanation sc \/
                (include_explanations req = true /\
                 sc_explanation sc' = catch (chat_explanation svc (sc_course sc) (query req))
                                            (fun _ => Some explanation_fallback))))
      (Vector.py_slice_to (max_results req) scs) (recommendations resp) /\
    total_courses_searched resp = Z.of_nat (length scs).
Proof.
  intros Hd Hv Hs Hne Ht.
  destruct (PipelineFacts.success_shape svc exn_str req user ledger d v scs txt Hd Hv Hs Hne Ht) as (resp & H1 & H2 & H3 & _).
  by exists resp.
Qed.

Lemma get_recommendations_explanations_absorbed_witness :
  let c1 := mkCourse "A" "EECS 484" "Databases" "Storage" 400 "EECS" in
  let svc := mkServices true (fun _ => Ok "desc") (fun _ _ => Ok "text")
               (fun _ _ => Raise (UpstreamError "timeout")) (fun _ => Ok [1]%float)
               (fun _ _ _ => Ok [mkSimilar c1 0.75 None]) (fun _ => Ok ()) in
  let req := mkRequest "distributed systems" None 1 true in
  exists resp,
    (get_recommendations svc (fun _ => "timeout") req None []).2 = Ok resp /\
    Forall2 (fun sc sc' => sc_course sc' = sc_course sc /\ sc_score sc' = sc_score sc /\
               (sc_explanation sc' = sc_explanation sc \/
                (include_explanations req = true /\
                 sc_explanation sc' = catch (chat_explanation svc (sc_course sc) (query req))
                                            (fun _ => Some explanation_fallback))))
      (Vector.py_slice_to (max_results req) [mkSimilar c1 0.75 None]) (recommendations resp) /\
    total_courses_searched resp = 1.
Proof.
  intros c1 svc req.
  apply (get_recommendations_explanations_absorbed svc (fun _ => "timeout") req None [] "desc" [1]%float
           [mkSimilar c1 0.75 None] "text"); [reflexivity|reflexivity|reflexivity|discriminate|reflexivity].
Defined.

(** C2: with [max_results = 1] only the first of two matches is returned,
    with the fallback explanation. *)
Lemma get_recommendations_truncates :
  let course (i : string) := mkCourse i i i i 400 "EECS" in
  let svc := mkServices true (fun _ => Ok "desc") (fun _ _ => Ok "text")
               (fun _ _ => Raise (UpstreamError "timeout")) (fun _ => Ok [1]%float)
               (fun _ _ _ => Ok [mkSimilar (course "A") 0.75 None; mkSimilar (course "B") 0.625 None])
               (fun _ => Ok ()) in
  let req := mkRequest "distributed systems" None 1 true in
  match (get_recommendations svc (fun _ => "timeout") req None []).2 with
  | Ok resp => map (fun sc => (course_id (sc_course sc), sc_explanation sc)) (recommendations resp)
                 = [("A", Some explanation_fallback)] /\ total_courses_searched resp = 2
  | Raise _ => False
  end.
Proof. vm_compute. split; reflexivity. Qed.



(** C7: with [max_results = 3] and no level filter, over the vector
    search of a corpus with an [np.argsort] meeting its contract, the
    response lists the first 3 of the matches the search returns for a
    limit of 9 over active courses, with scores above 0.5 and
    non-increasing, and [total_courses_searched] is the number of those
    matches, at most 9. *)
Theorem get_recommendations_scenario argsort svc exn_str req user ledger snap cd d v txt :
  Vector.argsort_contract argsort ->
  max_results req = 3 -> levels req = None ->
  (forall q f l, vector_search svc q f l = Ok (Vector.search_similar_courses argsort snap cd q f l).2) ->
  generate_course_description svc (query req) = Ok d ->
  vector_generate_embedding svc d = Ok v ->
  (forall cs, generate_recommendations_text svc (query req) cs = Ok txt) ->
  let R := (Vector.search_similar_courses argsort snap cd v (Some (mkFilter None None false)) 9).2 in
  exists resp,
    (get_recommendations svc exn_str req user ledger).2 = Ok resp /\
    map (fun sc => (sc_course sc, sc_score sc)) (recommendations resp) =
      map (fun sc => (sc_course sc, sc_score sc)) (take 3 R) /\
    Forall (fun sc => (0.5 <? sc_score sc)%float = true) (recommendations resp) /\
    StronglySorted (fun a b => (sc_score b <=? sc_score a)%float = true) (recommendations resp) /\
    total_courses_searched resp = Z.of_nat (length R) /\
    (length R <= 9)%nat.
Proof.
  intros Hc Hm Hlv Hsearch Hd Hv Ht R.
  assert (Hs : vector_search svc v (Some (mkFilter (levels req) None false))
                 (Z.min 50 (max_results req * 3)) = Ok R)
    by (rewrite Hm, Hlv; apply Hsearch).
  assert (HR : (length R <= 9)%nat) by (apply (SearchFacts.search_length argsort Hc snap cd v _ 9); lia).
  destruct (SearchFacts.search_sorted argsort Hc snap cd v (Some (mkFilter None None false)) 9) as [Hgt Hdesc].
  fold R in Hgt, Hdesc.
  destruct (decide (R = [])) as [E|Hne].
  - exists (mkResponse [] 0 no_match_message None).
    rewrite (PipelineFacts.no_match_shape svc exn_str req user ledger d v Hd Hv ltac:(by rewrite Hs, E)).
    rewrite E. simpl. repeat split; try constructor; lia.
  - destruct (PipelineFacts.success_shape svc exn_str req user ledger d v R txt Hd Hv Hs Hne (Ht _))
      as (resp & H1 & H2 & H3 & _).
    assert (Htake : Vector.py_slice_to (max_results req) R = take 3 R).
    { rewrite Hm, PipelineFacts.py_slice_to_take.
      change (3 <? 0) with false. cbv iota.
      destruct (decide (length R <= 3)%nat).
      - rewrite !take_ge; [done|lia|lia].
      - f_equal. lia. }
    rewrite Htake in H2.
    exists resp. split; [exact H1|split; [|split; [|split; [|split; [exact H3|exact HR]]]]].
    + erewrite PipelineFacts.Forall2_map_eq; [done|exact H2|].
      intros x y (Hx & Hsc & _). by rewrite Hx, Hsc.
    + eapply SearchFacts.Forall2_Forall_r_impl; [exact (SearchFacts.Forall2_and_l _ _ _ _ (Forall_take _ 3 _ Hgt) H2)|].
      intros x y [Hx (_ & Hsc & _)]. by rewrite Hsc.
    + eapply VectorFacts.SS_Forall2; [exact H2| |exact (PipelineFacts.SS_take _ 3 _ Hdesc)].
      intros a b x y (_ & Hxa & _) (_ & Hyb & _) Hab. by rewrite Hxa, Hyb.
Qed.

Lemma get_recommendations_scenario_witness :
  let row (i : nat) (e : list float) :=
    [("id", PyStr (pretty i)); ("course", PyStr ("EECS " +:+ pretty i)); ("title", PyStr "Databases");
     ("description", PyStr "Storage and queries"); ("level", PyInt 400); ("department", PyStr "EECS");
     ("is_active", PyBool true); ("embedding", PyVec e)] in
  let corpus := mkFrame ["id"; "course"; "title"; "description"; "level"; "department"; "is_active"; "embedding"]
                  [row 0%nat [1; 0]%float; row 1%nat [0; 1]%float; row 2%nat [3; 1]%float] in
  let svc := mkServices true (fun _ => Ok "desc") (fun _ _ => Ok "text")
               (fun _ _ => Ok (Some "why")) (fun _ => Ok [1; 0]%float)
               (fun q f l => Ok (Vector.search_similar_courses Vector.stable_argsort (Ok corpus) None q f l).2)
               (fun _ => Ok ()) in
  let req := mkRequest "I want to learn about distributed systems and databases" None 3 false in
  let R := (Vector.search_similar_courses Vector.stable_argsort (Ok corpus) None [1; 0]%float
              (Some (mkFilter None None false)) 9).2 in
  map (fun sc => course_id (sc_course sc)) R = ["0"; "2"] /\
  exists resp,
    (get_recommendations svc (fun _ => "error") req None []).2 = Ok resp /\
    map (fun sc => (sc_course sc, sc_score sc)) (recommendations resp) =
      map (fun sc => (sc_course sc, sc_score sc)) (take 3 R) /\
    Forall (fun sc => (0.5 <? sc_score sc)%float = true) (recommendations resp) /\
    StronglySorted (fun a b => (sc_score b <=? sc_score a)%float = true) (recommendations resp) /\
    total_courses_searched resp = Z.of_nat (length R) /\
    (length R <= 9)%nat.
Proof.
  intros row corpus svc req R. split; [vm_compute; reflexivity|].
  apply (get_recommendations_scenario Vector.stable_argsort svc (fun _ => "error") req None [] (Ok corpus) None
           "desc" [1; 0]%float "text");
    [exact VectorFacts.stable_argsort_contract|reflexivity|reflexivity|intros; reflexivity
    |reflexivity|reflexivity|intros; reflexivity].
Defined.

(** C7: with 10 equally matching active courses, 3 are returned and the
    total is 9, not the 10 candidates that pass filtering. *)
Lemma get_recommendations_total_capped :
  let row (i : nat) :=
    [("id", PyStr (pretty i)); ("course", PyStr (pretty i)); ("title", PyStr (pretty i));
     ("description", PyStr (pretty i)); ("level", PyInt 400); ("department", PyStr "EECS");
     ("is_active", PyBool true); ("embedding", PyVec [1; 0]%float)] in
  let corpus := mkFrame ["id"; "course"; "title"; "description"; "level"; "department"; "is_active"; "embedding"]
                  (map row (seq 0 10)) in
  let svc := mkServices true (fun _ => Ok "desc") (fun _ _ => Ok "text")
               (fun _ _ => Ok (Some "why")) (fun _ => Ok [1; 0]%float)
               (fun q f l => Ok (Vector.search_similar_courses NpSort.argsort (Ok corpus) None q f l).2)
               (fun _ => Ok ()) in
  let req := mkRequest "I want to learn about distributed systems and databases" None 3 false in
  match (get_recommendations svc (fun _ => "error") req None []).2 with
  | Ok r => Some (length (recommendations r), total_courses_searched r) | Raise _ => None end
    = Some (3%nat, 9) /\
  match Vector.apply_filters corpus (Some (mkFilter None None false)) with
  | Ok df => Some (length (df_rows df)) | Raise _ => None end = Some 10%nat /\
  length (Vector.search_similar_courses NpSort.argsort (Ok corpus) None [1; 0]%float
            (Some (mkFilter None None false)) 50).2 = 10%nat.
Proof. vm_compute. split; [reflexivity|split; reflexivity]. Qed.

End Recommend.

Module EmbeddingFacts.
Import MemCache.

Lemma timedelta_unbound : Embedding.timedelta_hours 24 = Raise (NameError "timedelta").
Proof. vm_compute. reflexivity. Qed.

Lemma generate_embedding_miss md5 provider now text c :
  (get now ("embedding:" +:+ md5 text) c).2 = None ->
  Embedding.generate_embedding md5 true provider now text c =
    match provider text with
    | Raise e => (cleanup_expired now c, Raise e)
    | Ok _ => (cleanup_expired now c, Raise (NameError "timedelta"))
    end.
Proof.
  intros Hmiss. rewrite MemCacheFacts.get_result in Hmiss.
  unfold Embedding.generate_embedding. cbn [negb].
  change (get now ("embedding:" +:+ md5 text) c)
    with (cleanup_expired now c, cache (cleanup_expired now c) !! ("embedding:" +:+ md5 text)).
  cbv beta iota zeta. rewrite Hmiss.
  destruct (provider text); [|reflexivity].
  rewrite timedelta_unbound. reflexivity.
Qed.

End EmbeddingFacts.

(** C5: on a cache miss, a successful provider call is followed by a
    [NameError] on [timedelta]: nothing is stored, the key still misses,
    and the next call with the same text calls the provider again. *)
Theorem generate_embedding_never_caches md5 provider now text c emb :
  (MemCache.get now ("embedding:" +:+ md5 text) c).2 = None ->
  provider text = Ok emb ->
  Embedding.generate_embedding md5 true provider now text c =
    (MemCache.cleanup_expired now c, Raise (NameError "timedelta")) /\
  (MemCache.get now ("embedding:" +:+ md5 text) (MemCache.cleanup_expired now c)).2 = None /\
  (forall provider' e, provider' text = Raise e ->
     Embedding.generate_embedding md5 true provider' now text (MemCache.cleanup_expired now c) =
       (MemCache.cleanup_expired now (MemCache.cleanup_expired now c), Raise e)).
Proof.
  intros Hmiss Hp.
  assert (Hmiss' : (MemCache.get now ("embedding:" +:+ md5 text) (MemCache.cleanup_expired now c)).2 = None).
  { rewrite MemCacheFacts.get_result, RateFacts.cleanup_cleanup_lookup by lia.
    by rewrite <- MemCacheFacts.get_result. }
  split; [|split; [exact Hmiss'|]].
  - rewrite EmbeddingFacts.generate_embedding_miss by exact Hmiss. by rewrite Hp.
  - intros provider' e He.
    rewrite EmbeddingFacts.generate_embedding_miss by exact Hmiss'. by rewrite He.
Qed.

Lemma generate_embedding_never_caches_witness :
  Embedding.generate_embedding (fun s => s) true (fun _ => Ok [1]%float) 0 "databases" (MemCache.init 0) =
    (MemCache.cleanup_expired 0 (MemCache.init 0), Raise (NameError "timedelta")).
Proof.
  exact (proj1 (generate_embedding_never_caches (fun s => s) (fun _ => Ok [1]%float) 0 "databases"
                  (MemCache.init 0) [1]%float eq_refl eq_refl)).
Defined.

(** C10: [search_similar_courses] returns a list, never an error: any
    error of the search body, a failed corpus load, an empty corpus or a
    malformed embedding cell gives the empty list. *)
Theorem search_similar_courses_absorbs_errors argsort snap cd q f limit :
  let corpus := match cd with Some df => df | None => Vector.load_course_data snap end in
  (Vector.search_similar_courses argsort snap cd q f limit).2 =
    match Vector.search_body argsort corpus q f limit with Ok r => r | Raise _ => [] end /\
  (forall e, Vector.search_similar_courses argsort (Raise e) None q f limit = (Some empty_frame, [])) /\
  (Vector.search_similar_courses argsort snap (Some empty_frame) q f limit).2 = [] /\
  (Vector.search_similar_courses argsort snap
     (Some (mkFrame ["id"; "embedding"] [[("id", PyStr "a"); ("embedding", PyStr "oops")]]))
     q None limit).2 = [].
Proof.
  intros corpus. split; [|split; [|split]].
  - reflexivity.
  - intros e. reflexivity.
  - reflexivity.
  - reflexivity.
Qed.

(* ================================================================== *)
(** * Further properties of the services *)

Module CacheOps.
Import MemCache MemCacheFacts.

Lemma is_expired_same t s s' k :
  expiry s' !! k = expiry s !! k -> is_expired t s' k = is_expired t s k.
Proof. unfold is_expired. by intros ->. Qed.

Lemma get_same t s s' k :
  cache s' !! k = cache s !! k -> expiry s' !! k = expiry s !! k ->
  (get t k s').2 = (get t k s).2.
Proof.
  intros Hc He. rewrite !get_result, !cleanup_lookup, Hc.
  by rewrite (is_expired_same t s s' k He).
Qed.

Definition set_step (ts : option Z) (st : state) (kv : string * pyval) : state :=
  mk (<[kv.1 := kv.2]> (cache st))
     (match ts with Some t => <[kv.1 := t]> (expiry st) | None => expiry st end)
     (default_expire st).

Lemma set_many_fold now items ttl s :
  ttl <> 0 ->
  (set_many now items (Some ttl) s).1 = fold_left (set_step (Some (now + ttl))) items s.
Proof.
  intros H. unfold set_many. simpl. destruct (Z.eqb_spec ttl 0); [lia|].
  destruct (Z.eqb_spec ttl 0); [lia|]. reflexivity.
Qed.

Lemma fold_set_step_notin ts items st k :
  k ∉ items.*1 ->
  cache (fold_left (set_step ts) items st) !! k = cache st !! k /\
  expiry (fold_left (set_step ts) items st) !! k = expiry st !! k.
Proof.
  revert st. induction items as [|[k0 v0] items IH]; intros st Hk; simpl; [done|].
  rewrite fmap_cons, elem_of_cons in Hk. apply Decidable.not_or in Hk as [Hk0 Hk]. simpl in Hk0.
  destruct (IH (set_step ts st (k0, v0)) Hk) as [-> ->]. unfold set_step; simpl.
  rewrite lookup_insert_ne by congruence. split; [done|].
  destruct ts; [by rewrite lookup_insert_ne by congruence|done].
Qed.

Lemma fold_set_step_in t items st k v :
  NoDup items.*1 -> (k, v) ∈ items ->
  cache (fold_left (set_step (Some t)) items st) !! k = Some v /\
  expiry (fold_left (set_step (Some t)) items st) !! k = Some t.
Proof.
  revert st. induction items as [|[k0 v0] items IH]; intros st Hnd Hin; simpl.
  { by apply elem_of_nil in Hin. }
  rewrite fmap_cons in Hnd. apply NoDup_cons in Hnd as [Hk0 Hnd].
  apply elem_of_cons in Hin as [[= -> ->]|Hin].
  - destruct (fold_set_step_notin (Some t) items (set_step (Some t) st (k0, v0)) k0 Hk0) as [-> ->].
    unfold set_step; simpl. by rewrite !lookup_insert_eq.
  - by apply IH.
Qed.

Lemma omap_lookup_items (f : string -> option pyval) items :
  Forall (fun kv => f kv.1 = Some kv.2) items ->
  omap (fun k => (fun v => (k, v)) <$> f k) items.*1 = items.
Proof.
  induction 1 as [|[k v] items Hkv _ IH]; simpl in *; [done|].
  rewrite Hkv. simpl. by f_equal.
Qed.

Lemma increment_int now k a s n :
  (MemCache.get now k s).2 = Some (PyInt n) \/ ((MemCache.get now k s).2 = None /\ n = 0) ->
  let s' := (MemCache.increment now k a s).1 in
  (MemCache.increment now k a s).2 = Ok (PyInt (n + a)) /\
  MemCache.expiry s' = MemCache.expiry (MemCache.cleanup_expired now s) /\
  (forall t, now <= t -> (forall e, MemCache.expiry s !! k = Some e -> t <= e) ->
     (MemCache.get t k s').2 = Some (PyInt (n + a))).
Proof.
  intros Hn s'. rewrite !MemCacheFacts.get_result in Hn.
  assert (Hcur : default (PyInt 0) (MemCache.cache (MemCache.cleanup_expired now s) !! k) = PyInt n).
  { destruct Hn as [-> | [-> ->]]; reflexivity. }
  assert (Hinc : MemCache.increment now k a s =
            (MemCache.mk (<[k := PyInt (n + a)]> (MemCache.cache (MemCache.cleanup_expired now s)))
                         (MemCache.expiry (MemCache.cleanup_expired now s))
                         (MemCache.default_expire (MemCache.cleanup_expired now s)),
             Ok (PyInt (n + a)))).
  { unfold MemCache.increment. cbv zeta. rewrite Hcur. reflexivity. }
  unfold s'. rewrite Hinc. cbn [fst snd]. split; [done|split; [done|]].
  intros t Ht He. rewrite MemCacheFacts.get_result, MemCacheFacts.cleanup_lookup.
  unfold MemCache.is_expired at 1. cbn [MemCache.expiry MemCache.cache].
  rewrite lookup_insert_eq.
  destruct (MemCache.expiry (MemCache.cleanup_expired now s) !! k) as [e|] eqn:Ee; [|done].
  unfold MemCache.cleanup_expired in Ee. cbn [MemCache.expiry] in Ee.
  apply map_lookup_filter_Some_1_1 in Ee. specialize (He e Ee).
  destruct (Z.ltb_spec e t); [lia|done].
Qed.

End CacheOps.

(** X1. The in-memory cache: after [delete k], [get] and [exists] at any
    time find no [k], and every other key reads as before. *)
Theorem memcache_delete_absent k s t :
  let s' := (MemCache.delete k s).1 in
  (MemCache.get t k s').2 = None /\ (MemCache.exists_ t k s').2 = false /\
  forall k', k' <> k -> (MemCache.get t k' s').2 = (MemCache.get t k' s).2.
Proof.
  intros s'. assert (Hget : (MemCache.get t k s').2 = None).
  { rewrite MemCacheFacts.get_result, MemCacheFacts.cleanup_lookup. simpl.
    rewrite lookup_delete_eq. by destruct (MemCache.is_expired _ _ _). }
  split; [exact Hget|split].
  - unfold MemCache.exists_. cbv zeta. cbn [snd]. rewrite <- MemCacheFacts.get_result, Hget. reflexivity.
  - intros k' Hk. apply CacheOps.get_same; simpl; by rewrite lookup_delete_ne by congruence.
Qed.

(** X2. After [set_many] of distinct keys with a positive TTL, [get_many]
    of those keys at any time up to the expiry gives back every pair, in
    order. *)
Theorem memcache_set_many_roundtrip now items ttl s t :
  0 < ttl -> NoDup items.*1 -> now <= t <= now + ttl ->
  (MemCache.get_many t items.*1 (MemCache.set_many now items (Some ttl) s).1).2 = items.
Proof.
  intros Httl Hnd Ht. rewrite CacheOps.set_many_fold by lia.
  unfold MemCache.get_many. cbv zeta. cbn [snd]. apply CacheOps.omap_lookup_items.
  apply Forall_forall. intros [k v] Hin. cbv beta. cbn [fst snd].
  destruct (CacheOps.fold_set_step_in (now + ttl) items s k v Hnd Hin) as [Hc He].
  rewrite MemCacheFacts.cleanup_lookup, Hc. unfold MemCache.is_expired. rewrite He.
  destruct (Z.ltb_spec (now + ttl) t); [lia|done].
Qed.

Lemma memcache_set_many_roundtrip_witness :
  (MemCache.get_many 5 ["a"; "b"] (MemCache.set_many 0 [("a", PyInt 1); ("b", PyStr "x")] (Some 10) (MemCache.init 0)).1).2
    = [("a", PyInt 1); ("b", PyStr "x")].
Proof.
  apply (memcache_set_many_roundtrip 0 [("a", PyInt 1); ("b", PyStr "x")] 10 (MemCache.init 0) 5);
    [lia| |lia].
  vm_compute. repeat constructor; set_solver.
Defined.

(** X3. [clear_pattern] removes exactly the stored keys that start with
    the pattern without its asterisks, returns how many there were, and
    leaves every other key as it was. *)
Theorem memcache_clear_pattern pattern s t :
  let p := MemCache.remove_stars pattern in
  let s' := (MemCache.clear_pattern pattern s).1 in
  (exists ks, NoDup ks /\
     (forall k, k ∈ ks <-> String.prefix p k = true /\ is_Some (MemCache.cache s !! k)) /\
     (MemCache.clear_pattern pattern s).2 = Z.of_nat (length ks)) /\
  (forall k, String.prefix p k = true -> (MemCache.get t k s').2 = None) /\
  (forall k, String.prefix p k = false -> (MemCache.get t k s').2 = (MemCache.get t k s).2).
Proof.
  intros p s'. set (ks := filter (fun k => String.prefix p k = true) (map fst (map_to_list (MemCache.cache s)))).
  assert (Hks : forall k, k ∈ ks <-> String.prefix p k = true /\ is_Some (MemCache.cache s !! k)).
  { intros k. unfold ks. rewrite list_elem_of_filter, list_elem_of_fmap. split.
    - intros [Hp [[k' v] [-> Hin]]]. apply elem_of_map_to_list in Hin. simpl. split; [done|by eexists].
    - intros [Hp [v Hv]]. split; [done|]. exists (k, v). split; [done|]. by apply elem_of_map_to_list. }
  split; [|split].
  - exists ks. split; [|split; [exact Hks|reflexivity]].
    apply NoDup_filter, NoDup_fst_map_to_list.
  - intros k Hk. rewrite MemCacheFacts.get_result, MemCacheFacts.cleanup_lookup.
    unfold s', MemCache.clear_pattern. simpl. rewrite map_lookup_filter_None_2.
    + by destruct (MemCache.is_expired _ _ _).
    + right. intros x _. simpl. fold p. congruence.
  - intros k Hk. apply CacheOps.get_same; unfold s', MemCache.clear_pattern; simpl; fold p.
    + rewrite map_lookup_filter. destruct (MemCache.cache s !! k); simpl; [|done].
      rewrite option_guard_True; [done|]. simpl. exact Hk.
    + rewrite map_lookup_filter. destruct (MemCache.expiry s !! k); simpl; [|done].
      rewrite option_guard_True; [done|]. simpl. fold ks. rewrite Hks. intros [H _]. congruence.
Qed.

(** X4. [increment] on an integer counter (a missing key counts as 0)
    stores and returns [n + amount], keeps the expiry table as the cleanup
    left it (the TTL is not refreshed), and the new value is read back
    until the old expiry. *)
Theorem memcache_increment_counter now k a s n :
  (MemCache.get now k s).2 = Some (PyInt n) \/ ((MemCache.get now k s).2 = None /\ n = 0) ->
  let s' := (MemCache.increment now k a s).1 in
  (MemCache.increment now k a s).2 = Ok (PyInt (n + a)) /\
  MemCache.expiry s' = MemCache.expiry (MemCache.cleanup_expired now s) /\
  (forall t, now <= t -> (forall e, MemCache.expiry s !! k = Some e -> t <= e) ->
     (MemCache.get t k s').2 = Some (PyInt (n + a))).
Proof. apply CacheOps.increment_int. Qed.

Lemma memcache_increment_counter_witness :
  (MemCache.get 0 "hits" (MemCache.init 0)).2 = None /\
  (MemCache.increment 0 "hits" 1 (MemCache.init 0)).2 = Ok (PyInt 1).
Proof.
  split; [reflexivity|].
  exact (proj1 (memcache_increment_counter 0 "hits" 1 (MemCache.init 0) 0 (or_intror (conj eq_refl eq_refl)))).
Defined.

(** X5. [increment] of a key holding a value that is neither an int nor a
    bool raises [TypeError] and changes nothing but the cleanup. *)
Theorem memcache_increment_non_number now k a s v :
  (MemCache.get now k s).2 = Some v ->
  (forall z, v <> PyInt z) -> (forall b, v <> PyBool b) ->
  MemCache.increment now k a s = (MemCache.cleanup_expired now s, Raise TypeError).
Proof.
  intros Hv Hz Hb. rewrite MemCacheFacts.get_result in Hv.
  unfold MemCache.increment. cbv zeta. rewrite Hv. cbn [default].
  destruct v; try reflexivity; [by destruct (Hb b)|by destruct (Hz z)].
Qed.

Lemma memcache_increment_non_number_witness :
  MemCache.increment 0 "k" 1 (MemCache.set 0 "k" (PyStr "x") None (MemCache.init 60)).1 =
    (MemCache.cleanup_expired 0 (MemCache.set 0 "k" (PyStr "x") None (MemCache.init 60)).1, Raise TypeError).
Proof.
  apply (memcache_increment_non_number 0 "k" 1 _ (PyStr "x")); [reflexivity|discriminate|discriminate].
Defined.

Module QuotaOps.
Import MemCache MemCacheFacts.

Lemma increment_int_state now k a s n :
  (get now k s).2 = Some (PyInt n) \/ ((get now k s).2 = None /\ n = 0) ->
  increment now k a s =
    (mk (<[k := PyInt (n + a)]> (cache (cleanup_expired now s)))
        (expiry (cleanup_expired now s)) (default_expire (cleanup_expired now s)),
     Ok (PyInt (n + a))).
Proof.
  intros Hn. rewrite !get_result in Hn.
  assert (Hcur : default (PyInt 0) (cache (cleanup_expired now s) !! k) = PyInt n).
  { destruct Hn as [-> | [-> ->]]; reflexivity. }
  unfold increment. cbv zeta. rewrite Hcur. reflexivity.
Qed.

Lemma expiry_cleanup_ge now s k e :
  expiry (cleanup_expired now s) !! k = Some e -> now <= e.
Proof.
  unfold cleanup_expired. cbn [expiry]. intros H.
  apply map_lookup_filter_Some in H as [_ H]. simpl in H. apply Z.ltb_ge in H. lia.
Qed.

Lemma days_mul m : days m = m * 86400000000.
Proof. unfold days, hours, minutes, seconds. lia. Qed.

Lemma days_today now : days (Quota.today now) <= now < days (Quota.today now + 1).
Proof.
  unfold Quota.today. rewrite !days_mul. rewrite Z.mul_1_l.
  pose proof (Z.div_mod now 86400000000 ltac:(lia)).
  pose proof (Z.mod_pos_bound now 86400000000 ltac:(lia)).
  lia.
Qed.

Lemma not_expired_after_cleanup now s m d k :
  is_expired now (mk m (expiry (cleanup_expired now s)) d) k = false.
Proof.
  unfold is_expired. change (expiry (mk m ?e d)) with e.
  destruct (expiry (cleanup_expired now s) !! k) as [e|] eqn:Ee; [|done].
  apply expiry_cleanup_ge in Ee. apply Z.ltb_ge. lia.
Qed.

(** The daily counter after [record_request]: it reads [n + 1] and
    expires at the start of the day after tomorrow. *)
Lemma record_request_state now user c n :
  let key := Quota.daily_usage_key (user_id user) (Quota.today now) in
  0 <= n ->
  (get now key c).2 = Some (PyInt n) \/ ((get now key c).2 = None /\ n = 0) ->
  (Quota.record_request now user c).2 = true /\
  cache (Quota.record_request now user c).1 !! key = Some (PyInt (n + 1)) /\
  expiry (Quota.record_request now user c).1 !! key = Some (days (Quota.today now + 2)).
Proof.
  intros key Hn0 Hn.
  assert (Hrec : Quota.record_request now user c =
            ((set now key (PyInt (n + 1)) (Some (days (Quota.today now + 2) - now))
                  (cleanup_expired now (increment now key 1 c).1)).1, true)).
  { unfold Quota.record_request. cbv zeta. fold key.
    rewrite (increment_int_state now key 1 c n Hn). cbv beta iota delta [fst].
    change (get now key ?s) with (cleanup_expired now s, cache (cleanup_expired now s) !! key).
    cbv iota beta.
    set (s1 := mk (<[key := PyInt (n + 1)]> _) _ _).
    assert (Hg : cache (cleanup_expired now s1) !! key = Some (PyInt (n + 1))).
    { rewrite cleanup_lookup. unfold s1. rewrite not_expired_after_cleanup.
      apply lookup_insert_eq. }
    rewrite Hg. unfold py_or, py_truthy. destruct (Z.eqb_spec (n + 1) 0); [lia|]. cbv iota beta.
    by destruct (set _ _ _ _ _). }
  pose proof (days_today now) as Hd.
  assert (Hpos : days (Quota.today now + 2) - now <> 0).
  { rewrite !days_mul in *. lia. }
  rewrite Hrec. cbn [fst snd]. split; [done|].
  destruct (set_fields now key (PyInt (n + 1)) _ (cleanup_expired now (increment now key 1 c).1) Hpos)
    as [Hc He].
  rewrite Hc, He, !lookup_insert_eq. split; [done|]. f_equal. lia.
Qed.

End QuotaOps.

(** X6. The quota counter: after [record_request] at [now], [check_quota]
    later the same day sees the usage one higher than before, with the
    reset at the next midnight; [record_request] returns true. *)
Theorem quota_record_then_check settings user now t c n :
  let key := Quota.daily_usage_key (user_id user) (Quota.today now) in
  let L := Quota.get_quota_for_user settings user in
  0 <= n ->
  (MemCache.get now key c).2 = Some (PyInt n) \/ ((MemCache.get now key c).2 = None /\ n = 0) ->
  now <= t -> Quota.today t = Quota.today now ->
  (Quota.record_request now user c).2 = true /\
  (Quota.check_quota settings t user (Quota.record_request now user c).1).2 =
    Ok (Quota.mkDecision (bool_decide (n + 1 < L)) (PyInt (n + 1)) L (days (Quota.today now + 1)) None).
Proof.
  intros key L Hn0 Hn Ht Hday.
  destruct (QuotaOps.record_request_state now user c n Hn0 Hn) as (Hr & Hc & He).
  split; [exact Hr|]. fold key in Hc, He.
  set (c3 := (Quota.record_request now user c).1) in *.
  pose proof (QuotaOps.days_today t) as Hdt. rewrite Hday in Hdt.
  unfold Quota.check_quota. cbv zeta. rewrite Hday. fold key.
  change (MemCache.get t key c3) with (MemCache.cleanup_expired t c3, MemCache.cache (MemCache.cleanup_expired t c3) !! key).
  cbv iota beta.
  rewrite MemCacheFacts.cleanup_lookup, Hc. unfold MemCache.is_expired. rewrite He.
  destruct (Z.ltb_spec (days (Quota.today now + 2)) t).
  { exfalso. rewrite !QuotaOps.days_mul in *. lia. }
  unfold py_or, py_truthy. destruct (Z.eqb_spec (n + 1) 0); [lia|]. cbn [negb py_ge_int].
  fold L. do 3 f_equal.
  destruct (bool_decide_reflect (L <= n + 1)), (bool_decide_reflect (n + 1 < L)); simpl; lia || done.
Qed.

Lemma quota_record_then_check_witness :
  let u := mkUser "u1" STUDENT None in
  let st := mkSettings None None in
  (Quota.record_request 0 u (MemCache.init 0)).2 = true /\
  (Quota.check_quota st 5 u (Quota.record_request 0 u (MemCache.init 0)).1).2 =
    Ok (Quota.mkDecision (bool_decide (0 + 1 < Quota.get_quota_for_user st u)) (PyInt (0 + 1))
          (Quota.get_quota_for_user st u) (days (Quota.today 0 + 1)) None).
Proof.
  intros u st.
  apply (quota_record_then_check st u 0 5 (MemCache.init 0) 0); [lia|right; split; reflexivity|lia|reflexivity].
Defined.

(** X7. After [reset_user_quota], [check_quota] later the same day sees a
    usage of 0 and allows the request whenever the limit is positive. *)
Theorem quota_reset_then_check settings user now t c :
  let L := Quota.get_quota_for_user settings user in
  now <= t -> Quota.today t = Quota.today now ->
  (Quota.check_quota settings t user (Quota.reset_user_quota now (user_id user) c).1).2 =
    Ok (Quota.mkDecision (bool_decide (0 < L)) (PyInt 0) L (days (Quota.today now + 1)) None).
Proof.
  intros L Ht Hday.
  unfold Quota.check_quota. cbv zeta. rewrite Hday.
  change (MemCache.get t ?k ?s) with (MemCache.cleanup_expired t s, MemCache.cache (MemCache.cleanup_expired t s) !! k).
  cbv iota beta.
  rewrite MemCacheFacts.cleanup_lookup. unfold Quota.reset_user_quota, MemCache.delete.
  cbv beta iota delta [fst]. cbn [MemCache.cache]. rewrite lookup_delete_eq.
  destruct (MemCache.is_expired _ _ _); cbn; fold L;
    do 3 f_equal; destruct (bool_decide_reflect (L <= 0)), (bool_decide_reflect (0 < L)); simpl; lia || done.
Qed.

Lemma quota_reset_then_check_witness :
  let u := mkUser "u1" STUDENT None in
  let st := mkSettings None None in
  (Quota.check_quota st 7 u (Quota.reset_user_quota 3 (user_id u) (Quota.record_request 2 u (MemCache.init 0)).1).1).2 =
    Ok (Quota.mkDecision (bool_decide (0 < Quota.get_quota_for_user st u)) (PyInt 0)
          (Quota.get_quota_for_user st u) (days (Quota.today 3 + 1)) None).
Proof.
  intros u st. apply (quota_reset_then_check st u 3 7); [lia|reflexivity].
Defined.

(** X8. [get_quota_info] and [check_quota] read the same usage, limit and
    reset time; the request is allowed exactly when the remaining quota is
    positive, and both raise the same error on a non-numeric usage. *)
Theorem quota_info_agrees_with_check settings now user c :
  (Quota.get_quota_info settings now user c).1 = (Quota.check_quota settings now user c).1 /\
  match (Quota.check_quota settings now user c).2, (Quota.get_quota_info settings now user c).2 with
  | Ok d, Ok i =>
      Quota.qi_current_usage i = Quota.current_count d /\
      Quota.qi_quota_limit i = Quota.limit d /\
      Quota.qi_reset_time i = Quota.reset_time d /\
      Quota.qi_user_id i = user_id user /\
      Quota.allowed d = bool_decide (0 < Quota.qi_remaining i)
  | Raise e1, Raise e2 => e1 = e2
  | _, _ => False
  end.
Proof.
  unfold Quota.get_quota_info, Quota.check_quota. cbv zeta.
  destruct (MemCache.get _ _ _) as [c1 got].
  destruct (py_or got (PyInt 0)) as [|b|z|s|v|l|d]; cbn; try (split; reflexivity).
  - split; [done|]. repeat split.
    destruct b; repeat case_bool_decide; simpl; lia || done.
  - split; [done|]. repeat split.
    repeat case_bool_decide; simpl; lia || done.
Qed.

Module StoreOps.
Import VectorStore.

Lemma timedelta_days_unbound n : timedelta_days n = Raise (NameError "timedelta").
Proof. reflexivity. Qed.

Lemma datetime_unbound : Embedding.load_global "datetime" = Raise (NameError "datetime").
Proof. reflexivity. Qed.

Lemma dict_set_lookup d k v : assoc_get k (dict_set d k v) = Some v.
Proof.
  induction d as [|[k' v'] d IH]; simpl.
  - unfold assoc_get. simpl. by rewrite bool_decide_true.
  - case_bool_decide as Hk.
    + unfold assoc_get. simpl. by rewrite bool_decide_true.
    + unfold assoc_get in *. simpl. rewrite bool_decide_false by congruence. exact IH.
Qed.

Lemma dict_set_other d k k' v : k' <> k -> assoc_get k' (dict_set d k v) = assoc_get k' d.
Proof.
  intros Hne. induction d as [|[k0 v0] d IH]; simpl.
  - unfold assoc_get. simpl. rewrite bool_decide_false by congruence. reflexivity.
  - case_bool_decide as Hk.
    + subst k0. unfold assoc_get. simpl. rewrite !bool_decide_false by congruence. reflexivity.
    + unfold assoc_get in *. simpl. case_bool_decide; [reflexivity|]. exact IH.
Qed.

End StoreOps.

(** X9. [store_course_embedding] never stores anything and always returns
    false: evaluating [timedelta(days=7)] raises [NameError], which is
    caught. *)
Theorem store_course_embedding_always_fails embedding_dict now course embedding c :
  VectorStore.store_course_embedding embedding_dict now course embedding c = (c, false).
Proof.
  unfold VectorStore.store_course_embedding. rewrite StoreOps.timedelta_days_unbound. reflexivity.
Qed.

(** X10. [update_course_embedding] always returns false and never refreshes
    the expiry of the entry. *)
Theorem update_course_embedding_never_succeeds isoformat now cid embedding c :
  (VectorStore.update_course_embedding isoformat now cid embedding c).2 = false /\
  MemCache.expiry (VectorStore.update_course_embedding isoformat now cid embedding c).1 =
    MemCache.expiry (MemCache.cleanup_expired now c).
Proof.
  unfold VectorStore.update_course_embedding. cbv zeta.
  change (MemCache.get now ?k c) with (MemCache.cleanup_expired now c, MemCache.cache (MemCache.cleanup_expired now c) !! k).
  cbv iota beta.
  destruct (_ !! _) as [d|]; [|done].
  destruct (py_truthy d); [|done].
  destruct (VectorStore.py_setitem_str d _ _); [rewrite StoreOps.datetime_unbound|]; done.
Qed.

(** X11. On a cached non-empty dict, [update_course_embedding] still
    replaces its [embedding] in the cache (the item assignment mutates the
    stored object) before [datetime] raises; [embedding_created_at] and the
    other keys are left as they were. *)
Theorem update_course_embedding_hit isoformat now cid embedding c d :
  let key := VectorStore.course_embedding_key cid in
  (MemCache.get now key c).2 = Some (PyDict d) -> d <> [] ->
  exists d', MemCache.cache (VectorStore.update_course_embedding isoformat now cid embedding c).1 !! key =
               Some (PyDict d') /\
             assoc_get "embedding" d' = Some (PyVec embedding) /\
             assoc_get "embedding_created_at" d' = assoc_get "embedding_created_at" d /\
             (forall k, k <> "embedding" -> assoc_get k d' = assoc_get k d).
Proof.
  intros key Hget Hd.
  exists (VectorStore.dict_set d "embedding" (PyVec embedding)).
  unfold VectorStore.update_course_embedding. cbv zeta. fold key.
  change (MemCache.get now key c) with (MemCache.cleanup_expired now c, MemCache.cache (MemCache.cleanup_expired now c) !! key) in *.
  cbv iota beta. cbn [snd] in Hget. rewrite Hget.
  assert (Ht : py_truthy (PyDict d) = true).
  { simpl. rewrite bool_decide_false by done. reflexivity. }
  rewrite Ht. cbn [VectorStore.py_setitem_str]. rewrite StoreOps.datetime_unbound.
  cbv iota beta. cbn [fst MemCache.cache]. rewrite lookup_insert_eq.
  split; [done|]. split; [apply StoreOps.dict_set_lookup|].
  split; [apply StoreOps.dict_set_other; done|].
  intros k Hk. by apply StoreOps.dict_set_other.
Qed.

Lemma update_course_embedding_hit_witness :
  exists d', MemCache.cache (VectorStore.update_course_embedding (fun _ => "t") 0 "c1" [1%float]
       (MemCache.set 0 (VectorStore.course_embedding_key "c1") (PyDict [("embedding", PyVec [])]) None (MemCache.init 0)).1).1
       !! VectorStore.course_embedding_key "c1" = Some (PyDict d') /\
     assoc_get "embedding" d' = Some (PyVec [1%float]) /\
     assoc_get "embedding_created_at" d' = assoc_get "embedding_created_at" [("embedding", PyVec [])] /\
     (forall k, k <> "embedding" -> assoc_get k d' = assoc_get k [("embedding", PyVec [])]).
Proof.
  apply (update_course_embedding_hit (fun _ => "t") 0 "c1" [1%float]); [reflexivity|done].
Defined.

(** X12. [get_collection_stats] never returns statistics: it always returns
    an error dict. *)
Theorem collection_stats_never_returned nunique sorted_unique isoformat now snapshot courses_data :
  exists e, (VectorStore.get_collection_stats nunique sorted_unique isoformat now snapshot courses_data).2 =
              VectorStore.StatsError e.
Proof.
  unfold VectorStore.get_collection_stats. cbv zeta. cbn [snd].
  destruct (match _ with | r :: _ => _ | [] => Ok 0 end) as [dim|e]; cbn; [|eauto].
  destruct (if has_column _ "department" then _ else _) as [deps|e]; cbn; [|eauto].
  destruct (if has_column _ "level" then _ else _) as [lvls|e]; cbn; [|eauto].
  rewrite StoreOps.datetime_unbound. eauto.
Qed.

(** X13. When the first row's embedding has a length and the pandas
    calls succeed, the error [get_collection_stats] returns is the
    [NameError] on [datetime]. *)
Theorem collection_stats_datetime_error nunique sorted_unique isoformat now snapshot df :
  (forall l, exists z, nunique l = Ok z) ->
  (forall l, exists ls, sorted_unique l = Ok ls) ->
  df_rows df = [] \/
    (has_column df "embedding" = true /\
     exists r rs v, df_rows df = r :: rs /\ cell r "embedding" = PyVec v) ->
  VectorStore.get_collection_stats nunique sorted_unique isoformat now snapshot (Some df) =
    (Some df, VectorStore.StatsError (NameError "datetime")).
Proof.
  intros Hn Hs Hdim.
  unfold VectorStore.get_collection_stats. cbv zeta.
  assert (Hd : exists z, match df_rows df with
                          | r :: _ => Vector.get_field df r "embedding" ≫= VectorStore.py_len
                          | [] => Ok 0 end = Ok z).
  { destruct Hdim as [-> | (Hc & r & rs & v & -> & Hv)]; [by eexists|].
    unfold Vector.get_field. rewrite Hc, Hv. by eexists. }
  destruct Hd as [dim ->]. cbn.
  assert (Hdep : exists z, (if has_column df "department"
                            then nunique (VectorStore.column df "department") else Ok 0) = Ok z).
  { destruct (has_column df "department"); [apply Hn|by eexists]. }
  destruct Hdep as [deps ->]. cbn.
  assert (Hlv : exists ls, (if has_column df "level"
                            then sorted_unique (VectorStore.column df "level") else Ok []) = Ok ls).
  { destruct (has_column df "level"); [apply Hs|by eexists]. }
  destruct Hlv as [lvls ->]. cbn.
  rewrite StoreOps.datetime_unbound. reflexivity.
Qed.

Lemma collection_stats_datetime_error_witness :
  let df := mkFrame ["id"; "embedding"; "department"] [[("id", PyStr "a"); ("embedding", PyVec [1%float; 0%float])]] in
  VectorStore.get_collection_stats (fun l => Ok (Z.of_nat (length l))) (fun l => Ok l) (fun _ => "t") 0
    (Ok df) (Some df) = (Some df, VectorStore.StatsError (NameError "datetime")).
Proof.
  intros df. apply collection_stats_datetime_error.
  - intros l. eexists. reflexivity.
  - intros l. eexists. reflexivity.
  - right. split; [reflexivity|]. do 3 eexists. split; reflexivity.
Defined.

Module FilterOps.

Lemma filter_rows_ok df c p df' :
  filter_rows df c p = Ok df' ->
  has_column df c = true /\ df' = mkFrame (df_columns df) (filter (fun r => p (cell r c) = true) (df_rows df)).
Proof.
  unfold filter_rows. destruct (has_column df c); [|done]. intros [= <-]. done.
Qed.

Definition level_ok (f : CourseFilter) (r : list (string * pyval)) : Prop :=
  match f_levels f with Some ((_ :: _) as ls) => isin_ints ls (cell r "level") = true | _ => True end.

Definition department_ok (f : CourseFilter) (r : list (string * pyval)) : Prop :=
  match f_departments f with Some ((_ :: _) as ds) => isin_strs ds (cell r "department") = true | _ => True end.

End FilterOps.

(** X14. A successful [_apply_filters] keeps the columns and keeps, in
    their order, exactly the rows that pass the level filter, the
    department filter and (unless inactive courses are included) the
    [is_active] filter. *)
Theorem apply_filters_rows df f df' :
  Vector.apply_filters df (Some f) = Ok df' ->
  df_columns df' = df_columns df /\
  df_rows df' `sublist_of` df_rows df /\
  (forall r, r ∈ df_rows df' <->
     r ∈ df_rows df /\ FilterOps.level_ok f r /\ FilterOps.department_ok f r /\
     (f_include_inactive f = false -> has_column df "is_active" = true ->
        eq_true (cell r "is_active") = true)).
Proof.
  unfold Vector.apply_filters, FilterOps.level_ok, FilterOps.department_ok.
  destruct (match f_levels f with Some ((_ :: _) as ls) => _ | _ => Ok df end) as [df1|e] eqn:E1;
    cbn; [|done].
  assert (H1 : df_columns df1 = df_columns df /\ df_rows df1 `sublist_of` df_rows df /\
               forall r, r ∈ df_rows df1 <-> r ∈ df_rows df /\
                 match f_levels f with Some ((_ :: _) as ls) => isin_ints ls (cell r "level") = true | _ => True end).
  { destruct (f_levels f) as [[|l ls]|];
      try (injection E1 as <-; split; [done|]; split; [done|]; intros r; tauto).
    apply FilterOps.filter_rows_ok in E1 as [Hc ->]. cbn. split; [done|]. split.
    - apply sublist_filter.
    - intros r. rewrite list_elem_of_filter. tauto. }
  destruct (match f_departments f with Some ((_ :: _) as ds) => _ | _ => Ok df1 end) as [df2|e] eqn:E2;
    cbn; [|done].
  assert (H2 : df_columns df2 = df_columns df1 /\ df_rows df2 `sublist_of` df_rows df1 /\
               forall r, r ∈ df_rows df2 <-> r ∈ df_rows df1 /\
                 match f_departments f with Some ((_ :: _) as ds) => isin_strs ds (cell r "department") = true | _ => True end).
  { destruct (f_departments f) as [[|d ds]|];
      try (injection E2 as <-; split; [done|]; split; [done|]; intros r; tauto).
    apply FilterOps.filter_rows_ok in E2 as [Hc ->]. cbn. split; [done|]. split.
    - apply sublist_filter.
    - intros r. rewrite list_elem_of_filter. tauto. }
  destruct H1 as (C1 & S1 & M1), H2 as (C2 & S2 & M2).
  assert (Hcol : has_column df2 "is_active" = has_column df "is_active").
  { unfold has_column. by rewrite C2, C1. }
  intros E3.
  destruct (negb (f_include_inactive f) && has_column df2 "is_active") eqn:Eb.
  - apply FilterOps.filter_rows_ok in E3 as [Hc ->]. cbn.
    apply andb_true_iff in Eb as [Eb _]. apply negb_true_iff in Eb.
    split; [congruence|]. split; [by rewrite sublist_filter, S2|].
    intros r. rewrite list_elem_of_filter, M2, M1. rewrite <- Hcol, Hc. intuition.
  - injection E3 as <-. split; [congruence|]. split; [by rewrite S2|].
    intros r. rewrite M2, M1. split; [|tauto]. intros [[Hr Hl] Hd]. do 3 (split; [done|]).
    intros Hi Ha. rewrite Hcol, Ha, Hi in Eb. done.
Qed.

Lemma apply_filters_rows_witness :
  let df := mkFrame ["level"; "is_active"]
              [[("level", PyInt 100); ("is_active", PyBool true)];
               [("level", PyInt 200); ("is_active", PyBool true)]] in
  let f := mkFilter (Some [100]) None false in
  Vector.apply_filters df (Some f) = Ok (mkFrame ["level"; "is_active"] [[("level", PyInt 100); ("is_active", PyBool true)]]) /\
  df_columns (mkFrame ["level"; "is_active"] [[("level", PyInt 100); ("is_active", PyBool true)]]) = df_columns df.
Proof.
  intros df f.
  assert (E : Vector.apply_filters df (Some f) =
              Ok (mkFrame ["level"; "is_active"] [[("level", PyInt 100); ("is_active", PyBool true)]])) by reflexivity.
  split; [exact E|]. exact (proj1 (apply_filters_rows df f _ E)).
Defined.

Lemma py_slice_to_sublist {A} (stop : Z) (l : list A) : Vector.py_slice_to stop l `sublist_of` l.
Proof. unfold Vector.py_slice_to. apply sublist_take. Qed.

Lemma py_slice_to_length {A} (stop : Z) (l : list A) :
  0 <= stop -> length (Vector.py_slice_to stop l) = Z.to_nat (Z.min stop (Z.of_nat (length l))).
Proof.
  intros H. unfold Vector.py_slice_to. destruct (Z.ltb_spec stop 0); [lia|].
  rewrite length_take. lia.
Qed.

(** X15. [get_similar_courses] never lists the course itself, and what it
    lists is a sub-sequence of the vector search for that course's
    embedding. *)
Theorem similar_courses_exclude_self svc get_course_embedding cid limit :
  let res := SimilarCourses.get_similar_courses svc get_course_embedding cid limit in
  Forall (fun sc => course_id (sc_course sc) <> cid) res /\
  (res = [] \/
   exists emb l, get_course_embedding cid = Ok (Some emb) /\
                 Pipeline.vector_search svc emb None (limit + 1) = Ok l /\
                 res `sublist_of` l).
Proof.
  unfold SimilarCourses.get_similar_courses.
  destruct (get_course_embedding cid) as [[emb|]|e]; cbn; [|auto|auto].
  destruct (Pipeline.vector_search svc emb None (limit + 1)) as [l|e] eqn:Es; cbn; [|auto].
  split.
  - apply Forall_forall. intros sc Hin.
    eapply elem_of_sublist in Hin; [|apply py_slice_to_sublist].
    rewrite list_elem_of_filter in Hin. tauto.
  - right. exists emb, l. split; [done|]. split; [exact Es|].
    etrans; [apply py_slice_to_sublist|]. apply sublist_filter.
Qed.

(** X16. For a non-negative limit, [get_similar_courses] lists
    [min(limit, m)] courses, [m] being the number of search results other
    than the course itself. *)
Theorem similar_courses_length svc get_course_embedding cid limit emb l :
  0 <= limit ->
  get_course_embedding cid = Ok (Some emb) ->
  Pipeline.vector_search svc emb None (limit + 1) = Ok l ->
  length (SimilarCourses.get_similar_courses svc get_course_embedding cid limit) =
    Z.to_nat (Z.min limit (Z.of_nat (length (filter (fun sc => course_id (sc_course sc) <> cid) l)))).
Proof.
  intros Hl He Hs. unfold SimilarCourses.get_similar_courses. rewrite He. cbn. rewrite Hs. cbn.
  by apply py_slice_to_length.
Qed.

Definition demo_course (id : string) : Course := mkCourse id "EECS 101" "Intro" "d" 100 "EECS".

Definition demo_services (res : list SimilarCourse) : Pipeline.Services :=
  Pipeline.mkServices true (fun _ => Ok "") (fun _ _ => Ok "") (fun _ _ => Ok None)
    (fun _ => Ok []) (fun _ _ _ => Ok res) (fun _ => Ok ()).

Lemma similar_courses_length_witness :
  let l := [mkSimilar (demo_course "a") 0.75%float None; mkSimilar (demo_course "b") 0.625%float None;
            mkSimilar (demo_course "c") 0.5625%float None] in
  length (SimilarCourses.get_similar_courses (demo_services l) (fun _ => Ok (Some [1%float])) "a" 1) =
    Z.to_nat (Z.min 1 (Z.of_nat (length (filter (fun sc => course_id (sc_course sc) <> "a") l)))).
Proof.
  intros l. apply (similar_courses_length _ _ "a" 1 [1%float] l); [lia|reflexivity|reflexivity].
Defined.

(** X17. [stream_recommendations] starts with the analyzing message;
    without a user it leaves the usage ledger alone; with a user it
    records one failure (whose message is the last chunk), one success
    with a positive result count, or nothing when no course is found. *)
Theorem stream_recommendations_usage svc chat_stream exn_str req u ledger :
  (Streaming.stream_recommendations svc chat_stream exn_str req None ledger).2 = ledger /\
  let '(chunks, ledger') := Streaming.stream_recommendations svc chat_stream exn_str req (Some u) ledger in
  head chunks = Some Streaming.msg_analyzing /\
  ((ledger' = ledger /\ last chunks = Some Streaming.msg_no_courses) \/
   (exists err, ledger' = ledger ++ [Pipeline.mkUsage (user_id u) false (Some err) None] /\
                last chunks = Some (Streaming.msg_error err)) \/
   (exists n, 0 < n /\ ledger' = ledger ++ [Pipeline.mkUsage (user_id u) true None (Some n)])).
Proof.
  unfold Streaming.stream_recommendations. cbv zeta.
  destruct (Pipeline.generate_course_description _ _) as [d|e].
  2:{ split; [done|]. split; [done|]. right; left. eexists. split; reflexivity. }
  destruct (Pipeline.vector_generate_embedding _ _) as [emb|e].
  2:{ split; [done|]. split; [done|]. right; left. eexists. split; reflexivity. }
  destruct (Pipeline.vector_search _ _ _ _) as [[|sc scs]|e].
  3:{ split; [done|]. split; [done|]. right; left. eexists. split; reflexivity. }
  { split; [done|]. split; [done|]. left. split; reflexivity. }
  destruct (Streaming.stream_text _ _ _ _) as [chunks [x|e]].
  - split; [done|]. split; [done|]. right; right. eexists. split; [|reflexivity]. simpl length. lia.
  - split; [done|]. split; [done|]. right; left. eexists. split; [reflexivity|].
    rewrite last_app. reflexivity.
Qed.

Module UsageTzOps.
Import UsageTz.

Lemma filter_py_total {A} (p : A -> outcome bool) (P : A -> Prop) `{!forall x, Decision (P x)} l :
  (forall x, x ∈ l -> p x = Ok (bool_decide (P x))) -> filter_py p l = Ok (filter P l).
Proof.
  induction l as [|x l IH]; intros Hp; [done|]. cbn.
  rewrite Hp by set_solver. cbn. rewrite IH by set_solver. cbn.
  by case_bool_decide; case_decide.
Qed.

Lemma filter_py_raise {A} (p : A -> outcome bool) l :
  (forall x, x ∈ l -> exists e, p x = Raise e) -> l <> [] -> exists e, filter_py p l = Raise e.
Proof.
  destruct l as [|x l]; intros Hp Hne; [done|]. cbn.
  destruct (Hp x) as [e ->]; [set_solver|]. by exists e.
Qed.

Lemma naive_date_empty records uid s e :
  (exists d, s = Some d /\ UsageTz.dt_aware d = false) \/
  (exists d, e = Some d /\ UsageTz.dt_aware d = false) ->
  UsageTz.get_user_usage records uid s e = [].
Proof.
  intros Hn. unfold UsageTz.get_user_usage. cbv zeta.
  set (l := filter (fun r => UsageLog.e_user_id r = uid) records).
  destruct Hn as [(d & -> & Hd) | (d & -> & Hd)].
  - destruct l as [|x l'] eqn:El.
    + cbn. by destruct e.
    + destruct (filter_py_raise (fun r => UsageTz.dt_le d (UsageTz.stamp r)) (x :: l'))
        as [err ->]; [|done|done].
      intros r _. unfold UsageTz.dt_le. cbn. rewrite Hd. by eexists.
  - assert (Hend : forall l0, catch (UsageTz.filter_py (fun r => UsageTz.dt_le (UsageTz.stamp r) d) l0) (fun _ => []) = []).
    { intros [|x l0]; [done|].
      destruct (filter_py_raise (fun r => UsageTz.dt_le (UsageTz.stamp r) d) (x :: l0))
        as [err ->]; [|done|done].
      intros r _. unfold UsageTz.dt_le. cbn. rewrite Hd. by eexists. }
    destruct s as [s|]; cbn; [|apply Hend].
    destruct (UsageTz.filter_py _ l) as [l1|err]; cbn; [apply Hend|done].
Qed.

End UsageTzOps.

Module UsageOps.
Import UsageLog UsageTz.

Lemma tz_user_usage_filter records uid s e :
  UsageTz.get_user_usage records uid (mkDt true <$> s) (mkDt true <$> e) =
    filter (fun r => e_user_id r = uid /\ in_range s e r = true) records.
Proof.
  unfold UsageTz.get_user_usage, in_range.
  destruct s as [s|], e as [e|]; cbn;
    rewrite ?(UsageTzOps.filter_py_total _ (fun r => s <= e_timestamp r)) by (intros; reflexivity); cbn;
    rewrite ?(UsageTzOps.filter_py_total _ (fun r => e_timestamp r <= e)) by (intros; reflexivity); cbn;
    rewrite ?list_filter_filter; apply list_filter_iff;
    intros r; rewrite ?andb_true_iff, ?bool_decide_eq_true; simpl; tauto.
Qed.

Lemma naive_user_usage_filter records uid s e :
  UsageNaive.get_user_usage records uid (mkDt false <$> s) (mkDt false <$> e) =
    filter (fun r => e_user_id r = uid /\ in_range s e r = true) records.
Proof.
  unfold UsageNaive.get_user_usage, in_range.
  destruct s as [s|], e as [e|]; cbn;
    rewrite ?(UsageTzOps.filter_py_total _ (fun r => s <= e_timestamp r)) by (intros; reflexivity); cbn;
    rewrite ?(UsageTzOps.filter_py_total _ (fun r => e_timestamp r <= e)) by (intros; reflexivity); cbn;
    rewrite ?list_filter_filter; apply list_filter_iff;
    intros r; rewrite ?andb_true_iff, ?bool_decide_eq_true; simpl; tauto.
Qed.

Lemma naive_aware_date_empty records uid s e :
  (exists d, s = Some d /\ dt_aware d = true) \/
  (exists d, e = Some d /\ dt_aware d = true) ->
  UsageNaive.get_user_usage records uid s e = [].
Proof.
  intros Hn. unfold UsageNaive.get_user_usage. cbv zeta.
  set (l := filter (fun r => e_user_id r = uid) records).
  destruct Hn as [(d & -> & Hd) | (d & -> & Hd)].
  - destruct l as [|x l'] eqn:El.
    + cbn. by destruct e.
    + destruct (UsageTzOps.filter_py_raise (fun r => dt_le d (UsageNaive.stamp r)) (x :: l'))
        as [err ->]; [|done|done].
      intros r _. unfold dt_le. cbn. rewrite Hd. by eexists.
  - assert (Hend : forall l0, catch (filter_py (fun r => dt_le (UsageNaive.stamp r) d) l0) (fun _ => []) = []).
    { intros [|x l0]; [done|].
      destruct (UsageTzOps.filter_py_raise (fun r => dt_le (UsageNaive.stamp r) d) (x :: l0))
        as [err ->]; [|done|done].
      intros r _. unfold dt_le. cbn. rewrite Hd. by eexists. }
    destruct s as [s|]; cbn; [|apply Hend].
    destruct (filter_py _ l) as [l1|err]; cbn; [apply Hend|done].
Qed.

Lemma in_period_naive s e r :
  UsageNaive.in_period (mkDt false <$> s) (mkDt false <$> e) r = Ok (bool_decide (in_range s e r = true)).
Proof.
  unfold UsageNaive.in_period, in_range.
  destruct s as [s|], e as [e|]; cbn; repeat case_bool_decide; done.
Qed.

Lemma department_usage_naive exn_str records department s e :
  let n := Z.of_nat (length (filter (fun r => in_range s e r = true) records)) in
  UsageNaive.get_department_usage exn_str records department (mkDt false <$> s) (mkDt false <$> e) =
    UsageNaive.DeptUsage (UsageNaive.mkDeptUsage department n (Z.min n 10) 0x1.e666666666666p-1%float 2500
                            (mkDt false <$> s, mkDt false <$> e)).
Proof.
  intros n. unfold UsageNaive.get_department_usage.
  rewrite (UsageTzOps.filter_py_total _ (fun r => in_range s e r = true)) by (intros; apply in_period_naive).
  reflexivity.
Qed.

Lemma department_usage_aware exn_str records department s e :
  records <> [] ->
  (exists d, s = Some d /\ dt_aware d = true) \/
  (s = None /\ exists d, e = Some d /\ dt_aware d = true) ->
  UsageNaive.get_department_usage exn_str records department s e = UsageNaive.DeptError (exn_str TypeError).
Proof.
  destruct records as [|r rs]; intros Hne Ha; [done|].
  assert (Hp : UsageNaive.in_period s e r = Raise TypeError).
  { unfold UsageNaive.in_period.
    destruct Ha as [([[] t] & -> & Hd) | (-> & [[] t] & -> & Hd)]; by cbn in Hd |- *. }
  unfold UsageNaive.get_department_usage. cbn [filter_py]. rewrite Hp. reflexivity.
Qed.

Lemma cleanup_keep now days_to_keep records :
  Z.abs days_to_keep <= 999999999 ->
  UsageNaive.datetime_min <= now - days days_to_keep <= UsageNaive.datetime_max ->
  UsageNaive.cleanup_old_records now days_to_keep records =
    (filter (fun r => now - days days_to_keep <= e_timestamp r) records,
     Z.of_nat (length (filter (fun r => e_timestamp r < now - days days_to_keep) records))).
Proof.
  intros Hd Hc. unfold UsageNaive.cleanup_old_records, UsageNaive.timedelta_days, UsageNaive.dt_sub.
  rewrite (proj2 (Z.leb_le _ _) Hd). cbn [mbind outcome_bind].
  replace ((UsageNaive.datetime_min <=? now - days days_to_keep) && (now - days days_to_keep <=? UsageNaive.datetime_max))
    with true by (symmetry; apply andb_true_iff; split; apply Z.leb_le; lia).
  reflexivity.
Qed.

Lemma cleanup_overflow now days_to_keep records :
  ~ (Z.abs days_to_keep <= 999999999 /\
     UsageNaive.datetime_min <= now - days days_to_keep <= UsageNaive.datetime_max) ->
  UsageNaive.cleanup_old_records now days_to_keep records = (records, 0).
Proof.
  intros Hn. unfold UsageNaive.cleanup_old_records, UsageNaive.timedelta_days, UsageNaive.dt_sub.
  destruct (Z.leb_spec (Z.abs days_to_keep) 999999999) as [Hd|Hd]; [|reflexivity].
  cbn [mbind outcome_bind].
  destruct (Z.leb_spec UsageNaive.datetime_min (now - days days_to_keep));
    destruct (Z.leb_spec (now - days days_to_keep) UsageNaive.datetime_max); try reflexivity.
  exfalso. apply Hn. lia.
Qed.

End UsageOps.

(** X18. [UsageService.record_request] followed by [get_user_usage] with
    naive dates, as the service's [datetime.utcnow()] timestamps are: the
    query returns what it returned before, plus the new entry when it
    belongs to the queried user and lies in the date range. With an aware
    start or end date the comparison raises [TypeError], which is caught:
    the query returns no records. *)
Theorem usage_record_then_query cache_store now records uid endpoint request_type rt success err uid' s e :
  let r := UsageLog.mkEntry uid endpoint request_type now rt success err in
  let records' := (UsageLog.record_request cache_store now records uid endpoint request_type rt success err).1 in
  UsageNaive.get_user_usage records' uid' (UsageTz.mkDt false <$> s) (UsageTz.mkDt false <$> e) =
    UsageNaive.get_user_usage records uid' (UsageTz.mkDt false <$> s) (UsageTz.mkDt false <$> e) ++
      (if bool_decide (uid = uid') && UsageLog.in_range s e r then [r] else []) /\
  (forall s' e', (exists d, s' = Some d /\ UsageTz.dt_aware d = true) \/
                 (exists d, e' = Some d /\ UsageTz.dt_aware d = true) ->
     UsageNaive.get_user_usage records' uid' s' e' = []).
Proof.
  intros r records'. split; [|intros s' e' Ha; by apply UsageOps.naive_aware_date_empty].
  rewrite !UsageOps.naive_user_usage_filter. unfold records', UsageLog.record_request. cbn [fst].
  rewrite filter_app. f_equal. rewrite filter_cons, filter_nil. fold r.
  destruct (bool_decide_reflect (uid = uid')) as [<-|Hne]; simpl.
  - destruct (UsageLog.in_range s e r); simpl.
    + rewrite decide_True; [done|]. by split.
    + rewrite decide_False; [done|]. by intros [_ ?].
  - rewrite decide_False; [done|]. intros [? _]. by apply Hne.
Qed.

Lemma usage_record_then_query_witness :
  UsageNaive.get_user_usage
    (UsageLog.record_request (fun _ => Ok ()) 5 [] "u1" "recommendations" "course_recommendation"
       None true None).1 "u1" (Some (UsageTz.mkDt true 0)) None = [].
Proof.
  apply (proj2 (usage_record_then_query (fun _ => Ok ()) 5 [] "u1" "recommendations" "course_recommendation"
                  None true None "u1" None None)).
  left. eexists. split; reflexivity.
Defined.

(** X19. [cleanup_old_records] with [days_to_keep] of magnitude at most
    999999999 and a cutoff within the range of [datetime] keeps, in order,
    exactly the entries at or after the cutoff; the count it returns plus
    the number kept is the old number of entries, and a second cleanup
    removes nothing. Otherwise [timedelta] or the subtraction raises
    [OverflowError], which is caught: every entry is kept and 0 is
    returned. *)
Theorem usage_cleanup_partition now days_to_keep records :
  let cutoff := now - days days_to_keep in
  let '(kept, removed) := UsageNaive.cleanup_old_records now days_to_keep records in
  ((Z.abs days_to_keep <= 999999999 /\ UsageNaive.datetime_min <= cutoff <= UsageNaive.datetime_max) ->
   Z.of_nat (length kept) + removed = Z.of_nat (length records) /\
   kept `sublist_of` records /\
   Forall (fun r => cutoff <= UsageLog.e_timestamp r) kept /\
   (forall r, r ∈ records -> cutoff <= UsageLog.e_timestamp r -> r ∈ kept) /\
   UsageNaive.cleanup_old_records now days_to_keep kept = (kept, 0)) /\
  (~ (Z.abs days_to_keep <= 999999999 /\ UsageNaive.datetime_min <= cutoff <= UsageNaive.datetime_max) ->
   kept = records /\ removed = 0).
Proof.
  intros cutoff.
  destruct (decide (Z.abs days_to_keep <= 999999999 /\
                    UsageNaive.datetime_min <= cutoff <= UsageNaive.datetime_max)) as [Hin|Hout].
  2:{ rewrite (UsageOps.cleanup_overflow now days_to_keep records Hout).
      split; [by intros|by intros _]. }
  destruct Hin as [Hd Hc].
  rewrite (UsageOps.cleanup_keep now days_to_keep records Hd Hc). fold cutoff.
  split; [intros _|by intros []].
  split; [|split; [|split; [|split]]].
  - assert (H : forall l : list UsageLog.UsageEntry,
              Nat.add (length (filter (fun r => cutoff <= UsageLog.e_timestamp r) l))
                      (length (filter (fun r => UsageLog.e_timestamp r < cutoff) l)) = length l).
    { induction l as [|x l IH]; [done|]. rewrite !filter_cons.
      repeat case_decide; simpl; lia. }
    specialize (H records). lia.
  - apply sublist_filter.
  - apply Forall_forall. intros r. rewrite list_elem_of_filter. tauto.
  - intros r Hr Hc'. rewrite list_elem_of_filter. tauto.
  - rewrite (UsageOps.cleanup_keep now days_to_keep _ Hd Hc). fold cutoff. f_equal.
    + rewrite list_filter_filter. apply list_filter_iff. tauto.
    + rewrite list_filter_filter.
      induction records as [|x l IH]; [done|]. rewrite filter_cons.
      case_decide; [lia|exact IH].
Qed.

Lemma usage_cleanup_partition_witness :
  let records := [UsageLog.mkEntry "u1" "recommendations" "course_recommendation" 0 None true None] in
  ~ (Z.abs (-3000000) <= 999999999 /\
     UsageNaive.datetime_min <= 1700000000000000 - days (-3000000) <= UsageNaive.datetime_max) /\
  (let '(kept, removed) := UsageNaive.cleanup_old_records 1700000000000000 (-3000000) records in
   kept = records /\ removed = 0).
Proof.
  intros records.
  assert (Hout : ~ (Z.abs (-3000000) <= 999999999 /\
                    UsageNaive.datetime_min <= 1700000000000000 - days (-3000000) <= UsageNaive.datetime_max)).
  { rewrite QuotaOps.days_mul. unfold UsageNaive.datetime_min, UsageNaive.datetime_max. lia. }
  split; [exact Hout|].
  exact (proj2 (usage_cleanup_partition 1700000000000000 (-3000000) records) Hout).
Defined.

(** X20. [get_department_usage] with naive dates does not depend on the
    department: its total counts the entries of all users in the range,
    at least as many as [get_user_usage] returns for any user. With an
    aware start date, or no start date and an aware end date, the first
    comparison raises [TypeError] and the result is
    [{"error": str(e)}]. *)
Theorem department_usage_ignores_department exn_str records department department' uid s e :
  (exists a b,
     UsageNaive.get_department_usage exn_str records department
       (UsageTz.mkDt false <$> s) (UsageTz.mkDt false <$> e) = UsageNaive.DeptUsage a /\
     UsageNaive.get_department_usage exn_str records department'
       (UsageTz.mkDt false <$> s) (UsageTz.mkDt false <$> e) = UsageNaive.DeptUsage b /\
     UsageNaive.du_total_requests a = UsageNaive.du_total_requests b /\
     UsageNaive.du_total_requests a =
       Z.of_nat (length (filter (fun r => UsageLog.in_range s e r = true) records)) /\
     Z.of_nat (length (UsageNaive.get_user_usage records uid
                         (UsageTz.mkDt false <$> s) (UsageTz.mkDt false <$> e))) <=
       UsageNaive.du_total_requests a) /\
  (forall s' e', records <> [] ->
     (exists d, s' = Some d /\ UsageTz.dt_aware d = true) \/
     (s' = None /\ exists d, e' = Some d /\ UsageTz.dt_aware d = true) ->
     UsageNaive.get_department_usage exn_str records department s' e' =
       UsageNaive.DeptError (exn_str TypeError)).
Proof.
  split; [|intros s' e'; apply UsageOps.department_usage_aware].
  rewrite !UsageOps.department_usage_naive.
  do 2 eexists. split; [reflexivity|split; [reflexivity|]]. cbn [UsageNaive.du_total_requests].
  split; [reflexivity|split; [reflexivity|]].
  rewrite UsageOps.naive_user_usage_filter.
  rewrite <- (list_filter_filter_l (fun r => UsageLog.e_user_id r = uid /\ UsageLog.in_range s e r = true)
                (fun r => UsageLog.in_range s e r = true)) by tauto.
  apply Nat2Z.inj_le, sublist_length, sublist_filter.
Qed.

Lemma department_usage_ignores_department_witness :
  UsageNaive.get_department_usage (fun _ => "can't compare offset-naive and offset-aware datetimes")
    [UsageLog.mkEntry "u1" "recommendations" "course_recommendation" 5 None true None] "EECS"
    (Some (UsageTz.mkDt true 0)) None =
  UsageNaive.DeptError "can't compare offset-naive and offset-aware datetimes".
Proof.
  apply (proj2 (department_usage_ignores_department
                  (fun _ => "can't compare offset-naive and offset-aware datetimes")
                  [UsageLog.mkEntry "u1" "recommendations" "course_recommendation" 5 None true None]
                  "EECS" "EECS" "u1" None None)); [discriminate|].
  left. eexists. split; reflexivity.
Defined.

(** X21. The [usage_service.py] [get_user_usage] with aware dates keeps
    the queried user's entries whose instants lie in the date range. *)
Theorem usage_tz_aware_dates records uid s e :
  UsageTz.get_user_usage records uid (UsageTz.mkDt true <$> s) (UsageTz.mkDt true <$> e) =
    filter (fun r => UsageLog.e_user_id r = uid /\ UsageLog.in_range s e r = true) records.
Proof. apply UsageOps.tz_user_usage_filter. Qed.

(** X22. The [usage_service.py] [get_user_usage] with a naive start or end
    date returns no records: comparing them with the aware timestamps
    raises [TypeError], which is caught. *)
Theorem usage_tz_naive_date_empty records uid s e :
  (exists d, s = Some d /\ UsageTz.dt_aware d = false) \/
  (exists d, e = Some d /\ UsageTz.dt_aware d = false) ->
  UsageTz.get_user_usage records uid s e = [].
Proof. apply UsageTzOps.naive_date_empty. Qed.

Lemma usage_tz_naive_date_empty_witness :
  UsageTz.get_user_usage [UsageLog.mkEntry "u1" "recommendations" "course_recommendation" 5 None true None]
    "u1" (Some (UsageTz.mkDt false 0)) None = [].
Proof.
  apply usage_tz_naive_date_empty. left. eexists. split; reflexivity.
Defined.

(** X23. The admin endpoint [/usage/user/{user_id}] without dates uses the
    naive [datetime.utcnow()], so it reports 0 requests and no records. *)
Theorem admin_user_usage_default_dates now records user_id :
  UsageTz.uu_total_requests (UsageTz.admin_get_user_usage now records user_id None None) = 0 /\
  UsageTz.uu_usage_records (UsageTz.admin_get_user_usage now records user_id None None) = [].
Proof.
  assert (H : UsageTz.get_user_usage records user_id
                (Some (UsageTz.mkDt false (now - days 30))) (Some (UsageTz.mkDt false now)) = []).
  { apply UsageTzOps.naive_date_empty. right. eexists. split; reflexivity. }
  unfold UsageTz.admin_get_user_usage. cbn. rewrite H. done.
Qed.

(** X24. Without an OpenAI client, [stream_recommendations] yields the
    analyzing message and the error message, and records one failure for
    a signed-in user. *)
Theorem stream_recommendations_no_client svc chat_stream exn_str req user ledger :
  Pipeline.llm_client svc = false ->
  let err := exn_str (RuntimeError "OpenAI client not initialized") in
  Streaming.stream_recommendations svc chat_stream exn_str req user ledger =
    ([Streaming.msg_analyzing; Streaming.msg_error err],
     match user with
     | Some u => ledger ++ [Pipeline.mkUsage (user_id u) false (Some err) None]
     | None => ledger
     end).
Proof.
  intros Hc err. unfold Streaming.stream_recommendations, Pipeline.generate_course_description.
  rewrite Hc. reflexivity.
Qed.

Lemma stream_recommendations_no_client_witness :
  let svc := Pipeline.mkServices false (fun _ => Ok "") (fun _ _ => Ok "") (fun _ _ => Ok None)
               (fun _ => Ok []) (fun _ _ _ => Ok []) (fun _ => Ok ()) in
  Streaming.stream_recommendations svc (fun _ _ => ([], Ok ())) (fun _ => "boom")
    (Pipeline.mkRequest "databases" None 5 false) (Some (mkUser "u1" STUDENT None)) [] =
    ([Streaming.msg_analyzing; Streaming.msg_error "boom"],
     [] ++ [Pipeline.mkUsage "u1" false (Some "boom") None]).
Proof.
  intros svc. exact (stream_recommendations_no_client svc _ _ _ (Some (mkUser "u1" STUDENT None)) [] eq_refl).
Defined.
